(** * LLM Guardian: request lifecycle and protective primitives

    A shallow embedding of the orchestrator ([core/guardian.py]) and of the
    primitives it composes ([safety/circuit_breaker.py],
    [safety/rate_limiter.py], [recovery/retry_manager.py],
    [monitoring/quality_monitor.py], [monitoring/performance_monitor.py],
    [safety/validators.py], [recovery/audit_logger.py],
    [recovery/state_manager.py]).

    Conventions of the embedding:
    - Python [int] is [Z]; a [datetime] is a [Z] count of microseconds and a
      [timedelta] a [Z] number of microseconds; Python [float] is idealised
      as an exact rational [Q];
    - a method that mutates [self] is a computation in the monad [M S],
      where [S] is the record of the object's fields; an exception keeps
      the mutations made before it was raised;
    - every [datetime.utcnow()] reads the next value of an external clock;
    - Python dictionaries are stdpp [gmap]s. *)

From Stdlib Require Import ZArith QArith Qminmax Qpower Lia Lqa.
From stdpp Require Import gmap strings list.

Local Open Scope Z_scope.

(** ** Exceptions ([core/exceptions.py], the builtins the code names, and
    [re.error], here [ReError], which [re.search] raises on a pattern that
    is not a regular expression) *)

Inductive ExnClass : Type :=
  | BaseException | CancelledError
  | Exception | OSError | ConnectionError | TimeoutError | ValueError | ReError
  | LLMGuardianError
  | ValidationError | PromptInjectionError | ContentPolicyViolationError
  | RateLimitExceededError
  | QuotaExceededError | SessionBudgetExceededError | BudgetExceededError
  | CircuitBreakerOpenError | CircuitBreakerError
  | RetryExhaustedError | NonRetryableError
  | MonitoringError | QualityCheckFailedError
  | HallucinationDetectedError | OffTaskResponseError
  | LLMProviderError | LLMProviderTimeoutError
  | LLMProviderRateLimitError | LLMProviderAPIError
  | StateManagementError | CheckpointNotFoundError
  | CheckpointLoadError | CheckpointSaveError
  | ConfigurationError | MissingAPIKeyError
  | IntegrationError | UnsupportedProviderError | ModelNotAvailableError.

#[global] Instance ExnClass_eq_dec : EqDecision ExnClass.
Proof. solve_decision. Defined.

(** The direct base class of each exception class. *)
Definition base_class (c : ExnClass) : option ExnClass :=
  match c with
  | BaseException => None
  | CancelledError | Exception => Some BaseException
  | OSError | ValueError | ReError | LLMGuardianError => Some Exception
  | ConnectionError | TimeoutError => Some OSError
  | ValidationError | RateLimitExceededError | QuotaExceededError
  | CircuitBreakerOpenError | CircuitBreakerError | RetryExhaustedError
  | NonRetryableError | MonitoringError | LLMProviderError
  | StateManagementError | ConfigurationError | IntegrationError =>
      Some LLMGuardianError
  | PromptInjectionError | ContentPolicyViolationError => Some ValidationError
  | SessionBudgetExceededError | BudgetExceededError => Some QuotaExceededError
  | QualityCheckFailedError => Some MonitoringError
  | HallucinationDetectedError | OffTaskResponseError =>
      Some QualityCheckFailedError
  | LLMProviderTimeoutError | LLMProviderRateLimitError
  | LLMProviderAPIError => Some LLMProviderError
  | CheckpointNotFoundError | CheckpointLoadError | CheckpointSaveError =>
      Some StateManagementError
  | MissingAPIKeyError => Some ConfigurationError
  | UnsupportedProviderError | ModelNotAvailableError => Some IntegrationError
  end.

Fixpoint subclass_upto (depth : nat) (c d : ExnClass) : bool :=
  if decide (c = d) then true
  else match depth with
       | O => false
       | S depth' =>
           match base_class c with
           | Some b => subclass_upto depth' b d
           | None => false
           end
       end.

(** [isinstance e d]: the hierarchy is at most six classes deep. *)
Definition isinstance (e d : ExnClass) : bool := subclass_upto 6 e d.

(** ** Results and the state monad with exceptions and a clock *)

Inductive Res (A : Type) : Type :=
  | Ok (a : A)
  | Raise (e : ExnClass).
Arguments Ok {A} a.
Arguments Raise {A} e.

(** A computation over an object state [S]; the [nat] counts the
    [datetime.utcnow()] calls made so far. *)
Definition M (S A : Type) : Type := S * nat -> Res A * (S * nat).

Definition ret {S A} (a : A) : M S A := fun s => (Ok a, s).

Definition raise {S A} (e : ExnClass) : M S A := fun s => (Raise e, s).

Definition bind {S A B} (m : M S A) (k : A -> M S B) : M S B :=
  fun s =>
    match m s with
    | (Ok a, s') => k a s'
    | (Raise e, s') => (Raise e, s')
    end.

Declare Scope guardian_scope.
Delimit Scope guardian_scope with guardian.
Notation "x <- c1 ;; c2" := (bind c1 (fun x => c2))
  (at level 100, c1 at next level, right associativity) : guardian_scope.
Notation "c1 ;; c2" := (bind c1 (fun _ => c2))
  (at level 100, right associativity) : guardian_scope.
Local Open Scope guardian_scope.

Definition get {S} : M S S := fun s => (Ok (fst s), s).

Definition modify {S} (f : S -> S) : M S unit :=
  fun s => (Ok tt, (f (fst s), snd s)).

(** [try: m except: h]: the handler sees the raised exception. *)
Definition try_except {S A} (m : M S A) (h : ExnClass -> M S A) : M S A :=
  fun s =>
    match m s with
    | (Ok a, s') => (Ok a, s')
    | (Raise e, s') => h e s'
    end.

(** A field (or sub-object) [T] of an object [S]. *)
Record Lens (S T : Type) : Type := {
  view : S -> T;
  update : T -> S -> S;
}.
Arguments view {S T} _ _.
Arguments update {S T} _ _ _.

(** Run a method of the sub-object inside the enclosing object. *)
Definition zoom {S T A} (L : Lens S T) (m : M T A) : M S A :=
  fun s =>
    match m (view L (fst s), snd s) with
    | (r, (t', k')) => (r, (update L t' (fst s), k'))
    end.

(** The computations unfold once they are run on a state. *)
Arguments ret {S A} a s /.
Arguments raise {S A} e s /.
Arguments bind {S A B} m k s /.
Arguments get {S} s /.
Arguments modify {S} f s /.
Arguments try_except {S A} m h s /.
Arguments zoom {S T A} L m s /.

Definition id_lens {S} : Lens S S := {| view := fun s => s; update := fun t _ => t |}.

(** Python truthiness of an [Optional[str]]: [None] and [""] are falsy. *)
Definition truthy_str (o : option string) : bool :=
  match o with
  | Some s => negb (String.eqb s "")
  | None => false
  end.

(** ** Floats as rationals *)

Definition Qltb (x y : Q) : bool := negb (Qle_bool y x).
Definition Qgeb (x y : Q) : bool := Qle_bool y x.
Definition Qgtb (x y : Q) : bool := negb (Qle_bool x y).

(** Python's [min(x, y)] and [max(x, y)] on two arguments. *)
Definition py_min (x y : Q) : Q := if Qltb y x then y else x.
Definition py_max (x y : Q) : Q := if Qgtb y x then y else x.

(** [timedelta.total_seconds()] of a difference of two datetimes. *)
Definition total_seconds (micros : Z) : Q := inject_Z micros / 1000000.

(** ** Domain model ([core/models.py]) *)

Inductive ResponseQuality : Type :=
  | EXCELLENT | GOOD | ACCEPTABLE | POOR | UNSAFE.

Record RequestContext : Type := {
  ctx_request_id : string;
  ctx_timestamp : Z;
  user_id : option string;
  session_id : option string;
  prompt : string;
  max_tokens : Z;
  temperature : Q;
  allowed_topics : option (list string);
  forbidden_patterns : option (list string);
  max_cost_usd : option Q;
}.

(** [raw_response] is kept as the nested dictionary of integers that
    [record_metrics] reads ([raw_response["usage"]["prompt_tokens"]]). *)
Record LLMResponse : Type := {
  request_id : string;
  response_text : string;
  latency_ms : Q;
  tokens_used : Z;
  cost_usd : Q;
  quality_score : Q;
  quality_level : ResponseQuality;
  contains_harmful_content : bool;
  is_hallucination : bool;
  is_off_task : bool;
  provider : string;
  model : string;
  raw_response : gmap string (gmap string Z);
  timestamp : Z;
}.

Record MonitoringAlert : Type := {
  alert_id : string;
  alert_severity : string;
  category : string;
  alert_request_id : option string;
  resolved : bool;
}.

Record QualityAssessment : Type := {
  qa_request_id : string;
  hallucination_probability : Q;
  safety_violations : list string;
  coherence_score : Q;
  relevance_score : Q;
  pass_validation : bool;
  recommended_action : string;
  qa_warnings : list string;
}.

Record PerformanceMetrics : Type := {
  pm_request_id : string;
  pm_latency_ms : Q;
  tokens_prompt : Z;
  tokens_completion : Z;
  tokens_total : Z;
  pm_cost_usd : Q;
  pm_provider : string;
  pm_model : string;
  pm_timestamp : Z;
}.

Record ValidationResult : Type := {
  is_valid : bool;
  errors : list string;
  warnings : list string;
  severity : string;
}.

(** ** Configuration ([core/config.py]) *)

Record MonitoringConfig : Type := {
  quality_alert_threshold : Q;
  performance_alert_threshold_ms : Q;
}.

Record SafetyConfig : Type := {
  circuit_breaker_threshold : Z;
  circuit_recovery_seconds : Z;
  max_prompt_length : Z;
}.

Record RateLimitConfig : Type := {
  global_max_requests_per_minute : Z;
  user_max_requests_per_minute : Z;
  user_daily_quota_usd : option Q;
  session_budget_usd : option Q;
}.

Record RetryConfig : Type := {
  max_attempts : Z;
}.

Record GuardianConfig : Type := {
  monitoring : MonitoringConfig;
  safety : SafetyConfig;
  rate_limiting : RateLimitConfig;
  retry_strategy : RetryConfig;
  anthropic_api_key : option string;
  openai_api_key : option string;
  fallback_provider : option string;
  fallback_model : option string;
  enable_monitoring : bool;
  enable_safety_checks : bool;
  enable_recovery : bool;
}.

(** ** The world outside the repository

    What the code obtains from libraries and remote services: the system
    clock, the regular-expression engine, string helpers, the provider
    HTTP clients, numpy and the file system. *)
Record Env : Type := {
  (** the value returned by the [n]-th [datetime.utcnow()] *)
  clock : nat -> Z;
  (** [re.compile(pattern)] succeeds: the pattern is a regular expression *)
  re_compiles : string -> bool;
  (** [re.search(pattern, text, re.IGNORECASE)] found a match, for a
      pattern that compiles *)
  re_search : string -> string -> bool;
  (** [re.findall(r"\b[a-z]+\b", text.lower())] *)
  find_words : string -> list string;
  (** [len(text.split())] *)
  word_count : string -> Z;
  (** [text.lower()] *)
  lower : string -> string;
  (** [client.generate(context, model)] of the named provider, given the
      number of [generate] calls made before this one *)
  generate : string -> string -> RequestContext -> nat -> Res LLMResponse;
  (** [np.percentile(values, q)] *)
  np_percentile : list Q -> Q -> Q;
  (** the checkpoint file of a request can be opened for writing *)
  checkpoint_file_opens : string -> bool;
}.

Section Guardian.

Variable env : Env.

Definition utcnow {St} : M St Z :=
  fun s => (Ok (clock env (snd s)), (fst s, S (snd s))).
Arguments utcnow {St} s /.

(** [datetime.date()]: the day number of a microsecond timestamp. *)
Definition date (t : Z) : Z := t / 86400000000.

(** ** [safety/rate_limiter.py]: TokenBucket *)

Record TokenBucket : Type := {
  capacity : Z;
  refill_rate : Q;
  tokens : Q;
  last_refill : Z;
}.

(** [TokenBucket.__init__] *)
Definition TokenBucket_init {St} (cap : Z) (rate : Q) : M St TokenBucket :=
  now <- utcnow ;;
  ret {| capacity := cap; refill_rate := rate;
         tokens := inject_Z cap; last_refill := now |}.

(** [TokenBucket._refill] *)
Definition _refill : M TokenBucket unit :=
  now <- utcnow ;;
  modify (fun self =>
    let elapsed := total_seconds (now - last_refill self) in
    let tokens_to_add := (elapsed * refill_rate self)%Q in
    {| capacity := capacity self; refill_rate := refill_rate self;
       tokens := py_min (inject_Z (capacity self)) (tokens self + tokens_to_add)%Q;
       last_refill := now |}).

(** [TokenBucket.acquire] *)
Definition acquire (n : Z) : M TokenBucket bool :=
  _refill ;;
  self <- get ;;
  if Qgeb (tokens self) (inject_Z n) then
    modify (fun self =>
      {| capacity := capacity self; refill_rate := refill_rate self;
         tokens := (tokens self - inject_Z n)%Q;
         last_refill := last_refill self |}) ;;
    ret true
  else ret false.

(** ** [safety/circuit_breaker.py]: CircuitBreaker *)

Inductive CircuitState : Type := CLOSED | OPEN | HALF_OPEN.

#[global] Instance CircuitState_eq_dec : EqDecision CircuitState.
Proof. solve_decision. Defined.

Record CircuitBreaker : Type := {
  failure_threshold : Z;
  recovery_timeout : Z;
  success_threshold : Z;
  expected_exception : ExnClass;
  state : CircuitState;
  failure_count : Z;
  success_count : Z;
  last_failure_time : option Z;
  last_state_change : Z;
  total_calls : Z;
  total_failures : Z;
  total_successes : Z;
  state_history : list (CircuitState * Z);
}.

(** Assignments to one attribute of the breaker. *)
Definition set_state (v : CircuitState) (self : CircuitBreaker) : CircuitBreaker :=
  {| failure_threshold := failure_threshold self; recovery_timeout := recovery_timeout self;
     success_threshold := success_threshold self; expected_exception := expected_exception self;
     state := v; failure_count := failure_count self; success_count := success_count self;
     last_failure_time := last_failure_time self; last_state_change := last_state_change self;
     total_calls := total_calls self; total_failures := total_failures self;
     total_successes := total_successes self; state_history := state_history self |}.

Definition set_failure_count (v : Z) (self : CircuitBreaker) : CircuitBreaker :=
  {| failure_threshold := failure_threshold self; recovery_timeout := recovery_timeout self;
     success_threshold := success_threshold self; expected_exception := expected_exception self;
     state := state self; failure_count := v; success_count := success_count self;
     last_failure_time := last_failure_time self; last_state_change := last_state_change self;
     total_calls := total_calls self; total_failures := total_failures self;
     total_successes := total_successes self; state_history := state_history self |}.

Definition set_success_count (v : Z) (self : CircuitBreaker) : CircuitBreaker :=
  {| failure_threshold := failure_threshold self; recovery_timeout := recovery_timeout self;
     success_threshold := success_threshold self; expected_exception := expected_exception self;
     state := state self; failure_count := failure_count self; success_count := v;
     last_failure_time := last_failure_time self; last_state_change := last_state_change self;
     total_calls := total_calls self; total_failures := total_failures self;
     total_successes := total_successes self; state_history := state_history self |}.

Definition set_last_failure_time (v : option Z) (self : CircuitBreaker) : CircuitBreaker :=
  {| failure_threshold := failure_threshold self; recovery_timeout := recovery_timeout self;
     success_threshold := success_threshold self; expected_exception := expected_exception self;
     state := state self; failure_count := failure_count self; success_count := success_count self;
     last_failure_time := v; last_state_change := last_state_change self;
     total_calls := total_calls self; total_failures := total_failures self;
     total_successes := total_successes self; state_history := state_history self |}.

Definition set_last_state_change (v : Z) (self : CircuitBreaker) : CircuitBreaker :=
  {| failure_threshold := failure_threshold self; recovery_timeout := recovery_timeout self;
     success_threshold := success_threshold self; expected_exception := expected_exception self;
     state := state self; failure_count := failure_count self; success_count := success_count self;
     last_failure_time := last_failure_time self; last_state_change := v;
     total_calls := total_calls self; total_failures := total_failures self;
     total_successes := total_successes self; state_history := state_history self |}.

Definition set_total_calls (v : Z) (self : CircuitBreaker) : CircuitBreaker :=
  {| failure_threshold := failure_threshold self; recovery_timeout := recovery_timeout self;
     success_threshold := success_threshold self; expected_exception := expected_exception self;
     state := state self; failure_count := failure_count self; success_count := success_count self;
     last_failure_time := last_failure_time self; last_state_change := last_state_change self;
     total_calls := v; total_failures := total_failures self;
     total_successes := total_successes self; state_history := state_history self |}.

Definition set_total_failures (v : Z) (self : CircuitBreaker) : CircuitBreaker :=
  {| failure_threshold := failure_threshold self; recovery_timeout := recovery_timeout self;
     success_threshold := success_threshold self; expected_exception := expected_exception self;
     state := state self; failure_count := failure_count self; success_count := success_count self;
     last_failure_time := last_failure_time self; last_state_change := last_state_change self;
     total_calls := total_calls self; total_failures := v;
     total_successes := total_successes self; state_history := state_history self |}.

Definition set_total_successes (v : Z) (self : CircuitBreaker) : CircuitBreaker :=
  {| failure_threshold := failure_threshold self; recovery_timeout := recovery_timeout self;
     success_threshold := success_threshold self; expected_exception := expected_exception self;
     state := state self; failure_count := failure_count self; success_count := success_count self;
     last_failure_time := last_failure_time self; last_state_change := last_state_change self;
     total_calls := total_calls self; total_failures := total_failures self;
     total_successes := v; state_history := state_history self |}.

Definition set_state_history (v : list (CircuitState * Z)) (self : CircuitBreaker) : CircuitBreaker :=
  {| failure_threshold := failure_threshold self; recovery_timeout := recovery_timeout self;
     success_threshold := success_threshold self; expected_exception := expected_exception self;
     state := state self; failure_count := failure_count self; success_count := success_count self;
     last_failure_time := last_failure_time self; last_state_change := last_state_change self;
     total_calls := total_calls self; total_failures := total_failures self;
     total_successes := total_successes self; state_history := v |}.

(** [CircuitBreaker.__init__] *)
Definition CircuitBreaker_init {St} (failure_threshold0 recovery_timeout0 success_threshold0 : Z)
    (expected : ExnClass) : M St CircuitBreaker :=
  now <- utcnow ;;
  ret {| failure_threshold := failure_threshold0; recovery_timeout := recovery_timeout0;
         success_threshold := success_threshold0; expected_exception := expected;
         state := CLOSED; failure_count := 0; success_count := 0;
         last_failure_time := None; last_state_change := now;
         total_calls := 0; total_failures := 0; total_successes := 0;
         state_history := [(CLOSED, now)] |}.

(** [CircuitBreaker._should_attempt_reset] *)
Definition _should_attempt_reset : M CircuitBreaker bool :=
  self <- get ;;
  match last_failure_time self with
  | None => ret true
  | Some t =>
      now <- utcnow ;;
      ret (bool_decide (recovery_timeout self <= now - t))
  end.

(** [CircuitBreaker._time_until_retry] *)
Definition _time_until_retry : M CircuitBreaker Q :=
  self <- get ;;
  match last_failure_time self with
  | None => ret 0%Q
  | Some t =>
      now <- utcnow ;;
      let elapsed := total_seconds (now - t) in
      let remaining := (total_seconds (recovery_timeout self) - elapsed)%Q in
      ret (py_max 0%Q remaining)
  end.

(** [CircuitBreaker._transition_to] *)
Definition _transition_to (new_state : CircuitState) : M CircuitBreaker unit :=
  self <- get ;;
  if bool_decide (state self <> new_state) then
    now <- utcnow ;;
    modify (set_state new_state) ;;
    modify (set_last_state_change now) ;;
    modify (fun self => set_state_history (state_history self ++ [(new_state, now)]) self) ;;
    match new_state with
    | CLOSED =>
        modify (set_failure_count 0) ;;
        modify (set_success_count 0)
    | HALF_OPEN => modify (set_success_count 0)
    | OPEN => ret tt
    end
  else ret tt.

(** [CircuitBreaker._on_success] *)
Definition _on_success : M CircuitBreaker unit :=
  modify (set_failure_count 0) ;;
  modify (fun self => set_total_successes (total_successes self + 1) self) ;;
  self <- get ;;
  if bool_decide (state self = HALF_OPEN) then
    modify (fun self => set_success_count (success_count self + 1) self) ;;
    self <- get ;;
    if bool_decide (success_threshold self <= success_count self) then
      _transition_to CLOSED ;;
      modify (set_success_count 0)
    else ret tt
  else ret tt.

(** [CircuitBreaker._on_failure] *)
Definition _on_failure : M CircuitBreaker unit :=
  modify (fun self => set_failure_count (failure_count self + 1) self) ;;
  modify (fun self => set_total_failures (total_failures self + 1) self) ;;
  now <- utcnow ;;
  modify (set_last_failure_time (Some now)) ;;
  self <- get ;;
  if bool_decide (state self = HALF_OPEN) then
    _transition_to OPEN ;;
    modify (set_success_count 0)
  else if bool_decide (state self = CLOSED) then
    if bool_decide (failure_threshold self <= failure_count self) then
      _transition_to OPEN
    else ret tt
  else ret tt.

(** The part of [CircuitBreaker.call] that runs under the lock before the
    wrapped function: count the call and, when OPEN, either move to
    HALF_OPEN or reject.  The error message and the error details each
    evaluate [_time_until_retry()]. *)
Definition call_admit : M CircuitBreaker unit :=
  modify (fun self => set_total_calls (total_calls self + 1) self) ;;
  self <- get ;;
  if bool_decide (state self = OPEN) then
    should_reset <- _should_attempt_reset ;;
    if should_reset then _transition_to HALF_OPEN
    else
      _ <- _time_until_retry ;;
      _ <- _time_until_retry ;;
      raise CircuitBreakerOpenError
  else ret tt.

(** [CircuitBreaker.call]: the breaker is the attribute [L] of the object
    [W] whose method [func] is wrapped. *)
(** The [try] block of [CircuitBreaker.call], which runs outside the lock. *)
Definition call_attempt {W A} (L : Lens W CircuitBreaker) (func : M W A) : M W A :=
  try_except
    (result <- func ;;
     zoom L _on_success ;;
     ret result)
    (fun e =>
       self <- zoom L get ;;
       if isinstance e (expected_exception self) then
         zoom L _on_failure ;;
         raise e
       else raise e).

Definition call {W A} (L : Lens W CircuitBreaker) (func : M W A) : M W A :=
  zoom L call_admit ;;
  call_attempt L func.

(** A finite sequence of [acquire] calls on one bucket; the result is the
    number of tokens handed out by the calls that returned [True]. *)
Fixpoint acquire_all (requests : list Z) : M TokenBucket Z :=
  match requests with
  | [] => ret 0
  | n :: requests' =>
      acquired <- acquire n ;;
      rest <- acquire_all requests' ;;
      ret ((if acquired then n else 0) + rest)
  end.

(** [CircuitBreaker.reset] *)
Definition reset : M CircuitBreaker unit :=
  _transition_to CLOSED ;;
  modify (set_failure_count 0) ;;
  modify (set_success_count 0) ;;
  modify (set_last_failure_time None).

(** ** [safety/rate_limiter.py]: RateLimiter *)

Record RateLimiter : Type := {
  rl_config : RateLimitConfig;
  global_limiter : TokenBucket;
  user_limiters : gmap string TokenBucket;
  user_quotas : gmap string Q;
  user_quota_reset : gmap string Z;
  session_costs : gmap string Q;
}.

Definition set_global_limiter (v : TokenBucket) (self : RateLimiter) : RateLimiter :=
  {| rl_config := rl_config self; global_limiter := v;
     user_limiters := user_limiters self; user_quotas := user_quotas self;
     user_quota_reset := user_quota_reset self; session_costs := session_costs self |}.

Definition set_user_limiters (v : gmap string TokenBucket) (self : RateLimiter) : RateLimiter :=
  {| rl_config := rl_config self; global_limiter := global_limiter self;
     user_limiters := v; user_quotas := user_quotas self;
     user_quota_reset := user_quota_reset self; session_costs := session_costs self |}.

Definition set_user_quotas (v : gmap string Q) (self : RateLimiter) : RateLimiter :=
  {| rl_config := rl_config self; global_limiter := global_limiter self;
     user_limiters := user_limiters self; user_quotas := v;
     user_quota_reset := user_quota_reset self; session_costs := session_costs self |}.

Definition set_user_quota_reset (v : gmap string Z) (self : RateLimiter) : RateLimiter :=
  {| rl_config := rl_config self; global_limiter := global_limiter self;
     user_limiters := user_limiters self; user_quotas := user_quotas self;
     user_quota_reset := v; session_costs := session_costs self |}.

Definition set_session_costs (v : gmap string Q) (self : RateLimiter) : RateLimiter :=
  {| rl_config := rl_config self; global_limiter := global_limiter self;
     user_limiters := user_limiters self; user_quotas := user_quotas self;
     user_quota_reset := user_quota_reset self; session_costs := v |}.

(** The attribute [self.global_limiter]. *)
Definition global_limiter_of : Lens RateLimiter TokenBucket :=
  {| view := global_limiter; update := set_global_limiter |}.

(** The bucket object [self.user_limiters[uid]], handed out by
    [_get_user_limiter] as [bucket]. *)
Definition user_limiter_of (uid : string) (bucket : TokenBucket) : Lens RateLimiter TokenBucket :=
  {| view := fun self => default bucket (user_limiters self !! uid);
     update := fun v self => set_user_limiters (<[uid := v]> (user_limiters self)) self |}.

(** A truthy [Optional[str]] and its value. *)
Definition nonempty (o : option string) : option string :=
  match o with
  | Some s => if String.eqb s "" then None else Some s
  | None => None
  end.

(** [RateLimiter.__init__] *)
Definition RateLimiter_init {St} (config : RateLimitConfig) : M St RateLimiter :=
  bucket <- TokenBucket_init (global_max_requests_per_minute config)
              (inject_Z (global_max_requests_per_minute config) / 60)%Q ;;
  ret {| rl_config := config; global_limiter := bucket;
         user_limiters := ∅; user_quotas := ∅;
         user_quota_reset := ∅; session_costs := ∅ |}.

(** [RateLimiter._get_user_limiter] *)
Definition _get_user_limiter (uid : string) : M RateLimiter TokenBucket :=
  self <- get ;;
  match user_limiters self !! uid with
  | Some bucket => ret bucket
  | None =>
      bucket <- TokenBucket_init (user_max_requests_per_minute (rl_config self))
                  (inject_Z (user_max_requests_per_minute (rl_config self)) / 60)%Q ;;
      modify (fun self => set_user_limiters (<[uid := bucket]> (user_limiters self)) self) ;;
      ret bucket
  end.

(** [RateLimiter._reset_user_quota_if_needed] *)
Definition _reset_user_quota_if_needed (uid : string) : M RateLimiter unit :=
  now <- utcnow ;;
  self <- get ;;
  let stale :=
    match user_quota_reset self !! uid with
    | None => true
    | Some last_reset => bool_decide (date last_reset < date now)
    end in
  if stale then
    modify (fun self => set_user_quotas (<[uid := 0%Q]> (user_quotas self)) self) ;;
    modify (fun self => set_user_quota_reset (<[uid := now]> (user_quota_reset self)) self)
  else ret tt.

(** [RateLimiter._check_user_quota] *)
Definition _check_user_quota (uid : string) (daily_quota_usd : Q) : M RateLimiter unit :=
  _reset_user_quota_if_needed uid ;;
  self <- get ;;
  let current_quota := default 0%Q (user_quotas self !! uid) in
  if Qgeb current_quota daily_quota_usd then raise QuotaExceededError
  else ret tt.

(** [RateLimiter._check_session_budget] *)
Definition _check_session_budget (sid : string) (budget_usd : Q) : M RateLimiter unit :=
  self <- get ;;
  let current_cost := default 0%Q (session_costs self !! sid) in
  if Qgeb current_cost budget_usd then raise QuotaExceededError
  else ret tt.

(** [RateLimiter.check_limits] *)
Definition check_limits (context : RequestContext) : M RateLimiter unit :=
  acquired <- zoom global_limiter_of (acquire 1) ;;
  (if negb acquired then raise RateLimitExceededError else ret tt) ;;
  match nonempty (user_id context) with
  | Some uid =>
      user_limiter <- _get_user_limiter uid ;;
      acquired <- zoom (user_limiter_of uid user_limiter) (acquire 1) ;;
      if negb acquired then raise RateLimitExceededError else ret tt
  | None => ret tt
  end ;;
  self <- get ;;
  match nonempty (user_id context), user_daily_quota_usd (rl_config self) with
  | Some uid, Some quota => _check_user_quota uid quota
  | _, _ => ret tt
  end ;;
  self <- get ;;
  match nonempty (session_id context), session_budget_usd (rl_config self) with
  | Some sid, Some budget => _check_session_budget sid budget
  | _, _ => ret tt
  end.

(** [RateLimiter.record_cost] *)
Definition record_cost (context : RequestContext) (cost : Q) : M RateLimiter unit :=
  match nonempty (user_id context) with
  | Some uid =>
      _reset_user_quota_if_needed uid ;;
      modify (fun self =>
        set_user_quotas
          (<[uid := (default 0%Q (user_quotas self !! uid) + cost)%Q]> (user_quotas self)) self)
  | None => ret tt
  end ;;
  match nonempty (session_id context) with
  | Some sid =>
      modify (fun self =>
        set_session_costs
          (<[sid := (default 0%Q (session_costs self !! sid) + cost)%Q]> (session_costs self)) self)
  | None => ret tt
  end.

(** ** [safety/validators.py] *)

Definition injection_patterns : list string := [
  "ignore (previous|above|all|any) (instructions?|prompts?|rules?)";
  "disregard (all|any|the) (previous|prior|above) (instructions?|prompts?)";
  "(new|updated) (instruction|prompt|task|rule)s?:";
  "system:?\s*(you are|act as|pretend|simulate)";
  "<\|im_start\|>|<\|im_end\|>";
  "\[INST\]|\[/INST\]";
  "forget (everything|all|your) (previous|above)";
  "override (all|previous|safety) (instructions?|settings?|rules?)"
]%string.

(** [InputValidator._check_injection] *)
Definition _check_injection (text : string) : bool :=
  existsb (fun pattern => re_search env pattern text) injection_patterns.

(** [needle in haystack] on strings. *)
Definition contains (needle haystack : string) : bool :=
  match String.index 0 needle haystack with
  | Some _ => true
  | None => false
  end.

(** [InputValidator._check_topics] *)
Definition _check_topics (text : string) (topics : list string) : bool :=
  let prompt_lower := lower env text in
  existsb (fun topic => contains (lower env topic) prompt_lower) topics.

(** The loop over [context.forbidden_patterns]: the patterns found in
    the text, in order.  The patterns come from the caller, and
    [re.search] raises [re.error] at the first one that is not a regular
    expression. *)
Fixpoint search_forbidden (text : string) (patterns : list string) : Res (list string) :=
  match patterns with
  | [] => Ok []
  | pattern :: patterns' =>
      if re_compiles env pattern then
        match search_forbidden text patterns' with
        | Ok found => Ok (if re_search env pattern text then pattern :: found else found)
        | Raise e => Raise e
        end
      else Raise ReError
  end.

(** [InputValidator.validate_input] *)
Definition validate_input {St} (config : SafetyConfig) (context : RequestContext)
    : M St ValidationResult :=
  if _check_injection (prompt context) then raise PromptInjectionError
  else
    let too_long :=
      bool_decide (max_prompt_length config < Z.of_nat (String.length (prompt context))) in
    let errors1 := if too_long then ["Prompt exceeds maximum length"%string] else [] in
    match search_forbidden (prompt context) (default [] (forbidden_patterns context)) with
    | Raise e => raise e
    | Ok forbidden =>
        let errors2 :=
          (errors1 ++ map (fun _ => "Forbidden pattern detected"%string) forbidden)%list in
        let warnings1 :=
          match allowed_topics context with
          | Some (topic :: topics) =>
              if negb (_check_topics (prompt context) (topic :: topics))
              then ["Prompt topic may not be in allowlist"%string] else []
          | _ => []
          end in
        match errors2 with
        | [] => ret {| is_valid := true; errors := []; warnings := warnings1; severity := "low" |}
        | _ :: _ => raise ValidationError
        end
    end.

(** [OutputValidator.validate_output]: the checks run in order, each
    later one overwriting [severity]. *)
Definition validate_output (response : LLMResponse) : ValidationResult :=
  let result := {| is_valid := true; errors := []; warnings := []; severity := "low" |} in
  let result :=
    if contains_harmful_content response then
      {| is_valid := false;
         errors := errors result ++ ["Response contains harmful content"%string];
         warnings := warnings result; severity := "critical" |}
    else result in
  let result :=
    if Qltb (quality_score response) (1 # 2) then
      {| is_valid := false;
         errors := errors result ++ ["Response quality too low"%string];
         warnings := warnings result; severity := "high" |}
    else result in
  let result :=
    if is_hallucination response then
      {| is_valid := false;
         errors := errors result ++ ["Response likely contains hallucination"%string];
         warnings := warnings result; severity := "high" |}
    else result in
  let result :=
    if is_off_task response then
      {| is_valid := is_valid result; errors := errors result;
         warnings := warnings result ++ ["Response may be off-task or irrelevant"%string];
         severity := severity result |}
    else result in
  let result :=
    if bool_decide (String.length (response_text response) = 0%nat) then
      {| is_valid := false;
         errors := errors result ++ ["Empty response"%string];
         warnings := warnings result; severity := "high" |}
    else result in
  let result :=
    if bool_decide (String.length (response_text response) < 10)%nat then
      {| is_valid := is_valid result; errors := errors result;
         warnings := warnings result ++ ["Response is very short, may be incomplete"%string];
         severity := severity result |}
    else result in
  result.

(** ** [monitoring/quality_monitor.py] *)

(** Assignments to the attributes of a response that monitoring fills in. *)
Definition set_is_hallucination (v : bool) (r : LLMResponse) : LLMResponse :=
  {| request_id := request_id r; response_text := response_text r;
     latency_ms := latency_ms r; tokens_used := tokens_used r; cost_usd := cost_usd r;
     quality_score := quality_score r; quality_level := quality_level r;
     contains_harmful_content := contains_harmful_content r;
     is_hallucination := v; is_off_task := is_off_task r;
     provider := provider r; model := model r;
     raw_response := raw_response r; timestamp := timestamp r |}.

Definition set_contains_harmful_content (v : bool) (r : LLMResponse) : LLMResponse :=
  {| request_id := request_id r; response_text := response_text r;
     latency_ms := latency_ms r; tokens_used := tokens_used r; cost_usd := cost_usd r;
     quality_score := quality_score r; quality_level := quality_level r;
     contains_harmful_content := v;
     is_hallucination := is_hallucination r; is_off_task := is_off_task r;
     provider := provider r; model := model r;
     raw_response := raw_response r; timestamp := timestamp r |}.

Definition set_is_off_task (v : bool) (r : LLMResponse) : LLMResponse :=
  {| request_id := request_id r; response_text := response_text r;
     latency_ms := latency_ms r; tokens_used := tokens_used r; cost_usd := cost_usd r;
     quality_score := quality_score r; quality_level := quality_level r;
     contains_harmful_content := contains_harmful_content r;
     is_hallucination := is_hallucination r; is_off_task := v;
     provider := provider r; model := model r;
     raw_response := raw_response r; timestamp := timestamp r |}.

Definition set_quality_score (v : Q) (r : LLMResponse) : LLMResponse :=
  {| request_id := request_id r; response_text := response_text r;
     latency_ms := latency_ms r; tokens_used := tokens_used r; cost_usd := cost_usd r;
     quality_score := v; quality_level := quality_level r;
     contains_harmful_content := contains_harmful_content r;
     is_hallucination := is_hallucination r; is_off_task := is_off_task r;
     provider := provider r; model := model r;
     raw_response := raw_response r; timestamp := timestamp r |}.

Definition set_quality_level (v : ResponseQuality) (r : LLMResponse) : LLMResponse :=
  {| request_id := request_id r; response_text := response_text r;
     latency_ms := latency_ms r; tokens_used := tokens_used r; cost_usd := cost_usd r;
     quality_score := quality_score r; quality_level := v;
     contains_harmful_content := contains_harmful_content r;
     is_hallucination := is_hallucination r; is_off_task := is_off_task r;
     provider := provider r; model := model r;
     raw_response := raw_response r; timestamp := timestamp r |}.

(** [len([p for p in patterns if re.search(p, text, re.IGNORECASE)])] *)
Definition count_matches (patterns : list string) (text : string) : Z :=
  Z.of_nat (length (filter (fun pattern => re_search env pattern text = true) patterns)).

Definition hallucination_patterns : list string := [
  "I apologize,?\s+but I (don't|do not|cannot|can't) (actually|really)";
  "I (made up|invented|fabricated)";
  "I (don't|do not) have access to";
  "As an AI( language model)?,?\s+I (can't|cannot|am unable to)";
  "I (don't|do not) have (real-time )?information";
  "my (training|knowledge) (data )?(cut-off|cutoff)";
  "I'm not (sure|certain|confident)";
  "I (may|might) be (wrong|incorrect|mistaken)"
]%string.

(** [HallucinationDetector._check_patterns] *)
Definition _check_patterns (text : string) : Q :=
  py_min (inject_Z (count_matches hallucination_patterns text) * (3 # 10))%Q 1%Q.

(** [HallucinationDetector._check_length] *)
Definition _check_length (text : string) : Q :=
  if bool_decide (word_count env text < 5) then (1 # 2)%Q
  else if bool_decide (word_count env text < 10) then (2 # 10)%Q
  else 0%Q.

(** [HallucinationDetector.detect] *)
Definition hallucination_detect (response : LLMResponse) : Q :=
  let pattern_score := _check_patterns (response_text response) in
  let length_score := _check_length (response_text response) in
  let combined_score := ((7 # 10) * pattern_score + (3 # 10) * length_score)%Q in
  py_min combined_score 1%Q.

Definition harmful_categories : list (string * list string) := [
  ("violence", ["\b(kill|murder|assault|attack|weapon|gun|knife|bomb)\b";
                "\b(hurt|harm|injure|wound)\b"]);
  ("hate_speech", ["\b(hate|racist|sexist|homophobic|xenophobic)\b";
                   "\b(slur|derogatory|discriminat)\w*\b"]);
  ("self_harm", ["\b(suicide|self[- ]harm|cut(ting)? (myself|yourself))\b";
                 "\b(end (my|your) life|kill (myself|yourself))\b"]);
  ("sexual_content", ["\b(explicit|pornograph|sexual)\b.*\b(content|material)\b"]);
  ("illegal_activity", ["\b(illegal|unlawful|criminal)\b.*\b(activity|action)\b";
                        "\b(hack|exploit|steal|fraud)\b"])
]%string.

Record SafetyResults : Type := {
  is_safe : bool;
  violations : list string;
  risk_score : Q;
  details : list (string * Q);
}.

(** [ContentSafetyChecker._check_category] *)
Definition _check_category (text : string) (patterns : list string) : Q :=
  py_min (inject_Z (count_matches patterns text) * (4 # 10))%Q 1%Q.

(** [ContentSafetyChecker.check_safety] *)
Definition check_safety (response : LLMResponse) : SafetyResults :=
  fold_left
    (fun results '(name, patterns) =>
       let score := _check_category (response_text response) patterns in
       let results :=
         {| is_safe := is_safe results; violations := violations results;
            risk_score := risk_score results;
            details := details results ++ [(name, score)] |} in
       if Qgtb score (1 # 2) then
         {| is_safe := false; violations := violations results ++ [name];
            risk_score := py_max (risk_score results) score;
            details := details results |}
       else results)
    harmful_categories
    {| is_safe := true; violations := []; risk_score := 0%Q; details := [] |}.

Definition stop_words : gset string := list_to_set [
  "the"; "a"; "an"; "and"; "or"; "but"; "in"; "on"; "at"; "to"; "for"; "of";
  "with"; "by"; "from"; "as"; "is"; "was"; "are"; "were"; "be"; "been";
  "being"; "have"; "has"; "had"; "do"; "does"; "did"; "will"; "would";
  "could"; "should"; "may"; "might"; "can"; "this"; "that"; "these"; "those";
  "i"; "you"; "he"; "she"; "it"; "we"; "they"; "what"; "which"; "who";
  "when"; "where"; "why"; "how"
]%string.

(** [OffTaskDetector._extract_keywords] *)
Definition _extract_keywords (text : string) : gset string :=
  list_to_set
    (filter (fun word => (word ∉ stop_words) ∧ (3 < String.length word)%nat)
            (find_words env text)).

(** [OffTaskDetector.detect], with the default [similarity_threshold] 0.6 *)
Definition off_task_detect (response : LLMResponse) (context : RequestContext) : bool :=
  let prompt_keywords := _extract_keywords (prompt context) in
  let response_keywords := _extract_keywords (response_text response) in
  if bool_decide (size prompt_keywords = 0%nat) then false
  else
    let overlap :=
      (inject_Z (Z.of_nat (size (prompt_keywords ∩ response_keywords)))
       / inject_Z (Z.of_nat (size prompt_keywords)))%Q in
    Qltb overlap (6 # 10).

Record QualityMonitor : Type := {
  qm_config : MonitoringConfig;
  quality_history : list Q;
  qm_active_alerts : list MonitoringAlert;
}.

(** [deque(maxlen=n).append(x)] *)
Definition deque_append {A} (maxlen : Z) (x : A) (d : list A) : list A :=
  if maxlen <=? 0 then []
  else if Z.of_nat (length d) <? maxlen then d ++ [x]
  else drop 1 d ++ [x].

(** [QualityMonitor._calculate_quality_score] *)
Definition _calculate_quality_score (hallucination_score safety_risk : Q)
    (off_task : bool) (response_length : nat) : Q :=
  let base_score := 1%Q in
  let base_score := (base_score - hallucination_score * (4 # 10))%Q in
  let base_score := (base_score - safety_risk * (5 # 10))%Q in
  let base_score := if off_task then (base_score * (5 # 10))%Q else base_score in
  let base_score :=
    if bool_decide (response_length < 50)%nat then (base_score * (8 # 10))%Q else base_score in
  py_max 0%Q base_score.

(** [QualityMonitor._categorize_quality] *)
Definition _categorize_quality (score : Q) : ResponseQuality :=
  if Qgeb score (9 # 10) then EXCELLENT
  else if Qgeb score (75 # 100) then GOOD
  else if Qgeb score (6 # 10) then ACCEPTABLE
  else if Qgeb score (3 # 10) then POOR
  else UNSAFE.

(** [QualityMonitor._should_pass_validation] *)
Definition _should_pass_validation (score : Q) (violations0 : list string)
    (hallucination : bool) : bool :=
  match violations0 with
  | _ :: _ => false
  | [] =>
      if hallucination then false
      else if Qltb score (5 # 10) then false
      else true
  end.

(** [QualityMonitor._recommend_action] *)
Definition _recommend_action (score : Q) (pass : bool) (violations0 : list string) : string :=
  match violations0 with
  | _ :: _ => "reject"
  | [] =>
      if negb pass then
        if Qltb score (3 # 10) then "fallback" else "review"
      else if Qgeb score (75 # 100) then "accept"
      else "review"
  end.

(** [QualityMonitor._generate_warnings] *)
Definition _generate_warnings (hallucination_score safety_risk : Q) (off_task : bool)
    (score : Q) : list string :=
  ((if Qgtb hallucination_score (5 # 10) then ["High hallucination probability"%string] else [])
   ++ (if Qgtb safety_risk (3 # 10) then ["Potential safety concerns"%string] else [])
   ++ (if off_task then ["Response may be off-task or irrelevant"%string] else [])
   ++ (if Qltb score (6 # 10) then ["Low quality score"%string] else []))%list.

(** [QualityMonitor._raise_quality_alert] *)
Definition _raise_quality_alert (assessment : QualityAssessment)
    : M (QualityMonitor * LLMResponse) unit :=
  modify (fun '(self, response) =>
    let alert :=
      {| alert_id := "alert-quality-" +:+ request_id response;
         alert_severity := if Qltb (quality_score response) (3 # 10) then "high" else "medium";
         category := "quality";
         alert_request_id := Some (request_id response);
         resolved := false |} in
    ({| qm_config := qm_config self; quality_history := quality_history self;
        qm_active_alerts := qm_active_alerts self ++ [alert] |}, response)).

(** The two objects [assess_quality] works on: the monitor [self] and the
    [response], which is annotated in place. *)
Definition get_self : M (QualityMonitor * LLMResponse) QualityMonitor :=
  st <- get ;; ret (fst st).

Definition get_response : M (QualityMonitor * LLMResponse) LLMResponse :=
  st <- get ;; ret (snd st).

(** [QualityMonitor.assess_quality] *)
Definition assess_quality (context : RequestContext)
    : M (QualityMonitor * LLMResponse) QualityAssessment :=
  response <- get_response ;;
  let hallucination_score := hallucination_detect response in
  modify (fun '(self, response) =>
    (self, set_is_hallucination (Qgtb hallucination_score (7 # 10)) response)) ;;
  response <- get_response ;;
  let safety_results := check_safety response in
  modify (fun '(self, response) =>
    (self, set_contains_harmful_content (negb (is_safe safety_results)) response)) ;;
  response <- get_response ;;
  modify (fun '(self, response) =>
    (self, set_is_off_task (off_task_detect response context) response)) ;;
  response <- get_response ;;
  let score :=
    _calculate_quality_score hallucination_score (risk_score safety_results)
      (is_off_task response) (String.length (response_text response)) in
  modify (fun '(self, response) => (self, set_quality_score score response)) ;;
  modify (fun '(self, response) => (self, set_quality_level (_categorize_quality score) response)) ;;
  modify (fun '(self, response) =>
    ({| qm_config := qm_config self;
        quality_history := deque_append 1000 score (quality_history self);
        qm_active_alerts := qm_active_alerts self |}, response)) ;;
  self <- get_self ;;
  response <- get_response ;;
  let pass :=
    _should_pass_validation score (violations safety_results) (is_hallucination response) in
  let assessment :=
    {| qa_request_id := request_id response;
       hallucination_probability := hallucination_score;
       safety_violations := violations safety_results;
       coherence_score := (1 - hallucination_score)%Q;
       relevance_score := if is_off_task response then 0%Q else 1%Q;
       pass_validation := pass;
       recommended_action := _recommend_action score pass (violations safety_results);
       qa_warnings :=
         _generate_warnings hallucination_score (risk_score safety_results)
           (is_off_task response) score |} in
  (if Qltb score (quality_alert_threshold (qm_config self))
   then _raise_quality_alert assessment else ret tt) ;;
  if negb (pass_validation assessment) && Qltb score (3 # 10)
  then raise QualityCheckFailedError
  else ret assessment.

(** ** [monitoring/performance_monitor.py] *)

Record PerformanceMonitor : Type := {
  pf_config : MonitoringConfig;
  metrics_history : list PerformanceMetrics;
  pf_session_costs : gmap string Q;
  user_costs : gmap string Q;
  daily_cost_reset : gmap string Z;
  latency_baseline_p50 : option Q;
  latency_baseline_p95 : option Q;
  pf_active_alerts : list MonitoringAlert;
}.

Definition set_metrics_history (v : list PerformanceMetrics) (self : PerformanceMonitor) :=
  {| pf_config := pf_config self; metrics_history := v;
     pf_session_costs := pf_session_costs self; user_costs := user_costs self;
     daily_cost_reset := daily_cost_reset self;
     latency_baseline_p50 := latency_baseline_p50 self;
     latency_baseline_p95 := latency_baseline_p95 self;
     pf_active_alerts := pf_active_alerts self |}.

Definition set_pf_session_costs (v : gmap string Q) (self : PerformanceMonitor) :=
  {| pf_config := pf_config self; metrics_history := metrics_history self;
     pf_session_costs := v; user_costs := user_costs self;
     daily_cost_reset := daily_cost_reset self;
     latency_baseline_p50 := latency_baseline_p50 self;
     latency_baseline_p95 := latency_baseline_p95 self;
     pf_active_alerts := pf_active_alerts self |}.

Definition set_user_costs (v : gmap string Q) (self : PerformanceMonitor) :=
  {| pf_config := pf_config self; metrics_history := metrics_history self;
     pf_session_costs := pf_session_costs self; user_costs := v;
     daily_cost_reset := daily_cost_reset self;
     latency_baseline_p50 := latency_baseline_p50 self;
     latency_baseline_p95 := latency_baseline_p95 self;
     pf_active_alerts := pf_active_alerts self |}.

Definition set_daily_cost_reset (v : gmap string Z) (self : PerformanceMonitor) :=
  {| pf_config := pf_config self; metrics_history := metrics_history self;
     pf_session_costs := pf_session_costs self; user_costs := user_costs self;
     daily_cost_reset := v;
     latency_baseline_p50 := latency_baseline_p50 self;
     latency_baseline_p95 := latency_baseline_p95 self;
     pf_active_alerts := pf_active_alerts self |}.

Definition set_baselines (p50 p95 : option Q) (self : PerformanceMonitor) :=
  {| pf_config := pf_config self; metrics_history := metrics_history self;
     pf_session_costs := pf_session_costs self; user_costs := user_costs self;
     daily_cost_reset := daily_cost_reset self;
     latency_baseline_p50 := p50; latency_baseline_p95 := p95;
     pf_active_alerts := pf_active_alerts self |}.

Definition set_pf_active_alerts (v : list MonitoringAlert) (self : PerformanceMonitor) :=
  {| pf_config := pf_config self; metrics_history := metrics_history self;
     pf_session_costs := pf_session_costs self; user_costs := user_costs self;
     daily_cost_reset := daily_cost_reset self;
     latency_baseline_p50 := latency_baseline_p50 self;
     latency_baseline_p95 := latency_baseline_p95 self;
     pf_active_alerts := v |}.

(** [list(d)[-n:]] *)
Definition last_n {A} (n : nat) (d : list A) : list A := drop (length d - n) d.

(** [PerformanceMonitor._raise_performance_alert] *)
Definition _raise_performance_alert (severity0 : string) (metrics : PerformanceMetrics)
    : M PerformanceMonitor unit :=
  modify (fun self =>
    set_pf_active_alerts
      (pf_active_alerts self ++
         [{| alert_id := "alert-perf-" +:+ pm_request_id metrics;
             alert_severity := severity0; category := "performance";
             alert_request_id := Some (pm_request_id metrics); resolved := false |}])
      self).

(** [PerformanceMonitor._check_performance_anomalies] *)
Definition _check_performance_anomalies (metrics : PerformanceMetrics)
    : M PerformanceMonitor unit :=
  self <- get ;;
  if bool_decide (length (metrics_history self) < 100)%nat then ret tt
  else
    let recent_latencies := map pm_latency_ms (last_n 100 (metrics_history self)) in
    let p95 := np_percentile env recent_latencies 95%Q in
    (if Qgtb (pm_latency_ms metrics) (p95 * 2)%Q
     then _raise_performance_alert "medium" metrics else ret tt) ;;
    if Qgtb (pm_latency_ms metrics) (performance_alert_threshold_ms (pf_config self))
    then _raise_performance_alert "high" metrics else ret tt.

(** [PerformanceMonitor._check_budget_limits]: only the per-request
    budget raises; the session and user totals are read and dropped. *)
Definition _check_budget_limits (metrics : PerformanceMetrics) (context : RequestContext)
    : M PerformanceMonitor unit :=
  match max_cost_usd context with
  | Some limit =>
      if negb (Qeq_bool limit 0) && Qgtb (pm_cost_usd metrics) limit
      then raise BudgetExceededError else ret tt
  | None => ret tt
  end.

(** [PerformanceMonitor._reset_daily_costs_if_needed] *)
Definition _reset_daily_costs_if_needed (uid : string) : M PerformanceMonitor unit :=
  now <- utcnow ;;
  self <- get ;;
  let stale :=
    match daily_cost_reset self !! uid with
    | None => true
    | Some last_reset => bool_decide (date last_reset < date now)
    end in
  if stale then
    modify (fun self => set_user_costs (<[uid := 0%Q]> (user_costs self)) self) ;;
    modify (fun self => set_daily_cost_reset (<[uid := now]> (daily_cost_reset self)) self)
  else ret tt.

(** [PerformanceMonitor._update_baselines] *)
Definition _update_baselines : M PerformanceMonitor unit :=
  self <- get ;;
  if bool_decide (length (metrics_history self) < 100)%nat then ret tt
  else
    let recent_latencies := map pm_latency_ms (last_n 1000 (metrics_history self)) in
    modify (set_baselines (Some (np_percentile env recent_latencies 50%Q))
                          (Some (np_percentile env recent_latencies 95%Q))).

(** [PerformanceMonitor.record_metrics].  Building the [PerformanceMetrics]
    model validates its [ge=0] fields; a violation is a pydantic
    validation error, a [ValueError]. *)
Definition record_metrics (response : LLMResponse) (context : RequestContext)
    : M PerformanceMonitor PerformanceMetrics :=
  let usage := default ∅ (raw_response response !! "usage"%string) in
  let metrics :=
    {| pm_request_id := request_id response;
       pm_latency_ms := latency_ms response;
       tokens_prompt := default 0 (usage !! "prompt_tokens"%string);
       tokens_completion := default 0 (usage !! "completion_tokens"%string);
       tokens_total := tokens_used response;
       pm_cost_usd := cost_usd response;
       pm_provider := provider response;
       pm_model := model response;
       pm_timestamp := timestamp response |} in
  (if Qgeb (pm_latency_ms metrics) 0 && bool_decide (0 <= tokens_prompt metrics)
      && bool_decide (0 <= tokens_completion metrics)
      && bool_decide (0 <= tokens_total metrics) && Qgeb (pm_cost_usd metrics) 0
   then ret tt else raise ValueError) ;;
  modify (fun self => set_metrics_history (deque_append 10000 metrics (metrics_history self)) self) ;;
  match nonempty (session_id context) with
  | Some sid =>
      modify (fun self =>
        set_pf_session_costs
          (<[sid := (default 0%Q (pf_session_costs self !! sid) + pm_cost_usd metrics)%Q]>
             (pf_session_costs self)) self)
  | None => ret tt
  end ;;
  match nonempty (user_id context) with
  | Some uid =>
      _reset_daily_costs_if_needed uid ;;
      modify (fun self =>
        set_user_costs
          (<[uid := (default 0%Q (user_costs self !! uid) + pm_cost_usd metrics)%Q]>
             (user_costs self)) self)
  | None => ret tt
  end ;;
  _check_performance_anomalies metrics ;;
  _check_budget_limits metrics context ;;
  self <- get ;;
  (if bool_decide (length (metrics_history self) `mod` 100 = 0)%nat
   then _update_baselines else ret tt) ;;
  ret metrics.

(** ** [recovery/audit_logger.py] *)

(** One line of the audit log: the event type, the request it belongs to,
    for an error the class name of the exception, and the keys of the
    additional context. *)
Record AuditEvent : Type := {
  event_type : string;
  ev_request_id : string;
  error_type : option ExnClass;
  ev_context : list string;
}.

(** [AuditLogger.log_request] *)
Definition log_request (context : RequestContext) : M (list AuditEvent) unit :=
  modify (fun log =>
    log ++ [{| event_type := "request"; ev_request_id := ctx_request_id context;
               error_type := None; ev_context := [] |}]).

(** [AuditLogger.log_response] *)
Definition log_response (response : LLMResponse) : M (list AuditEvent) unit :=
  modify (fun log =>
    log ++ [{| event_type := "response"; ev_request_id := request_id response;
               error_type := None; ev_context := [] |}]).

(** [AuditLogger.log_error] *)
Definition log_error (rid : string) (error : ExnClass) (context : list string)
    : M (list AuditEvent) unit :=
  modify (fun log =>
    log ++ [{| event_type := "error"; ev_request_id := rid;
               error_type := Some error; ev_context := context |}]).

(** ** [recovery/state_manager.py] *)

(** [StateManager.save_checkpoint]; the state is the content of the
    checkpoint files, by request id.  The snapshot holds
    [context.model_dump()], in which [timestamp] is a [datetime], so
    [json.dumps(snapshot)] raises [TypeError] on every call.  It is
    evaluated inside [async with aiofiles.open(file_path, "w")]: when the
    file opens it is left empty, when it does not the [OSError] takes the
    same way out.  [except Exception] turns either into
    [CheckpointSaveError]; [return request_id] is never reached. *)
Definition save_checkpoint (rid : string) (stage : string) : M (gmap string string) string :=
  (if checkpoint_file_opens env rid
   then modify (fun files => <[rid := EmptyString]> files)
   else ret tt) ;;
  raise CheckpointSaveError.

(** ** [recovery/retry_manager.py] *)

Definition retryable_errors : list ExnClass :=
  [ConnectionError; TimeoutError; LLMProviderTimeoutError; LLMProviderRateLimitError].

(** [except self.retryable_errors] matches. *)
Definition is_retryable (e : ExnClass) : bool :=
  existsb (isinstance e) retryable_errors.

(** The [for attempt in range(max_attempts)] loop of
    [RetryManager.execute_with_retry], with [attempts] iterations left.
    The back-off sleep and the progress messages change no state. *)
Fixpoint retry_loop {W A} (func : M W A) (attempts : nat) : M W A :=
  match attempts with
  | O => raise RetryExhaustedError
  | S attempts' =>
      try_except func
        (fun e => if is_retryable e then retry_loop func attempts' else raise e)
  end.

(** [RetryManager.execute_with_retry] *)
Definition execute_with_retry {W A} (strategy : RetryConfig) (func : M W A) : M W A :=
  retry_loop func (Z.to_nat (max_attempts strategy)).

(** ** [core/guardian.py]: LLMGuardian *)

(** The attributes of the orchestrator.  [provider_calls] is not one of
    them: it is the record, kept on the providers' side, of the [generate]
    requests received so far (provider and model, in order). *)
Record LLMGuardian : Type := {
  config : GuardianConfig;
  quality_monitor : QualityMonitor;
  performance_monitor : PerformanceMonitor;
  circuit_breaker : CircuitBreaker;
  rate_limiter : RateLimiter;
  retry_manager : RetryConfig;
  audit_logger : list AuditEvent;
  state_manager : gmap string string;
  llm_clients : gset string;
  provider_calls : list (string * string);
}.

Definition set_quality_monitor (v : QualityMonitor) (self : LLMGuardian) : LLMGuardian :=
  {| config := config self; quality_monitor := v;
     performance_monitor := performance_monitor self;
     circuit_breaker := circuit_breaker self; rate_limiter := rate_limiter self;
     retry_manager := retry_manager self; audit_logger := audit_logger self;
     state_manager := state_manager self; llm_clients := llm_clients self;
     provider_calls := provider_calls self |}.

Definition set_performance_monitor (v : PerformanceMonitor) (self : LLMGuardian) : LLMGuardian :=
  {| config := config self; quality_monitor := quality_monitor self;
     performance_monitor := v;
     circuit_breaker := circuit_breaker self; rate_limiter := rate_limiter self;
     retry_manager := retry_manager self; audit_logger := audit_logger self;
     state_manager := state_manager self; llm_clients := llm_clients self;
     provider_calls := provider_calls self |}.

Definition set_circuit_breaker (v : CircuitBreaker) (self : LLMGuardian) : LLMGuardian :=
  {| config := config self; quality_monitor := quality_monitor self;
     performance_monitor := performance_monitor self;
     circuit_breaker := v; rate_limiter := rate_limiter self;
     retry_manager := retry_manager self; audit_logger := audit_logger self;
     state_manager := state_manager self; llm_clients := llm_clients self;
     provider_calls := provider_calls self |}.

Definition set_rate_limiter (v : RateLimiter) (self : LLMGuardian) : LLMGuardian :=
  {| config := config self; quality_monitor := quality_monitor self;
     performance_monitor := performance_monitor self;
     circuit_breaker := circuit_breaker self; rate_limiter := v;
     retry_manager := retry_manager self; audit_logger := audit_logger self;
     state_manager := state_manager self; llm_clients := llm_clients self;
     provider_calls := provider_calls self |}.

Definition set_audit_logger (v : list AuditEvent) (self : LLMGuardian) : LLMGuardian :=
  {| config := config self; quality_monitor := quality_monitor self;
     performance_monitor := performance_monitor self;
     circuit_breaker := circuit_breaker self; rate_limiter := rate_limiter self;
     retry_manager := retry_manager self; audit_logger := v;
     state_manager := state_manager self; llm_clients := llm_clients self;
     provider_calls := provider_calls self |}.

Definition set_state_manager (v : gmap string string) (self : LLMGuardian) : LLMGuardian :=
  {| config := config self; quality_monitor := quality_monitor self;
     performance_monitor := performance_monitor self;
     circuit_breaker := circuit_breaker self; rate_limiter := rate_limiter self;
     retry_manager := retry_manager self; audit_logger := audit_logger self;
     state_manager := v; llm_clients := llm_clients self;
     provider_calls := provider_calls self |}.

Definition set_provider_calls (v : list (string * string)) (self : LLMGuardian) : LLMGuardian :=
  {| config := config self; quality_monitor := quality_monitor self;
     performance_monitor := performance_monitor self;
     circuit_breaker := circuit_breaker self; rate_limiter := rate_limiter self;
     retry_manager := retry_manager self; audit_logger := audit_logger self;
     state_manager := state_manager self; llm_clients := llm_clients self;
     provider_calls := v |}.

Definition performance_monitor_of : Lens LLMGuardian PerformanceMonitor :=
  {| view := performance_monitor; update := set_performance_monitor |}.
Definition circuit_breaker_of : Lens LLMGuardian CircuitBreaker :=
  {| view := circuit_breaker; update := set_circuit_breaker |}.
Definition rate_limiter_of : Lens LLMGuardian RateLimiter :=
  {| view := rate_limiter; update := set_rate_limiter |}.
Definition audit_logger_of : Lens LLMGuardian (list AuditEvent) :=
  {| view := audit_logger; update := set_audit_logger |}.
Definition state_manager_of : Lens LLMGuardian (gmap string string) :=
  {| view := state_manager; update := set_state_manager |}.

(** [self.quality_monitor] together with the local object [response]. *)
Definition quality_monitor_with (response : LLMResponse)
    : Lens LLMGuardian (QualityMonitor * LLMResponse) :=
  {| view := fun self => (quality_monitor self, response);
     update := fun v self => set_quality_monitor (fst v) self |}.

(** [GuardianConfig.validate_required_keys] *)
Definition validate_required_keys {St} (cfg : GuardianConfig) : M St unit :=
  if negb (truthy_str (anthropic_api_key cfg)) && negb (truthy_str (openai_api_key cfg))
  then raise MissingAPIKeyError else ret tt.

(** [LLMGuardian.__init__] and [_initialize_clients] *)
Definition LLMGuardian_init {St} (cfg : GuardianConfig) : M St LLMGuardian :=
  (if enable_safety_checks cfg then validate_required_keys cfg else ret tt) ;;
  breaker <- CircuitBreaker_init (circuit_breaker_threshold (safety cfg))
               (circuit_recovery_seconds (safety cfg) * 1000000) 2 Exception ;;
  limiter <- RateLimiter_init (rate_limiting cfg) ;;
  ret {| config := cfg;
         quality_monitor :=
           {| qm_config := monitoring cfg; quality_history := []; qm_active_alerts := [] |};
         performance_monitor :=
           {| pf_config := monitoring cfg; metrics_history := [];
              pf_session_costs := ∅; user_costs := ∅; daily_cost_reset := ∅;
              latency_baseline_p50 := None; latency_baseline_p95 := None;
              pf_active_alerts := [] |};
         circuit_breaker := breaker;
         rate_limiter := limiter;
         retry_manager := retry_strategy cfg;
         audit_logger := [];
         state_manager := ∅;
         llm_clients :=
           (if truthy_str (anthropic_api_key cfg) then {["anthropic"%string]} else ∅)
           ∪ (if truthy_str (openai_api_key cfg) then {["openai"%string]} else ∅);
         provider_calls := [] |}.

(** [except Exception as e]: other [BaseException]s pass through. *)
Definition except_Exception {St A} (m : M St A) (h : ExnClass -> M St A) : M St A :=
  try_except m (fun e => if isinstance e Exception then h e else raise e).

(** [LLMGuardian._get_llm_client] *)
Definition _get_llm_client (provider0 : string) : M LLMGuardian unit :=
  self <- get ;;
  if bool_decide (provider0 ∈ llm_clients self) then ret tt
  else raise UnsupportedProviderError.

(** [client.generate(context, model)]: the provider receives the request
    and answers. *)
Definition client_generate (provider0 model0 : string) (context : RequestContext)
    : M LLMGuardian LLMResponse :=
  fun s =>
    (generate env provider0 model0 context (length (provider_calls (fst s))),
     (set_provider_calls (provider_calls (fst s) ++ [(provider0, model0)]) (fst s), snd s)).

(** The closure [_call_llm] of [_execute_with_retry]. *)
Definition _call_llm (context : RequestContext) (provider0 model0 : string)
    : M LLMGuardian LLMResponse :=
  _get_llm_client provider0 ;;
  client_generate provider0 model0 context.

(** [LLMGuardian._execute_with_retry] *)
Definition _execute_with_retry (context : RequestContext) (provider0 model0 : string)
    : M LLMGuardian LLMResponse :=
  self <- get ;;
  execute_with_retry (retry_manager self) (_call_llm context provider0 model0).

(** [LLMGuardian._handle_failure_with_fallback] *)
Definition _handle_failure_with_fallback (context : RequestContext) (error : ExnClass)
    : M LLMGuardian LLMResponse :=
  self <- get ;;
  match nonempty (fallback_provider (config self)) with
  | None => raise error
  | Some fallback =>
      except_Exception
        (_execute_with_retry context fallback
           (default "gpt-3.5-turbo"%string (nonempty (fallback_model (config self)))))
        (fun fallback_error =>
           zoom audit_logger_of
             (log_error (ctx_request_id context) fallback_error
                ["fallback_attempted"; "original_error"]%string) ;;
           raise error)
  end.

(** The numbered steps of [LLMGuardian.execute_request]. *)

(** Step 2, input validation. *)
Definition step_input_validation (context : RequestContext) : M LLMGuardian unit :=
  self <- get ;;
  if enable_safety_checks (config self) then
    _ <- validate_input (safety (config self)) context ;; ret tt
  else ret tt.

(** Step 3, rate limiting. *)
Definition step_rate_limiting (context : RequestContext) : M LLMGuardian unit :=
  zoom rate_limiter_of (check_limits context).

(** Step 4, checkpoint before execution. *)
Definition step_checkpoint (context : RequestContext) : M LLMGuardian unit :=
  self <- get ;;
  if enable_recovery (config self) then
    _ <- zoom state_manager_of (save_checkpoint (ctx_request_id context) "pre_execution") ;;
    ret tt
  else ret tt.

(** Step 5, the provider call under the circuit breaker, with retry and
    graceful degradation. *)
Definition step_execute (context : RequestContext) (provider0 model0 : string)
    : M LLMGuardian LLMResponse :=
  except_Exception
    (call circuit_breaker_of (_execute_with_retry context provider0 model0))
    (fun e =>
       zoom audit_logger_of
         (log_error (ctx_request_id context) e ["provider"; "model"]%string) ;;
       self <- get ;;
       match nonempty (fallback_provider (config self)) with
       | Some fallback =>
           if bool_decide (provider0 <> fallback)
           then _handle_failure_with_fallback context e
           else raise e
       | None => raise e
       end).

(** Step 6, quality monitoring: annotates the response in place. *)
Definition step_quality (context : RequestContext) (response : LLMResponse)
    : M LLMGuardian LLMResponse :=
  self <- get ;;
  if enable_monitoring (config self) then
    zoom (quality_monitor_with response)
      (_ <- assess_quality context ;; get_response)
  else ret response.

(** Step 7, performance monitoring and cost recording. *)
Definition step_performance (context : RequestContext) (response : LLMResponse)
    : M LLMGuardian unit :=
  self <- get ;;
  if enable_monitoring (config self) then
    metrics <- zoom performance_monitor_of (record_metrics response context) ;;
    zoom rate_limiter_of (record_cost context (pm_cost_usd metrics))
  else ret tt.

(** Step 8, output validation. *)
Definition step_output_validation (context : RequestContext) (response : LLMResponse)
    : M LLMGuardian LLMResponse :=
  self <- get ;;
  if enable_safety_checks (config self) then
    let validation_result := validate_output response in
    if negb (is_valid validation_result) then
      zoom audit_logger_of
        (log_error (ctx_request_id context) ValidationError ["validation_result"%string]) ;;
      if String.eqb (severity validation_result) "critical" then
        match nonempty (fallback_provider (config self)) with
        | Some _ => _handle_failure_with_fallback context ValidationError
        | None => raise ValidationError
        end
      else ret response
    else ret response
  else ret response.

(** Steps 9 and 10, audit of the response and final checkpoint. *)
Definition step_complete (context : RequestContext) (response : LLMResponse)
    : M LLMGuardian LLMResponse :=
  zoom audit_logger_of (log_response response) ;;
  self <- get ;;
  (if enable_recovery (config self) then
     _ <- zoom state_manager_of (save_checkpoint (ctx_request_id context) "completed") ;;
     ret tt
   else ret tt) ;;
  ret response.

(** Steps 2 to 6: everything up to and including quality assessment. *)
Definition through_quality (context : RequestContext) (provider0 model0 : string)
    : M LLMGuardian LLMResponse :=
  step_input_validation context ;;
  step_rate_limiting context ;;
  step_checkpoint context ;;
  response <- step_execute context provider0 model0 ;;
  step_quality context response.

(** Steps 7 to 10. *)
Definition after_quality (context : RequestContext) (response : LLMResponse)
    : M LLMGuardian LLMResponse :=
  step_performance context response ;;
  response <- step_output_validation context response ;;
  step_complete context response.

(** [LLMGuardian.execute_request] *)
Definition execute_request (context : RequestContext) (provider0 model0 : string)
    : M LLMGuardian LLMResponse :=
  zoom audit_logger_of (log_request context) ;;
  except_Exception
    (response <- through_quality context provider0 model0 ;;
     after_quality context response)
    (fun e =>
       zoom audit_logger_of (log_error (ctx_request_id context) e []) ;;
       raise e).

(** ** Further methods of the components *)

(** [TokenBucket.get_available_tokens] *)
Definition get_available_tokens : M TokenBucket Q :=
  now <- utcnow ;;
  self <- get ;;
  let elapsed := total_seconds (now - last_refill self) in
  let tokens_to_add := (elapsed * refill_rate self)%Q in
  ret (py_min (inject_Z (capacity self)) (tokens self + tokens_to_add)%Q).

(** [SlidingWindowRateLimiter]: [window] is the [timedelta] in
    microseconds, [requests] the deque of (user, time) pairs, oldest
    first. *)
Record SlidingWindowRateLimiter : Type := {
  sw_max_requests : Z;
  window : Z;
  requests : list (string * Z);
}.

(** [SlidingWindowRateLimiter.__init__] *)
Definition SlidingWindowRateLimiter_init (max_requests0 window_seconds : Z)
    : SlidingWindowRateLimiter :=
  {| sw_max_requests := max_requests0; window := window_seconds * 1000000;
     requests := [] |}.

(** [while self.requests and self.requests[0][1] < cutoff: popleft()] *)
Fixpoint evict_older (cutoff : Z) (queue : list (string * Z)) : list (string * Z) :=
  match queue with
  | [] => []
  | (uid, t) :: queue' =>
      if bool_decide (t < cutoff) then evict_older cutoff queue' else queue
  end.

(** [sum(1 for uid, _ in self.requests if uid == user_id)] *)
Definition requests_of (uid : string) (queue : list (string * Z)) : Z :=
  Z.of_nat (length (filter (fun r => fst r = uid) queue)).

(** [SlidingWindowRateLimiter.check_rate_limit] *)
Definition check_rate_limit (uid : string) : M SlidingWindowRateLimiter bool :=
  now <- utcnow ;;
  self <- get ;;
  let cutoff := now - window self in
  modify (fun self =>
    {| sw_max_requests := sw_max_requests self; window := window self;
       requests := evict_older cutoff (requests self) |}) ;;
  self <- get ;;
  let user_requests := requests_of uid (requests self) in
  if bool_decide (sw_max_requests self <= user_requests) then raise RateLimitExceededError
  else
    modify (fun self =>
      {| sw_max_requests := sw_max_requests self; window := window self;
         requests := requests self ++ [(uid, now)] |}) ;;
    ret true.

(** [CircuitBreaker.is_available] *)
Definition is_available : M CircuitBreaker bool :=
  self <- get ;;
  if bool_decide (state self = CLOSED) || bool_decide (state self = HALF_OPEN) then ret true
  else if bool_decide (state self = OPEN) then _should_attempt_reset
  else ret false.

(** [n] failed wrapped calls in a row, as the breaker records them. *)
Fixpoint failures (n : nat) : M CircuitBreaker unit :=
  match n with
  | O => ret tt
  | S n' => _on_failure ;; failures n'
  end.

(** [MultiCircuitBreaker] *)
Record MultiCircuitBreaker : Type := {
  default_failure_threshold : Z;
  default_recovery_timeout : Z;
  breakers : gmap string CircuitBreaker;
}.

(** [MultiCircuitBreaker.get_breaker] *)
Definition get_breaker (name : string) : M MultiCircuitBreaker CircuitBreaker :=
  self <- get ;;
  match breakers self !! name with
  | Some breaker => ret breaker
  | None =>
      breaker <- CircuitBreaker_init (default_failure_threshold self)
                   (default_recovery_timeout self) 2 Exception ;;
      modify (fun self =>
        {| default_failure_threshold := default_failure_threshold self;
           default_recovery_timeout := default_recovery_timeout self;
           breakers := <[name := breaker]> (breakers self) |}) ;;
      ret breaker
  end.

(** The breaker object [self.breakers[name]], handed out by [get_breaker]
    as [breaker]. *)
Definition breaker_named (name : string) (breaker : CircuitBreaker)
    : Lens MultiCircuitBreaker CircuitBreaker :=
  {| view := fun self => default breaker (breakers self !! name);
     update := fun v self =>
       {| default_failure_threshold := default_failure_threshold self;
          default_recovery_timeout := default_recovery_timeout self;
          breakers := <[name := v]> (breakers self) |} |}.

(** [MultiCircuitBreaker.call] *)
Definition multi_call {A} (name : string) (func : M MultiCircuitBreaker A)
    : M MultiCircuitBreaker A :=
  breaker <- get_breaker name ;;
  call (breaker_named name breaker) func.

(** [RetryStrategy] with all its parameters. *)
Record RetryStrategy : Type := {
  rs_max_attempts : Z;
  initial_delay : Q;
  max_delay : Q;
  exponential_base : Q;
  jitter : bool;
}.

(** [RetryStrategy.get_delay]; [draw] is the value of [random.random()]. *)
Definition get_delay (strategy : RetryStrategy) (attempt : nat) (draw : Q) : Q :=
  let delay :=
    py_min (initial_delay strategy * exponential_base strategy ^ Z.of_nat attempt)%Q
           (max_delay strategy) in
  if jitter strategy then (delay * ((5 # 10) + draw * (5 # 10)))%Q else delay.

(** [PerformanceMonitor.get_active_alerts] *)
Definition get_active_alerts (self : PerformanceMonitor) : list MonitoringAlert :=
  filter (fun alert => resolved alert = false) (pf_active_alerts self).

(** The loop of [PerformanceMonitor.resolve_alert]: mark the first alert
    with the given id. *)
Fixpoint resolve_first (id : string) (alerts : list MonitoringAlert)
    : option (list MonitoringAlert) :=
  match alerts with
  | [] => None
  | alert :: alerts' =>
      if String.eqb (alert_id alert) id then
        Some ({| alert_id := alert_id alert; alert_severity := alert_severity alert;
                 category := category alert; alert_request_id := alert_request_id alert;
                 resolved := true |} :: alerts')
      else
        match resolve_first id alerts' with
        | Some alerts'' => Some (alert :: alerts'')
        | None => None
        end
  end.

(** [PerformanceMonitor.resolve_alert] *)
Definition resolve_alert (id : string) : M PerformanceMonitor bool :=
  self <- get ;;
  match resolve_first id (pf_active_alerts self) with
  | Some alerts => modify (set_pf_active_alerts alerts) ;; ret true
  | None => ret false
  end.

(** [breaker.call(func)] for a function [func] of another object [X]:
    the state is the breaker together with that object. *)
Definition guarded {X A} (func : M X A) : M (CircuitBreaker * X) A :=
  call {| view := fst; update := fun cb s => (cb, snd s) |}
       (zoom {| view := snd; update := fun x s => (fst s, x) |} func).

(** [n] protected calls one after the other, each exception caught by the
    caller. *)
Fixpoint guarded_attempts {X A} (func : M X A) (n : nat) : M (CircuitBreaker * X) unit :=
  match n with
  | O => ret tt
  | S n' =>
      try_except (_ <- guarded func ;; ret tt) (fun _ => ret tt) ;;
      guarded_attempts func n'
  end.

End Guardian.

(** * Sample inputs *)

Definition sample_clock (n : nat) : Z := 1000 * Z.of_nat n.

Definition sample_response (provider0 model0 : string) : LLMResponse :=
  {| request_id := "req-1";
     response_text := "They attack with a weapon and hurt people badly in the story told.";
     latency_ms := 10; tokens_used := 5; cost_usd := 1 # 100;
     quality_score := 0; quality_level := ACCEPTABLE;
     contains_harmful_content := false; is_hallucination := false; is_off_task := false;
     provider := provider0; model := model0; raw_response := ∅; timestamp := 0 |}.

(** The primary provider [anthropic] fails with an API error, every other
    provider answers; [matcher] is the regular-expression engine. *)
Definition sample_env (matcher : string -> string -> bool) (words : Z) : Env :=
  {| clock := sample_clock;
     re_compiles := fun _ => true;
     re_search := matcher;
     find_words := fun _ => [];
     word_count := fun _ => words;
     lower := fun text => text;
     generate := fun provider0 model0 _ _ =>
       if String.eqb provider0 "anthropic" then Raise LLMProviderAPIError
       else Ok (sample_response provider0 model0);
     np_percentile := fun _ _ => 0%Q;
     checkpoint_file_opens := fun _ => true |}.

(** No pattern matches. *)
Definition clean_env : Env := sample_env (fun _ _ => false) 12.

(** Four hallucination patterns match a three-word answer. *)
Definition doubtful_env : Env :=
  sample_env
    (fun pattern _ =>
       String.eqb pattern "I (made up|invented|fabricated)"
       || String.eqb pattern "I (don't|do not) have access to"
       || String.eqb pattern "I'm not (sure|certain|confident)"
       || String.eqb pattern "I (may|might) be (wrong|incorrect|mistaken)")
    3.

(** Every pattern matches a three-word answer. *)
Definition alarming_env : Env := sample_env (fun _ _ => true) 3.

Definition sample_config (fallback : option string) : GuardianConfig :=
  {| monitoring :=
       {| quality_alert_threshold := 6 # 10; performance_alert_threshold_ms := 5000 |};
     safety :=
       {| circuit_breaker_threshold := 5; circuit_recovery_seconds := 60;
          max_prompt_length := 100000 |};
     rate_limiting :=
       {| global_max_requests_per_minute := 1000; user_max_requests_per_minute := 60;
          user_daily_quota_usd := Some 100%Q; session_budget_usd := Some 10%Q |};
     retry_strategy := {| max_attempts := 1 |};
     anthropic_api_key := Some "key-a"%string;
     openai_api_key := Some "key-o"%string;
     fallback_provider := fallback;
     fallback_model := Some "gpt-3.5-turbo"%string;
     enable_monitoring := true; enable_safety_checks := true; enable_recovery := true |}.

Definition sample_context : RequestContext :=
  {| ctx_request_id := "req-1"; ctx_timestamp := 0;
     user_id := Some "user-1"%string; session_id := Some "session-1"%string;
     prompt := "Tell a story"; max_tokens := 100; temperature := 7 # 10;
     allowed_topics := None; forbidden_patterns := None; max_cost_usd := None |}.

Definition sample_breaker (st : CircuitState) (last_failure : option Z) : CircuitBreaker :=
  {| failure_threshold := 5; recovery_timeout := 60000000; success_threshold := 2;
     expected_exception := Exception;
     state := st; failure_count := 0; success_count := 0;
     last_failure_time := last_failure; last_state_change := 0;
     total_calls := 0; total_failures := 0; total_successes := 0;
     state_history := [(CLOSED, 0)] |}.

Definition sample_bucket : TokenBucket :=
  {| capacity := 2; refill_rate := 1; tokens := 2; last_refill := 0 |}.

(** The guardian as [LLMGuardian.__init__] builds it from [sample_config],
    with the given breaker in place. *)
Definition sample_guardian (fallback : option string) (breaker : CircuitBreaker)
    : LLMGuardian :=
  {| config := sample_config fallback;
     quality_monitor :=
       {| qm_config := monitoring (sample_config fallback);
          quality_history := []; qm_active_alerts := [] |};
     performance_monitor :=
       {| pf_config := monitoring (sample_config fallback); metrics_history := [];
          pf_session_costs := ∅; user_costs := ∅; daily_cost_reset := ∅;
          latency_baseline_p50 := None; latency_baseline_p95 := None;
          pf_active_alerts := [] |};
     circuit_breaker := breaker;
     rate_limiter :=
       {| rl_config := rate_limiting (sample_config fallback);
          global_limiter :=
            {| capacity := 1000; refill_rate := 1000 / 60; tokens := 1000;
               last_refill := 1000 |};
          user_limiters := ∅; user_quotas := ∅; user_quota_reset := ∅;
          session_costs := ∅ |};
     retry_manager := retry_strategy (sample_config fallback);
     audit_logger := [];
     state_manager := ∅;
     llm_clients := {["anthropic"%string]} ∪ {["openai"%string]};
     provider_calls := [] |}.


Definition spent_limiter : RateLimiter :=
  {| rl_config := rate_limiting (sample_config None);
     global_limiter :=
       {| capacity := 1000; refill_rate := 1000 / 60; tokens := 1000; last_refill := 0 |};
     user_limiters := ∅;
     user_quotas := {["user-1"%string := 6 # 5]};
     user_quota_reset := {["user-1"%string := 0]};
     session_costs := {["session-1"%string := 6 # 5]} |}.

(** A clock that stays at the epoch. *)
Definition frozen_env : Env :=
  {| clock := fun _ => 0;
     re_compiles := fun _ => true;
     re_search := fun _ _ => false;
     find_words := fun _ => [];
     word_count := fun _ => 12;
     lower := fun text => text;
     generate := fun provider0 model0 _ _ => Ok (sample_response provider0 model0);
     np_percentile := fun _ _ => 0%Q;
     checkpoint_file_opens := fun _ => true |}.

(** user-1 has used up the daily quota of 100 USD. *)
Definition exhausted_limiter : RateLimiter :=
  {| rl_config := rate_limiting (sample_config None);
     global_limiter :=
       {| capacity := 1000; refill_rate := 1000 / 60; tokens := 1000; last_refill := 0 |};
     user_limiters := ∅;
     user_quotas := {["user-1"%string := 100%Q]};
     user_quota_reset := {["user-1"%string := 0]};
     session_costs := ∅ |}.

(** A window of one minute with room for two requests, both taken. *)
Definition sample_window : SlidingWindowRateLimiter :=
  {| sw_max_requests := 2; window := 60000000;
     requests := [("user-1"%string, 0); ("user-1"%string, 1000)] |}.

Definition sample_strategy : RetryStrategy :=
  {| rs_max_attempts := 3; initial_delay := 1; max_delay := 60;
     exponential_base := 2; jitter := true |}.

(** A call that fails with [ConnectionError] twice and then answers; the
    state counts the calls. *)
Definition flaky_call : M nat string :=
  n <- get ;;
  modify S ;;
  if (n <? 2)%nat then raise ConnectionError else ret "answer"%string.

(** ** A world that answers as the libraries do

    The sample runs of [execute_request] below consult the
    regular-expression engine and the string helpers on three sentences:
    the prompt [Tell a story] and the two answers [kind_story] and
    [cruel_story].  [story_env] gives for them the values Python gives. *)

(** [str.lower()] on ASCII text. *)
Definition ascii_lower (c : Ascii.ascii) : Ascii.ascii :=
  let n := Ascii.nat_of_ascii c in
  if (65 <=? n)%nat && (n <=? 90)%nat then Ascii.ascii_of_nat (n + 32) else c.

Fixpoint string_lower (text : string) : string :=
  match text with
  | EmptyString => EmptyString
  | String c text' => String (ascii_lower c) (string_lower text')
  end.

Definition is_lower_letter (c : Ascii.ascii) : bool :=
  (97 <=? Ascii.nat_of_ascii c)%nat && (Ascii.nat_of_ascii c <=? 122)%nat.

(** [re.findall(r"\b[a-z]+\b", text)] on text made of letters, spaces and
    punctuation: the maximal runs of letters; [word] is the run being
    read. *)
Fixpoint letter_runs (word : string) (text : string) : list string :=
  match text with
  | EmptyString =>
      match word with EmptyString => [] | _ => [word] end
  | String c text' =>
      if is_lower_letter c then letter_runs (word +:+ String c EmptyString) text'
      else match word with
           | EmptyString => letter_runs EmptyString text'
           | _ => word :: letter_runs EmptyString text'
           end
  end.

(** [len(text.split())] on text whose only white space is the space:
    the number of maximal runs of other characters; [inside] tells
    whether such a run is being read. *)
Fixpoint split_count (inside : bool) (text : string) : Z :=
  match text with
  | EmptyString => 0
  | String c text' =>
      if (Ascii.nat_of_ascii c =? 32)%nat then split_count false text'
      else (if inside then 0 else 1) + split_count true text'
  end.

Definition kind_story : string :=
  "I will tell a story about a quiet village by the sea and the people who live there.".

Definition cruel_story : string :=
  "I will tell a story where they attack with a weapon and hurt people badly.".

(** The response [OpenAIClient.generate] builds for an answer of 18
    tokens to a prompt of 3, at the price of gpt-3.5-turbo. *)
Definition story_response (answer model0 : string) : LLMResponse :=
  {| request_id := "req-1";
     response_text := answer;
     latency_ms := 10; tokens_used := 21; cost_usd := 57 # 2000000;
     quality_score := 0; quality_level := ACCEPTABLE;
     contains_harmful_content := false; is_hallucination := false; is_off_task := false;
     provider := "openai"; model := model0;
     raw_response :=
       {["usage"%string :=
           ({["prompt_tokens"%string := 3]} : gmap string Z)
           ∪ {["completion_tokens"%string := 18]} ∪ {["total_tokens"%string := 21]}]};
     timestamp := 0 |}.

(** The provider [anthropic] is down, [openai] tells [answer]; of all the
    patterns in the code, only the two violence patterns match one of the
    three sentences, [cruel_story]. *)
Definition story_env (answer : string) : Env :=
  {| clock := sample_clock;
     re_compiles := fun _ => true;
     re_search := fun pattern text =>
       String.eqb text cruel_story
       && (String.eqb pattern "\b(kill|murder|assault|attack|weapon|gun|knife|bomb)\b"
           || String.eqb pattern "\b(hurt|harm|injure|wound)\b");
     find_words := fun text => letter_runs EmptyString (string_lower text);
     word_count := split_count false;
     lower := string_lower;
     generate := fun provider0 model0 _ _ =>
       if String.eqb provider0 "openai" then Ok (story_response answer model0)
       else Raise LLMProviderAPIError;
     np_percentile := fun _ _ => 0%Q;
     checkpoint_file_opens := fun _ => true |}.

(** [sample_config] with [enable_recovery] off, and the guardian
    [LLMGuardian.__init__] builds from it. *)
Definition plain_config (fallback : option string) : GuardianConfig :=
  {| monitoring := monitoring (sample_config fallback);
     safety := safety (sample_config fallback);
     rate_limiting := rate_limiting (sample_config fallback);
     retry_strategy := retry_strategy (sample_config fallback);
     anthropic_api_key := anthropic_api_key (sample_config fallback);
     openai_api_key := openai_api_key (sample_config fallback);
     fallback_provider := fallback;
     fallback_model := fallback_model (sample_config fallback);
     enable_monitoring := true; enable_safety_checks := true; enable_recovery := false |}.

Definition plain_guardian (fallback : option string) (breaker : CircuitBreaker)
    : LLMGuardian :=
  {| config := plain_config fallback;
     quality_monitor := quality_monitor (sample_guardian fallback breaker);
     performance_monitor := performance_monitor (sample_guardian fallback breaker);
     circuit_breaker := breaker;
     rate_limiter := rate_limiter (sample_guardian fallback breaker);
     retry_manager := retry_manager (sample_guardian fallback breaker);
     audit_logger := [];
     state_manager := ∅;
     llm_clients := llm_clients (sample_guardian fallback breaker);
     provider_calls := [] |}.

(** A breaker in HALF_OPEN built with
    [expected_exception=LLMProviderError]. *)
Definition narrow_breaker : CircuitBreaker :=
  {| failure_threshold := 5; recovery_timeout := 60000000; success_threshold := 2;
     expected_exception := LLMProviderError;
     state := HALF_OPEN; failure_count := 0; success_count := 0;
     last_failure_time := Some 0; last_state_change := 0;
     total_calls := 0; total_failures := 0; total_successes := 0;
     state_history := [(CLOSED, 0); (OPEN, 0); (HALF_OPEN, 0)] |}.

(** A call that answers, except the second time, when it fails with
    [error]; the state counts the calls. *)
Definition interrupted_call (error : ExnClass) : M nat string :=
  n <- get ;;
  modify S ;;
  if (n =? 1)%nat then raise error else ret "answer"%string.

(** [sample_context] with a forbidden pattern that is not a regular
    expression, and the regular-expression engine refusing it. *)
Definition bracket_context : RequestContext :=
  {| ctx_request_id := "req-1"; ctx_timestamp := 0;
     user_id := Some "user-1"%string; session_id := Some "session-1"%string;
     prompt := "Tell a story"; max_tokens := 100; temperature := 7 # 10;
     allowed_topics := None; forbidden_patterns := Some ["("%string];
     max_cost_usd := None |}.

Definition bracket_env : Env :=
  {| clock := sample_clock;
     re_compiles := fun pattern => negb (String.eqb pattern "(");
     re_search := fun _ _ => false;
     find_words := fun text => letter_runs EmptyString (string_lower text);
     word_count := split_count false;
     lower := string_lower;
     generate := fun provider0 model0 _ _ => Ok (story_response kind_story model0);
     np_percentile := fun _ _ => 0%Q;
     checkpoint_file_opens := fun _ => true |}.

(** * Vocabulary of the properties *)

(** [m] only moves the state along the relation [T]. *)
Definition preserves {St A} (T : St -> St -> Prop) (m : M St A) : Prop :=
  forall s, T (fst s) (fst (snd (m s))).

(** No USD ledger of the rate limiter has been charged between [before]
    and [after]: the session ledger is the same, and a user's daily ledger
    and reset stamp are the same, or the ledger has been reset to zero
    and stamped with a reading of the clock, which happens only when no
    reset was recorded for the user or that reading falls on a later UTC
    date than the recorded one. *)
Definition not_charged (env : Env) (before after : RateLimiter) : Prop :=
  session_costs after = session_costs before
  /\ forall uid : string,
       (user_quotas after !! uid = user_quotas before !! uid
        /\ user_quota_reset after !! uid = user_quota_reset before !! uid)
       \/ (user_quotas after !! uid = Some 0%Q
           /\ exists j : nat,
                user_quota_reset after !! uid = Some (clock env j)
                /\ match user_quota_reset before !! uid with
                   | Some last_reset => date last_reset < date (clock env j)
                   | None => True
                   end).

Definition guardian_not_charged (env : Env) (before after : LLMGuardian) : Prop :=
  not_charged env (rate_limiter before) (rate_limiter after).

(** The circuit breaker is the same object in the same state. *)
Definition same_breaker (before after : LLMGuardian) : Prop :=
  circuit_breaker after = circuit_breaker before.


Definition errors_only (evs : list AuditEvent) : Prop :=
  Forall (fun e => event_type e = "error"%string) evs.

Definition request_event (context : RequestContext) : AuditEvent :=
  {| event_type := "request"; ev_request_id := ctx_request_id context;
     error_type := None; ev_context := [] |}.


Definition error_event (rid : string) (error : ExnClass) (context : list string) : AuditEvent :=
  {| event_type := "error"; ev_request_id := rid;
     error_type := Some error; ev_context := context |}.

(** Between [g] and [g'] only the providers' record of calls and the
    audit log have changed, by [added] calls and the events [evs]. *)
Definition calls_and_audit (g g' : LLMGuardian) (added : list (string * string))
    (evs : list AuditEvent) : Prop :=
  g' = set_audit_logger (audit_logger g ++ evs)
         (set_provider_calls (provider_calls g ++ added) g).

(** What a step of the pipeline may have done: the configuration is
    untouched, at most [n] provider calls were made and the events [evs]
    were appended to the audit log. *)
Definition step_effect (g g' : LLMGuardian) (n : nat) (evs : list AuditEvent) : Prop :=
  config g' = config g
  /\ retry_manager g' = retry_manager g
  /\ (length (provider_calls g') <= length (provider_calls g) + n)%nat
  /\ audit_logger g' = audit_logger g ++ evs.

(** The audit log has only grown, and only by error events. *)
Definition errors_appended (before after : list AuditEvent) : Prop :=
  exists evs, after = before ++ evs /\ errors_only evs.

Definition only_errors_logged (before after : LLMGuardian) : Prop :=
  errors_appended (audit_logger before) (audit_logger after).

(** Nothing was sent to a provider and the configuration is untouched. *)
Definition quiet (before after : LLMGuardian) : Prop :=
  config after = config before
  /\ retry_manager after = retry_manager before
  /\ provider_calls after = provider_calls before.

(** The number of attempts a retry run may make. *)
Definition attempts_allowed (strategy : RetryConfig) : nat :=
  Z.to_nat (max_attempts strategy).

(** Run under configuration [C] and retry strategy [R], [m] keeps both
    and sends at most [n] requests to the providers. *)
Definition calls_within (C : GuardianConfig) (R : RetryConfig) (n : nat)
    {A} (m : M LLMGuardian A) : Prop :=
  forall s,
    config (fst s) = C -> retry_manager (fst s) = R ->
    config (fst (snd (m s))) = C
    /\ retry_manager (fst (snd (m s))) = R
    /\ (length (provider_calls (fst (snd (m s)))) <= length (provider_calls (fst s)) + n)%nat.

(** [m] neither reads nor writes the circuit breaker: run with another
    breaker in place, it does the same and leaves that breaker there. *)
Definition ignores_breaker {A} (m : M LLMGuardian A) : Prop :=
  forall (cb : CircuitBreaker) (g : LLMGuardian) (k : nat),
    m (set_circuit_breaker cb g, k) =
      (fst (m (g, k)),
       (set_circuit_breaker cb (fst (snd (m (g, k)))), snd (snd (m (g, k))))).

(** The attempts a fallback run may make: none without a fallback
    provider. *)
Definition fallback_allowance (C : GuardianConfig) (R : RetryConfig) : nat :=
  match nonempty (fallback_provider C) with
  | Some _ => attempts_allowed R
  | None => 0
  end.


(** The breaker's bookkeeping is coherent: OPEN has a recorded failure
    time, and the state history ends with the current state and the time
    it was entered. *)
Definition breaker_consistent (cb : CircuitBreaker) : Prop :=
  (state cb = OPEN -> last_failure_time cb <> None)
  /\ last (state_history cb) = Some (state cb, last_state_change cb).

(** The deque of a sliding-window limiter holds its entries in the order
    of their times, oldest first. *)
Fixpoint oldest_first (queue : list (string * Z)) : Prop :=
  match queue with
  | [] => True
  | r :: queue' => Forall (fun r' => snd r <= snd r') queue' /\ oldest_first queue'
  end.

(** The state reached when [func] has been run [n] times in a row, each
    run starting where the previous one stopped. *)
Definition after_attempts {W A} (func : M W A) (n : nat) (s : W * nat) : W * nat :=
  Nat.iter n (fun s => snd (func s)) s.

(** * Properties *)

Section Properties.

Variable env : Env.

(** Settle the decidable tests whose outcome the context fixes. *)
Ltac decide_all :=
  repeat first
    [ rewrite bool_decide_eq_true_2 by (done || lia || congruence)
    | rewrite bool_decide_eq_false_2 by (done || lia || congruence) ].

(** Run a computation on a state, helped by [tac] at each stuck test. *)
Ltac run_with tac := repeat (progress (cbn; tac; decide_all)).

(** ** Circuit breaker *)

Lemma call_admit_rejects (cb : CircuitBreaker) (k : nat) (t : Z) :
  state cb = OPEN ->
  last_failure_time cb = Some t ->
  clock env k - t < recovery_timeout cb ->
  call_admit env (cb, k) =
    (Raise CircuitBreakerOpenError,
     (set_total_calls (total_calls cb + 1) cb, S (S (S k)))).
Proof.
  intros Hopen Hlast Hearly.
  unfold call_admit, _should_attempt_reset, _time_until_retry.
  run_with ltac:(rewrite ?Hopen, ?Hlast).
  reflexivity.
Qed.

(** A call that arrives in HALF_OPEN is admitted and only counted. *)
Lemma call_admit_half_open (cb : CircuitBreaker) (k : nat) :
  state cb = HALF_OPEN ->
  call_admit env (cb, k) = (Ok tt, (set_total_calls (total_calls cb + 1) cb, k)).
Proof.
  intros Hhalf. unfold call_admit.
  run_with ltac:(rewrite ?Hhalf). reflexivity.
Qed.

(** A call that arrives in OPEN is rejected or finds the breaker moved to
    HALF_OPEN. *)
Lemma call_admit_open (cb : CircuitBreaker) (k : nat) :
  state cb = OPEN ->
  forall r cb' k', call_admit env (cb, k) = (r, (cb', k')) ->
    r = Raise CircuitBreakerOpenError \/ (r = Ok tt /\ state cb' = HALF_OPEN).
Proof.
  intros Hopen r cb' k'.
  unfold call_admit, _should_attempt_reset, _time_until_retry, _transition_to.
  run_with ltac:(rewrite ?Hopen).
  destruct (last_failure_time cb) as [t|] eqn:Hlast.
  - run_with idtac. case_bool_decide.
    + run_with ltac:(rewrite ?Hopen, ?Hlast). intros [= <- <- <-]. right. split; reflexivity.
    + run_with ltac:(rewrite ?Hopen, ?Hlast). intros [= <- <- <-]. left. reflexivity.
  - run_with ltac:(rewrite ?Hopen, ?Hlast). intros [= <- <- <-]. right. split; reflexivity.
Qed.

(** [_on_failure] in HALF_OPEN re-opens the breaker. *)
Lemma on_failure_half_open (cb : CircuitBreaker) (k : nat) :
  state cb = HALF_OPEN ->
  state (fst (snd (_on_failure env (cb, k)))) = OPEN.
Proof.
  intros Hhalf. unfold _on_failure, _transition_to.
  run_with ltac:(rewrite ?Hhalf). reflexivity.
Qed.

(** [_on_success] in HALF_OPEN, below the threshold. *)
Lemma on_success_half_open_below (cb : CircuitBreaker) (k : nat) :
  state cb = HALF_OPEN ->
  success_count cb + 1 < success_threshold cb ->
  _on_success env (cb, k) =
    (Ok tt,
     (set_success_count (success_count cb + 1)
        (set_total_successes (total_successes cb + 1) (set_failure_count 0 cb)), k)).
Proof.
  intros Hhalf Hbelow. unfold _on_success.
  run_with ltac:(rewrite ?Hhalf). reflexivity.
Qed.

(** [_on_success] in HALF_OPEN, reaching the threshold. *)
Lemma on_success_half_open_reach (cb : CircuitBreaker) (k : nat) :
  state cb = HALF_OPEN ->
  success_threshold cb <= success_count cb + 1 ->
  state (fst (snd (_on_success env (cb, k)))) = CLOSED.
Proof.
  intros Hhalf Hreach. unfold _on_success, _transition_to.
  run_with ltac:(rewrite ?Hhalf). reflexivity.
Qed.

(** C5. While the breaker is OPEN and less than [recovery_timeout] has
    passed since the last failure, [call] raises [CircuitBreakerOpenError]
    and the outcome does not depend on the wrapped function, which is
    never run.  Whenever a call arrives in OPEN, either it is rejected in
    this way or the wrapped function runs from a state in which the
    breaker has been moved to HALF_OPEN. *)
Theorem open_breaker_blocks_calls {W A : Type} (L : Lens W CircuitBreaker)
    (func : M W A) (w : W) (k : nat) :
  (forall cb w0, view L (update L cb w0) = cb) ->
  state (view L w) = OPEN ->
  (forall t,
     last_failure_time (view L w) = Some t ->
     clock env k - t < recovery_timeout (view L w) ->
     call env L func (w, k) =
       (Raise CircuitBreakerOpenError,
        (update L (set_total_calls (total_calls (view L w) + 1) (view L w)) w,
         S (S (S k)))))
  /\ (exists s1,
        (zoom L (call_admit env) (w, k) = (Raise CircuitBreakerOpenError, s1) /\
         call env L func (w, k) = (Raise CircuitBreakerOpenError, s1))
        \/ (state (view L (fst s1)) = HALF_OPEN /\
            call env L func (w, k) = call_attempt env L func s1)).
Proof.
  intros Hlens Hopen. split.
  - intros t Hlast Hearly. unfold call. cbn [bind zoom fst snd].
    rewrite (call_admit_rejects _ _ _ Hopen Hlast Hearly). reflexivity.
  - unfold call. cbn [bind zoom fst snd].
    destruct (call_admit env (view L w, k)) as [r [cb' k']] eqn:Hadmit.
    destruct (call_admit_open _ _ Hopen _ _ _ Hadmit) as [-> | [-> Hhalf]].
    + eexists. left. split; reflexivity.
    + eexists. right. split; [|reflexivity]. cbn. rewrite Hlens. exact Hhalf.
Qed.

(** C9. A call rejected because the breaker is OPEN and the recovery
    timeout has not elapsed changes nothing in the breaker but
    [total_calls], which grows by one. *)
Theorem rejected_call_only_counted {W A : Type} (L : Lens W CircuitBreaker)
    (func : M W A) (w : W) (k : nat) (t : Z) :
  (forall cb w0, view L (update L cb w0) = cb) ->
  state (view L w) = OPEN ->
  last_failure_time (view L w) = Some t ->
  clock env k - t < recovery_timeout (view L w) ->
  let before := view L w in
  let after := view L (fst (snd (call env L func (w, k)))) in
  fst (call env L func (w, k)) = Raise CircuitBreakerOpenError /\
  total_calls after = total_calls before + 1 /\
  state after = state before /\
  failure_count after = failure_count before /\
  success_count after = success_count before /\
  last_failure_time after = last_failure_time before /\
  last_state_change after = last_state_change before /\
  total_failures after = total_failures before /\
  total_successes after = total_successes before /\
  state_history after = state_history before /\
  after = set_total_calls (total_calls before + 1) before.
Proof.
  intros Hlens Hopen Hlast Hearly before after. subst before after.
  unfold call. cbn [bind zoom fst snd].
  rewrite (call_admit_rejects _ _ _ Hopen Hlast Hearly). cbn [fst snd].
  rewrite Hlens. cbn. repeat split; reflexivity.
Qed.

(** ** Token bucket *)

Lemma Qltb_lt (x y : Q) : Qltb x y = true <-> (x < y)%Q.
Proof.
  unfold Qltb. rewrite negb_true_iff, <- not_true_iff_false, Qle_bool_iff.
  split; [apply Qnot_le_lt | apply Qlt_not_le].
Qed.

Lemma Qltb_ge (x y : Q) : Qltb x y = false <-> (y <= x)%Q.
Proof.
  unfold Qltb. rewrite negb_false_iff, Qle_bool_iff. reflexivity.
Qed.

Lemma Qgeb_ge (x y : Q) : Qgeb x y = true <-> (y <= x)%Q.
Proof. unfold Qgeb. apply Qle_bool_iff. Qed.

Lemma Qgeb_lt (x y : Q) : Qgeb x y = false <-> (x < y)%Q.
Proof.
  unfold Qgeb. rewrite <- not_true_iff_false, Qle_bool_iff.
  split; [apply Qnot_le_lt | apply Qlt_not_le].
Qed.

Lemma Qgtb_gt (x y : Q) : Qgtb x y = true <-> (y < x)%Q.
Proof.
  unfold Qgtb. rewrite negb_true_iff, <- not_true_iff_false, Qle_bool_iff.
  split; [apply Qnot_le_lt | apply Qlt_not_le].
Qed.

Lemma Qgtb_le (x y : Q) : Qgtb x y = false <-> (x <= y)%Q.
Proof.
  unfold Qgtb. rewrite negb_false_iff, Qle_bool_iff. reflexivity.
Qed.

Lemma py_min_le_l (x y : Q) : (py_min x y <= x)%Q.
Proof.
  unfold py_min. destruct (Qltb y x) eqn:H.
  - apply Qltb_lt in H. apply Qlt_le_weak. exact H.
  - apply Qle_refl.
Qed.

Lemma py_min_le_r (x y : Q) : (py_min x y <= y)%Q.
Proof.
  unfold py_min. destruct (Qltb y x) eqn:H.
  - apply Qle_refl.
  - apply Qltb_ge in H. exact H.
Qed.

Lemma py_min_glb (x y z : Q) : (z <= x)%Q -> (z <= y)%Q -> (z <= py_min x y)%Q.
Proof. intros Hx Hy. unfold py_min. destruct (Qltb y x); assumption. Qed.

Lemma total_seconds_nonneg (d : Z) : 0 <= d -> (0 <= total_seconds d)%Q.
Proof.
  intros Hd. unfold total_seconds.
  apply Qle_shift_div_l; [reflexivity|].
  rewrite Qmult_0_l. change 0%Q with (inject_Z 0). rewrite <- Zle_Qle. exact Hd.
Qed.

Lemma total_seconds_0 : (total_seconds 0 == 0)%Q.
Proof. reflexivity. Qed.

Lemma total_seconds_split (a b c : Z) :
  (total_seconds (c - a) == total_seconds (b - a) + total_seconds (c - b))%Q.
Proof.
  unfold total_seconds, Z.sub.
  rewrite !inject_Z_plus, !inject_Z_opp. field.
Qed.

(** What one [acquire] does to the bucket read at clock tick [k]. *)
Lemma acquire_run (n : Z) (tb : TokenBucket) (k : nat) :
  let filled :=
    py_min (inject_Z (capacity tb))
      (tokens tb + total_seconds (clock env k - last_refill tb) * refill_rate tb)%Q in
  acquire env n (tb, k) =
    if Qgeb filled (inject_Z n) then
      (Ok true,
       ({| capacity := capacity tb; refill_rate := refill_rate tb;
           tokens := (filled - inject_Z n)%Q; last_refill := clock env k |}, S k))
    else
      (Ok false,
       ({| capacity := capacity tb; refill_rate := refill_rate tb;
           tokens := filled; last_refill := clock env k |}, S k)).
Proof.
  intros filled. subst filled. unfold acquire, _refill. cbn.
  destruct (Qgeb _ _); reflexivity.
Qed.

(** The conservation invariant of a sequence of [acquire] calls: tokens
    handed out plus tokens left never exceed the tokens at the start plus
    the refill earned since. *)
Lemma acquire_all_invariant (requests : list Z) : forall (tb : TokenBucket) (k : nat),
  (0 <= refill_rate tb)%Q ->
  (0 <= tokens tb)%Q ->
  (0 <= inject_Z (capacity tb))%Q ->
  last_refill tb <= clock env k ->
  (forall i j : nat, (k <= i <= j)%nat -> clock env i <= clock env j) ->
  exists total tb',
    acquire_all env requests (tb, k) = (Ok total, (tb', (k + length requests)%nat)) /\
    last_refill tb <= last_refill tb' /\
    (0 <= tokens tb')%Q /\
    (inject_Z total + tokens tb' <=
       tokens tb + refill_rate tb * total_seconds (last_refill tb' - last_refill tb))%Q.
Proof.
  induction requests as [|n requests IH]; intros tb k Hrate Htok Hcap Hlast Hmono.
  - exists 0, tb. cbn [acquire_all ret length]. rewrite Nat.add_0_r.
    repeat split; try lia; try assumption.
    rewrite Z.sub_diag, total_seconds_0. change (inject_Z 0) with 0%Q. lra.
  - cbn [acquire_all bind].
    rewrite acquire_run. cbv zeta.
    set (filled := py_min _ _).
    assert (Hadd : (0 <= total_seconds (clock env k - last_refill tb) * refill_rate tb)%Q).
    { apply Qmult_le_0_compat; [apply total_seconds_nonneg; lia | exact Hrate]. }
    assert (Hfilled_le :
      (filled <= tokens tb + total_seconds (clock env k - last_refill tb) * refill_rate tb)%Q)
      by apply py_min_le_r.
    assert (Hfilled_nonneg : (0 <= filled)%Q).
    { apply py_min_glb; [exact Hcap | lra]. }
    assert (Hnext : clock env k <= clock env (S k)) by (apply Hmono; lia).
    assert (Hmono' : forall i j : nat, (S k <= i <= j)%nat -> clock env i <= clock env j)
      by (intros i j Hij; apply Hmono; lia).
    destruct (Qgeb filled (inject_Z n)) eqn:Hgrant.
    + apply Qgeb_ge in Hgrant.
      destruct (IH {| capacity := capacity tb; refill_rate := refill_rate tb;
                      tokens := (filled - inject_Z n)%Q; last_refill := clock env k |} (S k))
        as (total & tb' & Hrun & Hlast' & Htok' & Hinv);
        [exact Hrate | cbn; lra | exact Hcap | exact Hnext | exact Hmono' |].
      rewrite Hrun. cbn [ret]. cbn [tokens last_refill refill_rate] in Hlast', Hinv.
      exists (n + total), tb'.
      replace (k + length (n :: requests))%nat with (S k + length requests)%nat by (cbn; lia).
      repeat split; try assumption; try lia.
      rewrite inject_Z_plus.
      rewrite (total_seconds_split (last_refill tb) (clock env k) (last_refill tb')).
      lra.
    + apply Qgeb_lt in Hgrant.
      destruct (IH {| capacity := capacity tb; refill_rate := refill_rate tb;
                      tokens := filled; last_refill := clock env k |} (S k))
        as (total & tb' & Hrun & Hlast' & Htok' & Hinv);
        [exact Hrate | exact Hfilled_nonneg | exact Hcap | exact Hnext | exact Hmono' |].
      rewrite Hrun. cbn [ret]. cbn [tokens last_refill refill_rate] in Hlast', Hinv.
      exists (0 + total), tb'.
      replace (k + length (n :: requests))%nat with (S k + length requests)%nat by (cbn; lia).
      repeat split; try assumption; try lia.
      rewrite Z.add_0_l.
      rewrite (total_seconds_split (last_refill tb) (clock env k) (last_refill tb')).
      lra.
Qed.

(** C7. Starting from a bucket holding at most [capacity] tokens, with a
    non-negative refill rate and a clock that does not run backwards, any
    finite sequence of [acquire] calls hands out at most
    [capacity + refill_rate * t] tokens, [t] being the time from the
    bucket's last refill to the last call; and an [acquire] that returns
    [False] leaves exactly the refilled token count, which is not below
    the count before the call. *)
Theorem token_bucket_conservation (requests : list Z) (tb : TokenBucket) (k : nat) :
  (0 <= refill_rate tb)%Q ->
  (0 <= tokens tb)%Q ->
  (tokens tb <= inject_Z (capacity tb))%Q ->
  last_refill tb <= clock env k ->
  (forall i j : nat, (k <= i <= j)%nat -> clock env i <= clock env j) ->
  (exists total tb',
     acquire_all env requests (tb, k) = (Ok total, (tb', (k + length requests)%nat)) /\
     (inject_Z total <=
        inject_Z (capacity tb)
        + refill_rate tb * total_seconds (last_refill tb' - last_refill tb))%Q)
  /\ (forall n,
       fst (acquire env n (tb, k)) = Ok false ->
       tokens (fst (snd (acquire env n (tb, k)))) =
         tokens (fst (snd (_refill env (tb, k)))) /\
       (tokens tb <= tokens (fst (snd (acquire env n (tb, k)))))%Q).
Proof.
  intros Hrate Htok Hcap Hlast Hmono. split.
  - destruct (acquire_all_invariant requests tb k) as (total & tb' & Hrun & _ & Htok' & Hinv);
      try assumption; [lra|].
    exists total, tb'. split; [exact Hrun | lra].
  - intros n. rewrite acquire_run. cbv zeta.
    destruct (Qgeb _ _) eqn:Hgrant; [discriminate|]. intros _. cbn. split; [reflexivity|].
    apply py_min_glb; [exact Hcap|].
    assert (0 <= total_seconds (clock env k - last_refill tb) * refill_rate tb)%Q.
    { apply Qmult_le_0_compat; [apply total_seconds_nonneg; lia | exact Hrate]. }
    lra.
Qed.

(** ** Quality assessment *)

Lemma categorize_quality_thresholds (q : Q) :
  ((9 # 10 <= q)%Q -> _categorize_quality q = EXCELLENT)
  /\ ((75 # 100 <= q)%Q -> (q < 9 # 10)%Q -> _categorize_quality q = GOOD)
  /\ ((6 # 10 <= q)%Q -> (q < 75 # 100)%Q -> _categorize_quality q = ACCEPTABLE)
  /\ ((3 # 10 <= q)%Q -> (q < 6 # 10)%Q -> _categorize_quality q = POOR)
  /\ ((q < 3 # 10)%Q -> _categorize_quality q = UNSAFE).
Proof.
  unfold _categorize_quality.
  destruct (Qgeb q (9 # 10)) eqn:H1; [apply Qgeb_ge in H1 | apply Qgeb_lt in H1];
  destruct (Qgeb q (75 # 100)) eqn:H2; [apply Qgeb_ge in H2 | apply Qgeb_lt in H2 | apply Qgeb_ge in H2 | apply Qgeb_lt in H2];
  destruct (Qgeb q (6 # 10)) eqn:H3; [apply Qgeb_ge in H3 | apply Qgeb_lt in H3 | apply Qgeb_ge in H3 | apply Qgeb_lt in H3 | apply Qgeb_ge in H3 | apply Qgeb_lt in H3 | apply Qgeb_ge in H3 | apply Qgeb_lt in H3];
  destruct (Qgeb q (3 # 10)) eqn:H4;
  try apply Qgeb_ge in H4; try apply Qgeb_lt in H4;
  repeat split; intros; try reflexivity; exfalso; lra.
Qed.

(** The detectors read nothing of a response but its text. *)
Lemma check_safety_text (r r' : LLMResponse) :
  response_text r = response_text r' -> check_safety env r = check_safety env r'.
Proof. intros H. unfold check_safety. rewrite H. reflexivity. Qed.

Lemma off_task_detect_text (r r' : LLMResponse) (context : RequestContext) :
  response_text r = response_text r' ->
  off_task_detect env r context = off_task_detect env r' context.
Proof. intros H. unfold off_task_detect. rewrite H. reflexivity. Qed.

(** The state and result of [assess_quality], whatever its outcome: the
    response carries the five annotations, the score has joined the
    history, and the only possible exception is the critical one. *)
Lemma assess_quality_run (context : RequestContext) (qm : QualityMonitor)
    (response : LLMResponse) (k : nat) :
  let h := hallucination_detect env response in
  let safety_results := check_safety env response in
  let off := off_task_detect env response context in
  let score :=
    _calculate_quality_score h (risk_score safety_results) off
      (String.length (response_text response)) in
  let pass := _should_pass_validation score (violations safety_results) (Qgtb h (7 # 10)) in
  let annotated :=
    set_quality_level (_categorize_quality score)
      (set_quality_score score
         (set_is_off_task off
            (set_contains_harmful_content (negb (is_safe safety_results))
               (set_is_hallucination (Qgtb h (7 # 10)) response)))) in
  exists alerts,
    snd (assess_quality env context ((qm, response), k)) =
      (({| qm_config := qm_config qm;
           quality_history := deque_append 1000 score (quality_history qm);
           qm_active_alerts := alerts |}, annotated), k)
    /\ (if negb pass && Qltb score (3 # 10)
        then fst (assess_quality env context ((qm, response), k)) =
               Raise QualityCheckFailedError
        else exists assessment,
               fst (assess_quality env context ((qm, response), k)) = Ok assessment
               /\ hallucination_probability assessment = h
               /\ pass_validation assessment = pass).
Proof.
  intros h safety_results off score pass annotated.
  unfold assess_quality, get_response, get_self, _raise_quality_alert.
  cbn [bind get modify ret raise fst snd].
  fold h.
  rewrite (check_safety_text (set_is_hallucination (Qgtb h (7 # 10)) response) response
             eq_refl).
  fold safety_results.
  rewrite (off_task_detect_text
             (set_contains_harmful_content (negb (is_safe safety_results))
                (set_is_hallucination (Qgtb h (7 # 10)) response))
             response context eq_refl).
  fold off.
  cbn [is_off_task set_is_off_task response_text set_contains_harmful_content
       set_is_hallucination qm_config is_hallucination set_quality_score set_quality_level].
  fold score. fold pass.
  destruct (Qltb score (quality_alert_threshold (qm_config qm)));
    cbn [bind get modify ret raise fst snd pass_validation];
    (destruct (negb pass && Qltb score (3 # 10)) eqn:Hcrit;
     cbn [bind get modify ret raise fst snd];
     [ eexists; split; reflexivity
     | eexists; split; [reflexivity | eexists; repeat split; reflexivity] ]).
Qed.

(** C8. After [assess_quality] returns normally, [quality_level] is the
    category of [quality_score] by the thresholds 0.9, 0.75, 0.6 and 0.3,
    and a response flagged as hallucination has a hallucination
    probability above 0.7. *)
Theorem quality_level_matches_score (context : RequestContext) (qm qm' : QualityMonitor)
    (response response' : LLMResponse) (k k' : nat) (assessment : QualityAssessment) :
  assess_quality env context ((qm, response), k) = (Ok assessment, ((qm', response'), k')) ->
  quality_level response' = _categorize_quality (quality_score response')
  /\ ((9 # 10 <= quality_score response')%Q -> quality_level response' = EXCELLENT)
  /\ ((75 # 100 <= quality_score response')%Q -> (quality_score response' < 9 # 10)%Q ->
      quality_level response' = GOOD)
  /\ ((6 # 10 <= quality_score response')%Q -> (quality_score response' < 75 # 100)%Q ->
      quality_level response' = ACCEPTABLE)
  /\ ((3 # 10 <= quality_score response')%Q -> (quality_score response' < 6 # 10)%Q ->
      quality_level response' = POOR)
  /\ ((quality_score response' < 3 # 10)%Q -> quality_level response' = UNSAFE)
  /\ (is_hallucination response' = true ->
      (7 # 10 < hallucination_probability assessment)%Q).
Proof.
  intros Hrun.
  destruct (assess_quality_run context qm response k) as (alerts & Hstate & Hres).
  rewrite Hrun in Hstate, Hres. cbn [fst snd] in Hstate, Hres.
  injection Hstate as _ Hresp _.
  assert (Hlevel : quality_level response' = _categorize_quality (quality_score response'))
    by (subst response'; reflexivity).
  split; [exact Hlevel|].
  rewrite Hlevel.
  destruct (categorize_quality_thresholds (quality_score response')) as (T1 & T2 & T3 & T4 & T5).
  repeat (split; [assumption|]).
  destruct (negb _ && _); [discriminate|].
  destruct Hres as (assessment' & [= <-] & Hprob & _).
  rewrite Hprob. subst response'. cbn. apply Qgtb_gt.
Qed.

(** C10. Whatever the outcome of [assess_quality], and so also when it
    raises [QualityCheckFailedError], the response ends up with
    [is_hallucination], [contains_harmful_content], [is_off_task],
    [quality_score] and [quality_level] set to the values computed from
    the response text and the prompt, its other fields untouched, and the
    score appended to the quality history; the only exception it can
    raise is [QualityCheckFailedError], and then validation did not pass
    and the score is below 0.3. *)
Theorem annotations_kept_on_quality_failure (context : RequestContext)
    (qm : QualityMonitor) (response : LLMResponse) (k : nat) :
  let outcome := fst (assess_quality env context ((qm, response), k)) in
  let qm' := fst (fst (snd (assess_quality env context ((qm, response), k)))) in
  let response' := snd (fst (snd (assess_quality env context ((qm, response), k)))) in
  let h := hallucination_detect env response in
  let safety_results := check_safety env response in
  let score :=
    _calculate_quality_score h (risk_score safety_results)
      (off_task_detect env response context) (String.length (response_text response)) in
  is_hallucination response' = Qgtb h (7 # 10)
  /\ contains_harmful_content response' = negb (is_safe safety_results)
  /\ is_off_task response' = off_task_detect env response context
  /\ quality_score response' = score
  /\ quality_level response' = _categorize_quality score
  /\ quality_history qm' = deque_append 1000 score (quality_history qm)
  /\ (request_id response' = request_id response
      /\ response_text response' = response_text response
      /\ latency_ms response' = latency_ms response
      /\ tokens_used response' = tokens_used response
      /\ cost_usd response' = cost_usd response
      /\ provider response' = provider response
      /\ model response' = model response
      /\ raw_response response' = raw_response response
      /\ timestamp response' = timestamp response)
  /\ (forall e, outcome = Raise e ->
       e = QualityCheckFailedError
       /\ _should_pass_validation score (violations safety_results)
            (is_hallucination response') = false
       /\ (score < 3 # 10)%Q)
  /\ (forall assessment, outcome = Ok assessment ->
       _should_pass_validation score (violations safety_results)
         (is_hallucination response') = true
       \/ (3 # 10 <= score)%Q).
Proof.
  intros outcome qm' response' h safety_results score.
  destruct (assess_quality_run context qm response k) as (alerts & Hstate & Hres).
  fold h in Hstate, Hres. fold safety_results in Hstate, Hres. fold score in Hstate, Hres.
  subst outcome qm' response'. rewrite Hstate. cbn [fst snd].
  do 6 (split; [reflexivity|]).
  split; [repeat split; reflexivity|].
  cbn [is_hallucination set_quality_level set_quality_score set_is_off_task
       set_contains_harmful_content set_is_hallucination].
  destruct (_should_pass_validation score (violations safety_results) (Qgtb h (7 # 10)))
    eqn:Hpass; cbn [negb andb] in Hres.
  - destruct Hres as (assessment & Hok & _). rewrite Hok. split.
    + intros e [=].
    + intros _ _. left. reflexivity.
  - destruct (Qltb score (3 # 10)) eqn:Hlow.
    + rewrite Hres. split.
      * intros e [= <-]. repeat split. apply Qltb_lt. exact Hlow.
      * intros a [=].
    + destruct Hres as (assessment & Hok & _). rewrite Hok. split.
      * intros e [=].
      * intros _ _. right. apply Qltb_ge. exact Hlow.
Qed.

(** ** Preservation rules *)

Section Preserves.

Context {St : Type} (T : St -> St -> Prop) `{!PreOrder T}.

Lemma preserves_ret {A} (a : A) : preserves T (ret a).
Proof. intros s. cbn. reflexivity. Qed.

Lemma preserves_raise {A} (e : ExnClass) : preserves T (@raise St A e).
Proof. intros s. cbn. reflexivity. Qed.

Lemma preserves_get : preserves T (@get St).
Proof. intros s. cbn. reflexivity. Qed.

Lemma preserves_utcnow : preserves T (@utcnow env St).
Proof. intros s. cbn. reflexivity. Qed.

Lemma preserves_modify (f : St -> St) :
  (forall s, T s (f s)) -> preserves T (modify f).
Proof. intros Hf s. cbn. apply Hf. Qed.

Lemma preserves_bind {A B} (m : M St A) (k : A -> M St B) :
  preserves T m -> (forall a, preserves T (k a)) -> preserves T (bind m k).
Proof.
  intros Hm Hk s. cbn. specialize (Hm s).
  destruct (m s) as [[a|e] s1]; cbn in *.
  - etransitivity; [exact Hm | apply Hk].
  - exact Hm.
Qed.

Lemma preserves_try_except {A} (m : M St A) (h : ExnClass -> M St A) :
  preserves T m -> (forall e, preserves T (h e)) -> preserves T (try_except m h).
Proof.
  intros Hm Hh s. cbn. specialize (Hm s).
  destruct (m s) as [[a|e] s1]; cbn in *.
  - exact Hm.
  - etransitivity; [exact Hm | apply Hh].
Qed.

Lemma preserves_except_Exception {A} (m : M St A) (h : ExnClass -> M St A) :
  preserves T m -> (forall e, preserves T (h e)) -> preserves T (except_Exception m h).
Proof.
  intros Hm Hh. unfold except_Exception. apply preserves_try_except; [exact Hm|].
  intros e. destruct (isinstance e Exception); [apply Hh | apply preserves_raise].
Qed.

(** A method of a sub-object whose updates [T] does not see. *)
Lemma preserves_zoom {U A} (L : Lens St U) (m : M U A) :
  (forall u s, T s (update L u s)) -> preserves T (zoom L m).
Proof.
  intros Hframe s. cbn. destruct (m _) as [r [u k']]. cbn. apply Hframe.
Qed.


Lemma preserves_retry_loop {A} (func : M St A) (attempts : nat) :
  preserves T func -> preserves T (retry_loop func attempts).
Proof.
  intros Hfunc. induction attempts as [|n IH]; cbn [retry_loop].
  - apply preserves_raise.
  - apply preserves_try_except; [exact Hfunc|].
    intros e. destruct (is_retryable e); [exact IH | apply preserves_raise].
Qed.

(** Input validation changes no state. *)
Lemma preserves_validate_input (cfg : SafetyConfig) (context : RequestContext) :
  preserves T (validate_input env cfg context).
Proof.
  intros s. unfold validate_input.
  destruct (_check_injection env (prompt context)); [reflexivity|].
  cbv zeta. destruct (search_forbidden _ _ _); [|reflexivity].
  destruct (_ ++ _)%list; reflexivity.
Qed.

End Preserves.

(** Break a computation into its parts: [known] settles the parts that
    have a lemma of their own, [frame] the updates the relation does not
    see. *)
Ltac preserves_steps known frame :=
  repeat first
    [ solve [known]
    | apply preserves_ret; exact _
    | apply preserves_raise; exact _
    | apply preserves_get; exact _
    | apply preserves_utcnow; exact _
    | apply preserves_validate_input; exact _
    | apply preserves_bind; [exact _ | | intros ?]
    | apply preserves_except_Exception; [exact _ | | intros ?]
    | apply preserves_try_except; [exact _ | | intros ?]
    | apply preserves_retry_loop; [exact _ | ]
    | apply preserves_modify; intros ?; solve [frame]
    | apply preserves_zoom; intros ? ?; solve [frame]
    | match goal with
      | |- preserves _ (let _ := _ in _) => cbv zeta
      | |- preserves _ (if ?b then _ else _) => destruct b
      | |- preserves _ (match ?x with _ => _ end) => destruct x
      end ].

(** ** Rate limiter: admission does not charge *)

#[local] Instance not_charged_preorder : PreOrder (not_charged env).
Proof.
  split.
  - intros rl. split; [reflexivity | intros uid; left; split; reflexivity].
  - intros a b c [Hs1 Hq1] [Hs2 Hq2]. split; [congruence|].
    intros uid.
    destruct (Hq2 uid) as [[Hq Hr]|(Hzero & j & Hstamp & Hlater)].
    + rewrite Hq, Hr. apply Hq1.
    + right. split; [exact Hzero|]. exists j. split; [exact Hstamp|].
      destruct (Hq1 uid) as [[_ Hr]|(_ & j' & Hstamp' & Hlater')].
      * rewrite <- Hr. exact Hlater.
      * rewrite Hstamp' in Hlater.
        destruct (user_quota_reset a !! uid); [lia | exact I].
Qed.



(** ** Orchestrator: what the steps leave alone *)

Lemma preserves_client_generate (T : LLMGuardian -> LLMGuardian -> Prop)
    (provider0 model0 : string) (context : RequestContext) :
  (forall calls g, T g (set_provider_calls calls g)) ->
  preserves T (client_generate env provider0 model0 context).
Proof. intros Hframe s. cbn. apply Hframe. Qed.

(** Unfold the orchestrator down to the methods of its components. *)
Ltac unfold_guardian :=
  unfold through_quality, after_quality, step_input_validation, step_rate_limiting,
    step_checkpoint, step_execute, step_quality, step_performance,
    step_output_validation, step_complete, _handle_failure_with_fallback,
    call, call_attempt, _execute_with_retry, execute_with_retry, _call_llm,
    _get_llm_client, validate_input.

#[local] Instance guardian_not_charged_preorder : PreOrder (guardian_not_charged env).
Proof.
  split.
  - intros g. unfold guardian_not_charged. reflexivity.
  - intros a b c Hab Hbc. unfold guardian_not_charged in *. etransitivity; eassumption.
Qed.

#[local] Instance same_breaker_preorder : PreOrder same_breaker.
Proof.
  split.
  - intros g. reflexivity.
  - intros a b c Hab Hbc. unfold same_breaker in *. congruence.
Qed.


(** The fallback handler does not touch the circuit breaker. *)
Lemma fallback_same_breaker (context : RequestContext) (error : ExnClass) :
  preserves same_breaker (_handle_failure_with_fallback env context error).
Proof.
  preserves_steps
    ltac:(apply preserves_client_generate; intros ? ?; reflexivity)
    ltac:(reflexivity).
Qed.


(** ** Fallback and the circuit breaker *)

Lemma ignores_breaker_ret {A} (a : A) : ignores_breaker (ret a).
Proof. intros cb g k. reflexivity. Qed.

Lemma ignores_breaker_raise {A} (e : ExnClass) : ignores_breaker (@raise _ A e).
Proof. intros cb g k. reflexivity. Qed.

Lemma ignores_breaker_bind {A B} (m : M LLMGuardian A) (f : A -> M LLMGuardian B) :
  ignores_breaker m -> (forall a, ignores_breaker (f a)) -> ignores_breaker (bind m f).
Proof.
  intros Hm Hf cb g k. cbn. rewrite Hm.
  destruct (m (g, k)) as [[a|e] [g1 k1]]; cbn; [apply Hf | reflexivity].
Qed.

Lemma ignores_breaker_try_except {A} (m : M LLMGuardian A) (h : ExnClass -> M LLMGuardian A) :
  ignores_breaker m -> (forall e, ignores_breaker (h e)) -> ignores_breaker (try_except m h).
Proof.
  intros Hm Hh cb g k. cbn. rewrite Hm.
  destruct (m (g, k)) as [[a|e] [g1 k1]]; cbn; [reflexivity | apply Hh].
Qed.

Lemma ignores_breaker_retry_loop {A} (func : M LLMGuardian A) (attempts : nat) :
  ignores_breaker func -> ignores_breaker (retry_loop func attempts).
Proof.
  intros Hfunc. induction attempts as [|n IH]; cbn [retry_loop].
  - apply ignores_breaker_raise.
  - apply ignores_breaker_try_except; [exact Hfunc|].
    intros e. destruct (is_retryable e); [exact IH | apply ignores_breaker_raise].
Qed.

Lemma ignores_breaker_call_llm (context : RequestContext) (provider0 model0 : string) :
  ignores_breaker (_call_llm env context provider0 model0).
Proof.
  intros cb g k. unfold _call_llm, _get_llm_client. cbn.
  destruct (bool_decide (provider0 ∈ llm_clients g)); reflexivity.
Qed.

Lemma ignores_breaker_execute_with_retry (context : RequestContext)
    (provider0 model0 : string) :
  ignores_breaker (_execute_with_retry env context provider0 model0).
Proof.
  intros cb g k. unfold _execute_with_retry, execute_with_retry.
  cbn [bind get fst snd retry_manager set_circuit_breaker].
  apply ignores_breaker_retry_loop, ignores_breaker_call_llm.
Qed.

Lemma ignores_breaker_fallback (context : RequestContext) (error : ExnClass) :
  ignores_breaker (_handle_failure_with_fallback env context error).
Proof.
  intros cb g k.
  unfold _handle_failure_with_fallback, except_Exception.
  cbn [bind get fst snd config set_circuit_breaker].
  destruct (nonempty (fallback_provider (config g))) as [fallback|]; [|reflexivity].
  apply ignores_breaker_try_except.
  - apply ignores_breaker_execute_with_retry.
  - intros e. destruct (isinstance e Exception); [|apply ignores_breaker_raise].
    intros cb' g' k'. reflexivity.
Qed.

(** C3 (as amended). The orchestrator owns one circuit breaker; a
    fallback call runs outside it.  [_handle_failure_with_fallback] leaves
    the breaker exactly as it found it, whatever the outcome of the
    fallback call, and behaves the same whatever the breaker's state: an
    OPEN breaker does not stop the fallback provider from being called. *)
Theorem fallback_runs_outside_breaker (context : RequestContext) (error : ExnClass)
    (g : LLMGuardian) (k : nat) (cb : CircuitBreaker) :
  let run := _handle_failure_with_fallback env context error (g, k) in
  circuit_breaker (fst (snd run)) = circuit_breaker g
  /\ _handle_failure_with_fallback env context error (set_circuit_breaker cb g, k) =
       (fst run, (set_circuit_breaker cb (fst (snd run)), snd (snd run))).
Proof.
  cbv zeta. split.
  - apply (fallback_same_breaker context error (g, k)).
  - apply ignores_breaker_fallback.
Qed.

(** ** Provider calls *)

#[local] Instance quiet_preorder : PreOrder quiet.
Proof.
  split.
  - intros g. repeat split.
  - intros a b c (H1 & H2 & H3) (H4 & H5 & H6). repeat split; congruence.
Qed.

Ltac quiet_frame := unfold quiet; cbn; repeat split; reflexivity.

(** Settle a goal [preserves quiet m] for a step that calls no provider. *)
Ltac quiet_steps := preserves_steps ltac:(fail) quiet_frame.

Section CallsWithin.

Variables (C : GuardianConfig) (R : RetryConfig).

Lemma calls_within_quiet {A} (n : nat) (m : M LLMGuardian A) :
  preserves quiet m -> calls_within C R n m.
Proof.
  intros Hm s HC HR. destruct (Hm s) as (H1 & H2 & H3).
  rewrite H1, H2, H3. repeat split; [assumption | assumption | lia].
Qed.

Lemma calls_within_weaken {A} (n n' : nat) (m : M LLMGuardian A) :
  (n <= n')%nat -> calls_within C R n m -> calls_within C R n' m.
Proof.
  intros Hle Hm s HC HR. destruct (Hm s HC HR) as (H1 & H2 & H3).
  repeat split; [assumption | assumption | lia].
Qed.

Lemma calls_within_bind {A B} (n1 n2 : nat) (m : M LLMGuardian A)
    (f : A -> M LLMGuardian B) :
  calls_within C R n1 m -> (forall a, calls_within C R n2 (f a)) ->
  calls_within C R (n1 + n2) (bind m f).
Proof.
  intros Hm Hf s HC HR. cbn. destruct (Hm s HC HR) as (H1 & H2 & H3).
  destruct (m s) as [[a|e] s1]; cbn in *.
  - destruct (Hf a s1 H1 H2) as (H4 & H5 & H6). repeat split; [assumption | assumption | lia].
  - repeat split; [assumption | assumption | lia].
Qed.

Lemma calls_within_try_except {A} (n1 n2 : nat) (m : M LLMGuardian A)
    (h : ExnClass -> M LLMGuardian A) :
  calls_within C R n1 m -> (forall e, calls_within C R n2 (h e)) ->
  calls_within C R (n1 + n2) (try_except m h).
Proof.
  intros Hm Hh s HC HR. cbn. destruct (Hm s HC HR) as (H1 & H2 & H3).
  destruct (m s) as [[a|e] s1]; cbn in *.
  - repeat split; [assumption | assumption | lia].
  - destruct (Hh e s1 H1 H2) as (H4 & H5 & H6). repeat split; [assumption | assumption | lia].
Qed.

Lemma calls_within_except_Exception {A} (n1 n2 : nat) (m : M LLMGuardian A)
    (h : ExnClass -> M LLMGuardian A) :
  calls_within C R n1 m -> (forall e, calls_within C R n2 (h e)) ->
  calls_within C R (n1 + n2) (except_Exception m h).
Proof.
  intros Hm Hh. unfold except_Exception. apply calls_within_try_except; [exact Hm|].
  intros e. destruct (isinstance e Exception); [apply Hh|].
  apply calls_within_quiet, preserves_raise. apply quiet_preorder.
Qed.

Lemma calls_within_get {A} (n : nat) (f : LLMGuardian -> M LLMGuardian A) :
  (forall self, config self = C -> retry_manager self = R -> calls_within C R n (f self)) ->
  calls_within C R n (bind get f).
Proof. intros Hf s HC HR. cbn. apply (Hf (fst s) HC HR s HC HR). Qed.

Lemma calls_within_retry_loop {A} (func : M LLMGuardian A) (attempts : nat) :
  calls_within C R 1 func -> calls_within C R attempts (retry_loop func attempts).
Proof.
  intros Hfunc. induction attempts as [|n IH]; cbn [retry_loop].
  - apply calls_within_quiet, preserves_raise. apply quiet_preorder.
  - change (S n) with (1 + n)%nat. apply calls_within_try_except; [exact Hfunc|].
    intros e. destruct (is_retryable e); [exact IH|].
    apply calls_within_quiet, preserves_raise. apply quiet_preorder.
Qed.

Lemma call_llm_calls (context : RequestContext) (provider0 model0 : string) :
  calls_within C R 1 (_call_llm env context provider0 model0).
Proof.
  intros [g k] HC HR. unfold _call_llm, _get_llm_client. cbn in *.
  destruct (bool_decide (provider0 ∈ llm_clients g)); cbn.
  - rewrite length_app. cbn. repeat split; [assumption | assumption | lia].
  - repeat split; [assumption | assumption | lia].
Qed.

(** One retry run sends at most [max_attempts] requests. *)
Lemma execute_with_retry_calls (context : RequestContext) (provider0 model0 : string) :
  calls_within C R (attempts_allowed R) (_execute_with_retry env context provider0 model0).
Proof.
  unfold _execute_with_retry, execute_with_retry.
  apply calls_within_get. intros self _ ->.
  apply calls_within_retry_loop, call_llm_calls.
Qed.

(** One fallback run is one retry run, or nothing without a fallback
    provider. *)
Lemma fallback_calls (context : RequestContext) (error : ExnClass) :
  calls_within C R (fallback_allowance C R)
    (_handle_failure_with_fallback env context error).
Proof.
  unfold _handle_failure_with_fallback, fallback_allowance.
  apply calls_within_get. intros self -> HR.
  destruct (nonempty (fallback_provider C)) as [fallback|].
  - apply (calls_within_weaken (attempts_allowed R + 0)); [lia|].
    apply calls_within_except_Exception; [apply execute_with_retry_calls|].
    intros e. apply calls_within_quiet. quiet_steps.
  - apply calls_within_quiet, preserves_raise. apply quiet_preorder.
Qed.

Lemma step_execute_calls (context : RequestContext) (provider0 model0 : string) :
  calls_within C R (attempts_allowed R + fallback_allowance C R)
    (step_execute env context provider0 model0).
Proof.
  unfold step_execute.
  apply calls_within_except_Exception.
  - unfold call, call_attempt.
    apply (calls_within_weaken (0 + ((attempts_allowed R + 0) + 0))); [lia|].
    apply calls_within_bind; [apply calls_within_quiet; quiet_steps|]. intros _.
    apply calls_within_try_except.
    + apply calls_within_bind; [apply execute_with_retry_calls|].
      intros result. apply calls_within_quiet. quiet_steps.
    + intros e. apply calls_within_quiet. quiet_steps.
  - intros e.
    apply (calls_within_weaken (0 + fallback_allowance C R)); [lia|].
    apply calls_within_bind; [apply calls_within_quiet; quiet_steps|]. intros _.
    apply calls_within_get. intros self HC HR.
    pose proof (fallback_calls context e) as Hfb.
    unfold fallback_allowance in *. rewrite HC.
    destruct (nonempty (fallback_provider C)) as [fallback|].
    + destruct (bool_decide (provider0 <> fallback)); [exact Hfb|].
      apply calls_within_quiet, preserves_raise. apply quiet_preorder.
    + apply calls_within_quiet, preserves_raise. apply quiet_preorder.
Qed.

Lemma step_output_validation_calls (context : RequestContext) (response : LLMResponse) :
  calls_within C R (fallback_allowance C R) (step_output_validation env context response).
Proof.
  unfold step_output_validation.
  apply calls_within_get. intros self HC HR.
  destruct (enable_safety_checks (config self));
    [|apply calls_within_quiet, preserves_ret; apply quiet_preorder].
  destruct (negb (is_valid (validate_output response)));
    [|apply calls_within_quiet, preserves_ret; apply quiet_preorder].
  apply (calls_within_weaken (0 + fallback_allowance C R)); [lia|].
  apply calls_within_bind; [apply calls_within_quiet; quiet_steps|]. intros _.
  destruct (String.eqb _ _);
    [|apply calls_within_quiet, preserves_ret; apply quiet_preorder].
  pose proof (fallback_calls context ValidationError) as Hfb.
  unfold fallback_allowance in *. rewrite HC.
  destruct (nonempty (fallback_provider C)) as [fallback|]; [exact Hfb|].
  apply calls_within_quiet, preserves_raise. apply quiet_preorder.
Qed.

Lemma execute_request_calls (context : RequestContext) (provider0 model0 : string) :
  calls_within C R (attempts_allowed R + 2 * fallback_allowance C R)
    (execute_request env context provider0 model0).
Proof.
  unfold execute_request.
  apply (calls_within_weaken
           (0 + (((0 + (0 + (0 + ((attempts_allowed R + fallback_allowance C R) + 0))))
                  + (0 + (fallback_allowance C R + 0))) + 0))); [lia|].
  apply calls_within_bind; [apply calls_within_quiet; quiet_steps|]. intros _.
  apply calls_within_except_Exception.
  - apply calls_within_bind.
    + unfold through_quality.
      apply calls_within_bind; [apply calls_within_quiet; quiet_steps|]. intros _.
      apply calls_within_bind; [apply calls_within_quiet; quiet_steps|]. intros _.
      apply calls_within_bind; [apply calls_within_quiet; quiet_steps|]. intros _.
      apply calls_within_bind; [apply step_execute_calls|]. intros response.
      apply calls_within_quiet. quiet_steps.
    + intros response. unfold after_quality.
      apply calls_within_bind; [apply calls_within_quiet; quiet_steps|]. intros _.
      apply calls_within_bind; [apply step_output_validation_calls|]. intros response'.
      apply calls_within_quiet. quiet_steps.
  - intros e. apply calls_within_quiet. quiet_steps.
Qed.

End CallsWithin.

(** C2 (as amended). One retry run makes at most [max_attempts] provider
    calls, and so does one run of the fallback handler, which never
    starts a further fallback.  An invocation of [execute_request] makes
    at most [max_attempts] calls when no fallback provider is configured
    and at most [3 * max_attempts] otherwise: the fallback handler can run
    once after a failure of the primary call and once more after a
    critical output verdict. *)
Theorem provider_calls_bounded (context : RequestContext) (provider0 model0 : string)
    (error : ExnClass) (g : LLMGuardian) (k : nat) :
  let allowed := attempts_allowed (retry_manager g) in
  let sent (s : LLMGuardian * nat) := length (provider_calls (fst s)) in
  (sent (snd (_execute_with_retry env context provider0 model0 (g, k)))
     <= sent (g, k) + allowed)%nat
  /\ (sent (snd (_handle_failure_with_fallback env context error (g, k)))
       <= sent (g, k) + allowed)%nat
  /\ (sent (snd (execute_request env context provider0 model0 (g, k)))
       <= sent (g, k) + 3 * allowed)%nat
  /\ (nonempty (fallback_provider (config g)) = None ->
      (sent (snd (execute_request env context provider0 model0 (g, k)))
         <= sent (g, k) + allowed)%nat).
Proof.
  cbv zeta.
  assert (Hfb : (fallback_allowance (config g) (retry_manager g)
                 <= attempts_allowed (retry_manager g))%nat).
  { unfold fallback_allowance. destruct (nonempty _); lia. }
  split; [|split; [|split]].
  - apply (execute_with_retry_calls (config g) (retry_manager g) context provider0 model0
             (g, k)); reflexivity.
  - destruct (fallback_calls (config g) (retry_manager g) context error (g, k))
      as (_ & _ & H); [reflexivity | reflexivity |]. cbn [fst] in *. lia.
  - destruct (execute_request_calls (config g) (retry_manager g) context provider0 model0
                (g, k)) as (_ & _ & H); [reflexivity | reflexivity |]. cbn [fst] in *. lia.
  - intros Hnone.
    destruct (execute_request_calls (config g) (retry_manager g) context provider0 model0
                (g, k)) as (_ & _ & H); [reflexivity | reflexivity |].
    unfold fallback_allowance in H. rewrite Hnone in H. cbn [fst] in *. lia.
Qed.

(** ** Audit log *)

#[local] Instance errors_appended_preorder : PreOrder errors_appended.
Proof.
  split.
  - intros log. exists []. split; [symmetry; apply app_nil_r | constructor].
  - intros a b c (e1 & -> & H1) (e2 & -> & H2). exists (e1 ++ e2). split.
    + symmetry. apply app_assoc.
    + apply Forall_app. split; assumption.
Qed.

#[local] Instance only_errors_logged_preorder : PreOrder only_errors_logged.
Proof.
  split.
  - intros g. unfold only_errors_logged. reflexivity.
  - intros a b c Hab Hbc. unfold only_errors_logged in *. etransitivity; eassumption.
Qed.
















(** * Further properties of the code *)

(** ** Circuit breaker: failures, successes, reset *)

Lemma on_failure_closed_below (cb : CircuitBreaker) (k : nat) :
  state cb = CLOSED ->
  failure_count cb + 1 < failure_threshold cb ->
  _on_failure env (cb, k) =
    (Ok tt,
     (set_last_failure_time (Some (clock env k))
        (set_total_failures (total_failures cb + 1)
           (set_failure_count (failure_count cb + 1) cb)), S k)).
Proof.
  intros Hclosed Hbelow. unfold _on_failure.
  run_with ltac:(rewrite ?Hclosed). reflexivity.
Qed.

Lemma on_failure_closed_reach (cb : CircuitBreaker) (k : nat) :
  state cb = CLOSED ->
  failure_threshold cb <= failure_count cb + 1 ->
  fst (_on_failure env (cb, k)) = Ok tt
  /\ state (fst (snd (_on_failure env (cb, k)))) = OPEN
  /\ last_failure_time (fst (snd (_on_failure env (cb, k)))) = Some (clock env k).
Proof.
  intros Hclosed Hreach. unfold _on_failure, _transition_to.
  run_with ltac:(rewrite ?Hclosed). repeat split; reflexivity.
Qed.

Lemma failures_below (n : nat) : forall (cb : CircuitBreaker) (k : nat),
  state cb = CLOSED ->
  failure_count cb + Z.of_nat n < failure_threshold cb ->
  exists cb',
    failures env n (cb, k) = (Ok tt, (cb', (k + n)%nat)) /\
    state cb' = CLOSED /\
    failure_count cb' = failure_count cb + Z.of_nat n /\
    failure_threshold cb' = failure_threshold cb.
Proof.
  induction n as [|n IH]; intros cb k Hclosed Hbelow.
  - exists cb. cbn [failures ret]. rewrite Nat.add_0_r. repeat split; try assumption; lia.
  - cbn [failures]. cbn [bind].
    rewrite on_failure_closed_below by (assumption || lia).
    destruct (IH (set_last_failure_time (Some (clock env k))
                    (set_total_failures (total_failures cb + 1)
                       (set_failure_count (failure_count cb + 1) cb))) (S k))
      as (cb' & Hrun & Hst & Hcnt & Hthr).
    + exact Hclosed.
    + cbn [failure_count failure_threshold set_last_failure_time set_total_failures
           set_failure_count]. lia.
    + exists cb'. rewrite Hrun.
      cbn [failure_count failure_threshold set_last_failure_time set_total_failures
           set_failure_count] in Hcnt, Hthr.
      replace (k + S n)%nat with (S k + n)%nat by lia.
      repeat split; try assumption; lia.
Qed.

Lemma failures_snoc (n : nat) : forall s,
  failures env (S n) s =
    match failures env n s with
    | (Ok _, s') => _on_failure env s'
    | (Raise e, s') => (Raise e, s')
    end.
Proof.
  induction n as [|n IH]; intros s.
  - cbn [failures bind ret].
    destruct (_on_failure env s) as [[[]|e] s']; reflexivity.
  - change (failures env (S (S n)) s) with
      (bind (_on_failure env) (fun _ => failures env (S n)) s).
    cbn [bind failures].
    destruct (_on_failure env s) as [[[]|e] s']; [|reflexivity].
    rewrite <- IH. reflexivity.
Qed.

(** X1. A CLOSED breaker stays CLOSED while the recorded failures keep
    [failure_count] below [failure_threshold], and the failure that
    reaches the threshold opens it and stamps [last_failure_time]. *)
Theorem closed_breaker_opens_at_threshold (cb : CircuitBreaker) (k n : nat) :
  state cb = CLOSED ->
  failure_count cb + Z.of_nat n < failure_threshold cb ->
  (state (fst (snd (failures env n (cb, k)))) = CLOSED
   /\ failure_count (fst (snd (failures env n (cb, k)))) = failure_count cb + Z.of_nat n)
  /\ (failure_threshold cb <= failure_count cb + Z.of_nat n + 1 ->
      state (fst (snd (failures env (S n) (cb, k)))) = OPEN
      /\ last_failure_time (fst (snd (failures env (S n) (cb, k))))
           = Some (clock env (k + n)%nat)).
Proof.
  intros Hclosed Hbelow.
  destruct (failures_below n cb k Hclosed Hbelow) as (cb' & Hrun & Hst & Hcnt & Hthr).
  split.
  - rewrite Hrun. cbn [fst snd]. split; assumption.
  - intros Hreach. rewrite failures_snoc, Hrun.
    destruct (on_failure_closed_reach cb' (k + n)%nat Hst ltac:(lia)) as (_ & Hopen & Hlast).
    split; assumption.
Qed.

(** X2. Only consecutive failures count: after a success in CLOSED, a
    breaker that was one failure away from opening again needs
    [failure_threshold] failures; fewer leave it CLOSED. *)
Theorem success_restarts_failure_count (cb : CircuitBreaker) (k n : nat) :
  state cb = CLOSED ->
  Z.of_nat n < failure_threshold cb ->
  failure_count (fst (snd (_on_success env (cb, k)))) = 0
  /\ state (fst (snd (bind (_on_success env) (fun _ => failures env n) (cb, k)))) = CLOSED
  /\ failure_count (fst (snd (bind (_on_success env) (fun _ => failures env n) (cb, k))))
       = Z.of_nat n.
Proof.
  intros Hclosed Hbelow.
  assert (Hsucc : _on_success env (cb, k) =
            (Ok tt, (set_total_successes (total_successes cb + 1) (set_failure_count 0 cb), k))).
  { unfold _on_success. run_with ltac:(rewrite ?Hclosed). reflexivity. }
  cbn [bind]. rewrite Hsucc. cbn [fst snd].
  split; [reflexivity|].
  destruct (failures_below n
              (set_total_successes (total_successes cb + 1) (set_failure_count 0 cb)) k)
    as (cb' & Hrun & Hst & Hcnt & _).
  - exact Hclosed.
  - cbn [failure_count failure_threshold set_total_successes set_failure_count]. lia.
  - rewrite Hrun. cbn [fst snd]. split; [exact Hst|].
    rewrite Hcnt. cbn [failure_count set_total_successes set_failure_count]. lia.
Qed.

(** X3. The breaker's bookkeeping stays coherent: if OPEN comes with a
    recorded failure time and the state history ends with the current
    state, the same holds after admitting a call, after recording a
    success or a failure, and after a manual reset. *)
Theorem breaker_stays_consistent (cb : CircuitBreaker) (k : nat) :
  breaker_consistent cb ->
  breaker_consistent (fst (snd (call_admit env (cb, k))))
  /\ breaker_consistent (fst (snd (_on_success env (cb, k))))
  /\ breaker_consistent (fst (snd (_on_failure env (cb, k))))
  /\ breaker_consistent (fst (snd (reset env (cb, k)))).
Proof.
  intros [Hopen Hhist].
  destruct cb as [ft rt st ee s fc sc lft lsc tc tf ts h].
  cbn [state last_failure_time state_history last_state_change] in Hopen, Hhist.
  unfold breaker_consistent, call_admit, _on_success, _on_failure, reset,
    _should_attempt_reset, _time_until_retry, _transition_to.
  destruct s, lft as [t|];
    try (exfalso; apply Hopen; reflexivity);
    repeat split;
    repeat (cbn; try case_bool_decide);
    try congruence; intros; try congruence; try apply last_snoc; try assumption.
Qed.

(** X4. [is_available] changes nothing in the breaker and answers
    [False] exactly when a call arriving at the same instant would be
    rejected with [CircuitBreakerOpenError]. *)
Theorem is_available_matches_admission (cb : CircuitBreaker) (k : nat) :
  fst (snd (is_available env (cb, k))) = cb
  /\ (exists b, fst (is_available env (cb, k)) = Ok b)
  /\ (fst (is_available env (cb, k)) = Ok false
      <-> fst (call_admit env (cb, k)) = Raise CircuitBreakerOpenError).
Proof.
  destruct cb as [ft rt st ee s fc sc lft lsc tc tf ts h].
  unfold is_available, call_admit, _should_attempt_reset, _time_until_retry, _transition_to.
  destruct s, lft as [t|];
    repeat (cbn; try case_bool_decide);
    (split; [reflexivity|]); (split; [eexists; reflexivity|]);
    split; intros; congruence.
Qed.

(** X5. A manual [reset] puts the breaker in CLOSED from any state, clears
    the counters and the recorded failure time, keeps the thresholds and
    the totals, and the next call is admitted. *)
Theorem reset_closes_breaker (cb : CircuitBreaker) (k : nat) :
  let cb' := fst (snd (reset env (cb, k))) in
  fst (reset env (cb, k)) = Ok tt
  /\ state cb' = CLOSED /\ failure_count cb' = 0 /\ success_count cb' = 0
  /\ last_failure_time cb' = None
  /\ failure_threshold cb' = failure_threshold cb
  /\ recovery_timeout cb' = recovery_timeout cb
  /\ success_threshold cb' = success_threshold cb
  /\ total_calls cb' = total_calls cb
  /\ total_failures cb' = total_failures cb
  /\ total_successes cb' = total_successes cb
  /\ forall k', fst (call_admit env (cb', k')) = Ok tt.
Proof.
  destruct cb as [ft rt st ee s fc sc lft lsc tc tf ts h].
  unfold reset, call_admit, _should_attempt_reset, _time_until_retry, _transition_to.
  destruct s;
    repeat (cbn; try case_bool_decide); try congruence;
    repeat split; intros; repeat (cbn; try case_bool_decide); congruence.
Qed.

(** X6. An exception that is not an instance of the breaker's
    [expected_exception] passes through [call] without being recorded:
    the call is counted in [total_calls] and nothing else in the breaker
    changes. *)
Theorem unexpected_exception_not_counted {X A : Type} (func : M X A)
    (cb : CircuitBreaker) (x x' : X) (k k' : nat) (e : ExnClass) :
  state cb <> OPEN ->
  func (x, k) = (Raise e, (x', k')) ->
  isinstance e (expected_exception cb) = false ->
  guarded env func ((cb, x), k) =
    (Raise e, ((set_total_calls (total_calls cb + 1) cb, x'), k')).
Proof.
  intros Hstate Hfunc Hexn.
  unfold guarded, call, call_attempt, call_admit.
  cbn [bind zoom modify get try_except view update fst snd].
  cbn [state set_total_calls].
  rewrite bool_decide_eq_false_2 by exact Hstate.
  cbn [ret bind zoom try_except view update fst snd]. rewrite Hfunc.
  cbn [ret bind zoom get try_except view update fst snd expected_exception set_total_calls].
  rewrite Hexn. reflexivity.
Qed.

Lemma on_failure_returns (s : CircuitBreaker * nat) :
  fst (_on_failure env s) = Ok tt.
Proof.
  destruct s as [cb k].
  destruct cb as [ft rt st ee s fc sc lft lsc tc tf ts h].
  unfold _on_failure, _transition_to.
  destruct s; repeat (cbn; try case_bool_decide); reflexivity.
Qed.

(** One protected call whose function raises an expected exception, the
    exception caught by the caller. *)
Lemma guarded_failing_call {X A : Type} (func : M X A) (e : ExnClass)
    (cb : CircuitBreaker) (x : X) (k : nat) :
  state cb <> OPEN ->
  isinstance e (expected_exception cb) = true ->
  fst (func (x, k)) = Raise e ->
  try_except (_ <- guarded env func ;; ret tt) (fun _ => ret tt) ((cb, x), k) =
    (Ok tt,
     ((fst (snd (_on_failure env (set_total_calls (total_calls cb + 1) cb,
                                  snd (snd (func (x, k)))))),
       fst (snd (func (x, k)))),
      snd (snd (_on_failure env (set_total_calls (total_calls cb + 1) cb,
                                 snd (snd (func (x, k)))))))).
Proof.
  intros Hstate Hexn Hfunc.
  unfold guarded, call, call_attempt, call_admit.
  cbn [bind zoom modify get try_except view update fst snd].
  cbn [state set_total_calls].
  rewrite bool_decide_eq_false_2 by exact Hstate.
  cbn [ret bind zoom try_except view update fst snd].
  destruct (func (x, k)) as [r [x1 k1]]. cbn [fst snd] in Hfunc |- *. subst r.
  cbn [ret bind zoom get try_except view update fst snd expected_exception set_total_calls].
  rewrite Hexn. cbn [ret raise bind zoom get try_except view update fst snd].
  pose proof (on_failure_returns (set_total_calls (total_calls cb + 1) cb, k1)) as Hok.
  cbn [set_total_calls] in Hok.
  destruct (_on_failure env _) as [r [cb1 k2]]. cbn [fst] in Hok. subst r.
  reflexivity.
Qed.

(** X7. When the wrapped function keeps raising an expected exception, a
    CLOSED breaker with threshold [n + 1] and no failure on record stays
    CLOSED through the first [n] protected calls and is OPEN after call
    [n + 1]; every one of these calls is counted in [total_calls] and in
    [total_failures]. *)
Theorem repeated_failures_open_breaker {X A : Type} (func : M X A) (e : ExnClass)
    (n : nat) :
  forall (cb : CircuitBreaker) (x : X) (k : nat),
  state cb = CLOSED ->
  failure_count cb + Z.of_nat (S n) = failure_threshold cb ->
  isinstance e (expected_exception cb) = true ->
  (forall s, fst (func s) = Raise e) ->
  let before := fst (fst (snd (guarded_attempts env func n ((cb, x), k)))) in
  let after := fst (fst (snd (guarded_attempts env func (S n) ((cb, x), k)))) in
  state before = CLOSED
  /\ state after = OPEN
  /\ total_calls after = total_calls cb + Z.of_nat (S n)
  /\ total_failures after = total_failures cb + Z.of_nat (S n).
Proof.
  induction n as [|n IH]; intros cb x k Hclosed Hthr Hexn Hfunc; cbv zeta.
  - cbn [guarded_attempts ret bind fst snd].
    rewrite (guarded_failing_call func e cb x k) by (congruence || auto).
    cbn [ret fst snd].
    destruct (on_failure_closed_reach (set_total_calls (total_calls cb + 1) cb)
                (snd (snd (func (x, k))))) as (_ & Hopen & _).
    + exact Hclosed.
    + cbn [failure_threshold failure_count set_total_calls]. lia.
    + split; [exact Hclosed|]. split; [exact Hopen|].
      revert Hopen. unfold _on_failure, _transition_to.
      run_with ltac:(rewrite ?Hclosed). intros _. split; lia.
  - change (guarded_attempts env func (S (S n)) (cb, x, k)) with
      (bind (try_except (_ <- guarded env func ;; ret tt) (fun _ => ret tt))
            (fun _ => guarded_attempts env func (S n)) (cb, x, k)).
    change (guarded_attempts env func (S n) (cb, x, k)) with
      (bind (try_except (_ <- guarded env func ;; ret tt) (fun _ => ret tt))
            (fun _ => guarded_attempts env func n) (cb, x, k)).
    cbn [bind].
    rewrite (guarded_failing_call func e cb x k) by (congruence || auto).
    rewrite on_failure_closed_below
      by (cbn [state failure_threshold failure_count set_total_calls]; assumption || lia).
    cbn [fst snd].
    match goal with
    | |- context [guarded_attempts env func n (?c, ?y, ?j)] =>
        assert (Hcalls : total_calls c = total_calls cb + 1) by reflexivity;
        assert (Hfails : total_failures c = total_failures cb + 1) by reflexivity;
        destruct (IH c y j) as (Hb & Ha & Hc & Hf)
    end.
    + exact Hclosed.
    + cbn [failure_count failure_threshold set_last_failure_time set_total_failures
           set_failure_count set_total_calls]. lia.
    + exact Hexn.
    + exact Hfunc.
    + rewrite Hcalls in Hc. rewrite Hfails in Hf.
      split; [exact Hb|]. split; [exact Ha|]. split; lia.
Qed.

(** ** Protected calls in HALF_OPEN *)

Lemma on_success_returns (s : CircuitBreaker * nat) :
  fst (_on_success env s) = Ok tt.
Proof.
  destruct s as [cb k].
  destruct cb as [ft rt st ee s fc sc lft lsc tc tf ts h].
  unfold _on_success, _transition_to.
  destruct s; repeat (cbn; try case_bool_decide); reflexivity.
Qed.

(** A protected call that is admitted without a change of state: the
    wrapped function runs once, and its outcome is recorded or not. *)
Lemma guarded_admitted {X A : Type} (func : M X A) (cb : CircuitBreaker) (x : X)
    (k : nat) :
  state cb <> OPEN ->
  guarded env func ((cb, x), k) =
    let counted := set_total_calls (total_calls cb + 1) cb in
    match func (x, k) with
    | (Ok a, (x', k')) =>
        (Ok a,
         ((fst (snd (_on_success env (counted, k'))), x'),
          snd (snd (_on_success env (counted, k')))))
    | (Raise e, (x', k')) =>
        if isinstance e (expected_exception cb)
        then (Raise e,
              ((fst (snd (_on_failure env (counted, k'))), x'),
               snd (snd (_on_failure env (counted, k')))))
        else (Raise e, ((counted, x'), k'))
    end.
Proof.
  intros Hstate. cbv zeta.
  unfold guarded, call, call_attempt, call_admit.
  cbn [bind zoom modify get try_except view update fst snd].
  cbn [state set_total_calls].
  rewrite bool_decide_eq_false_2 by exact Hstate.
  cbn [ret bind zoom try_except view update fst snd].
  destruct (func (x, k)) as [[a|e] [x1 k1]].
  - cbn [ret raise bind zoom get try_except view update fst snd].
    pose proof (on_success_returns (set_total_calls (total_calls cb + 1) cb, k1)) as Hok.
    cbn [set_total_calls] in Hok.
    destruct (_on_success env _) as [r [cb1 k2]]. cbn [fst] in Hok. subst r.
    reflexivity.
  - cbn [ret bind zoom get try_except view update fst snd expected_exception
         set_total_calls].
    destruct (isinstance e (expected_exception cb)); [|reflexivity].
    cbn [ret raise bind zoom get try_except view update fst snd].
    pose proof (on_failure_returns (set_total_calls (total_calls cb + 1) cb, k1)) as Hok.
    cbn [set_total_calls] in Hok.
    destruct (_on_failure env _) as [r [cb1 k2]]. cbn [fst] in Hok. subst r.
    reflexivity.
Qed.

Lemma on_failure_half_open_resets (cb : CircuitBreaker) (k : nat) :
  state cb = HALF_OPEN ->
  state (fst (snd (_on_failure env (cb, k)))) = OPEN
  /\ success_count (fst (snd (_on_failure env (cb, k)))) = 0.
Proof.
  intros Hhalf. unfold _on_failure, _transition_to.
  run_with ltac:(rewrite ?Hhalf). split; reflexivity.
Qed.

Lemma on_success_half_open_closes (cb : CircuitBreaker) (k : nat) :
  state cb = HALF_OPEN ->
  success_threshold cb <= success_count cb + 1 ->
  state (fst (snd (_on_success env (cb, k)))) = CLOSED
  /\ success_count (fst (snd (_on_success env (cb, k)))) = 0
  /\ failure_count (fst (snd (_on_success env (cb, k)))) = 0.
Proof.
  intros Hhalf Hreach. unfold _on_success, _transition_to.
  run_with ltac:(rewrite ?Hhalf). repeat split; reflexivity.
Qed.

(** Successful protected calls in a row, below the threshold. *)
Lemma guarded_successes_half_open {X A : Type} (func : M X A) (n : nat) :
  forall (cb : CircuitBreaker) (x : X) (k : nat),
  state cb = HALF_OPEN ->
  (forall s, exists a, fst (func s) = Ok a) ->
  success_count cb + Z.of_nat n < success_threshold cb ->
  state (fst (fst (snd (guarded_attempts env func n ((cb, x), k))))) = HALF_OPEN
  /\ success_count (fst (fst (snd (guarded_attempts env func n ((cb, x), k)))))
       = success_count cb + Z.of_nat n.
Proof.
  induction n as [|n IH]; intros cb x k Hhalf Hanswers Hbelow.
  - cbn [guarded_attempts ret fst snd]. split; [exact Hhalf | lia].
  - change (guarded_attempts env func (S n) (cb, x, k)) with
      (bind (try_except (_ <- guarded env func ;; ret tt) (fun _ => ret tt))
            (fun _ => guarded_attempts env func n) (cb, x, k)).
    cbn [bind try_except].
    rewrite guarded_admitted by (rewrite Hhalf; discriminate). cbv zeta.
    destruct (Hanswers (x, k)) as [a Ha].
    destruct (func (x, k)) as [r [x1 k1]]. cbn [fst] in Ha. subst r.
    rewrite on_success_half_open_below
      by (cbn [state success_count success_threshold set_total_calls]; assumption || lia).
    cbn [fst snd ret].
    match goal with
    | |- context [guarded_attempts env func n (?c, ?y, ?j)] =>
        assert (Hcount : success_count c = success_count cb + 1) by reflexivity;
        assert (Hthreshold : success_threshold c = success_threshold cb) by reflexivity;
        destruct (IH c y j) as (Hstate & Hsuccesses)
    end.
    + exact Hhalf.
    + exact Hanswers.
    + rewrite Hcount, Hthreshold. lia.
    + split; [exact Hstate|]. rewrite Hsuccesses, Hcount. lia.
Qed.

(** C6 (as amended).  A protected call made in HALF_OPEN hands back the
    outcome of the wrapped function.  A failure with an exception that is
    an instance of [expected_exception] moves the breaker to OPEN and
    clears the success count; a failure with any other exception is not
    recorded: the breaker stays HALF_OPEN and keeps its success count.  A
    success adds one to the success count; the breaker stays HALF_OPEN
    while the count is below [success_threshold], and the success that
    reaches it moves the breaker to CLOSED. *)
Theorem half_open_call_outcomes {X A : Type} (func : M X A) (cb : CircuitBreaker)
    (x : X) (k : nat) :
  state cb = HALF_OPEN ->
  let run := guarded env func ((cb, x), k) in
  let cb' := fst (fst (snd run)) in
  fst run = fst (func (x, k))
  /\ (forall e, fst (func (x, k)) = Raise e ->
        isinstance e (expected_exception cb) = true ->
        state cb' = OPEN /\ success_count cb' = 0)
  /\ (forall e, fst (func (x, k)) = Raise e ->
        isinstance e (expected_exception cb) = false ->
        cb' = set_total_calls (total_calls cb + 1) cb)
  /\ (forall a, fst (func (x, k)) = Ok a ->
        (success_count cb + 1 < success_threshold cb ->
           state cb' = HALF_OPEN /\ success_count cb' = success_count cb + 1)
        /\ (success_threshold cb <= success_count cb + 1 ->
            state cb' = CLOSED /\ success_count cb' = 0 /\ failure_count cb' = 0))
  /\ (forall n,
        (forall s, exists a, fst (func s) = Ok a) ->
        success_count cb + Z.of_nat n < success_threshold cb ->
        state (fst (fst (snd (guarded_attempts env func n ((cb, x), k))))) = HALF_OPEN
        /\ success_count (fst (fst (snd (guarded_attempts env func n ((cb, x), k)))))
             = success_count cb + Z.of_nat n).
Proof.
  intros Hhalf. cbv zeta.
  rewrite guarded_admitted by (rewrite Hhalf; discriminate). cbv zeta.
  split; [|split; [|split; [|split]]].
  - destruct (func (x, k)) as [[a|e] [x1 k1]]; [reflexivity|].
    destruct (isinstance e (expected_exception cb)); reflexivity.
  - intros e Hraise Hexpected.
    destruct (func (x, k)) as [r [x1 k1]]. cbn [fst] in Hraise. subst r.
    rewrite Hexpected. cbn [fst snd].
    apply on_failure_half_open_resets. exact Hhalf.
  - intros e Hraise Hother.
    destruct (func (x, k)) as [r [x1 k1]]. cbn [fst] in Hraise. subst r.
    rewrite Hother. reflexivity.
  - intros a Hanswer.
    destruct (func (x, k)) as [r [x1 k1]]. cbn [fst] in Hanswer. subst r.
    cbn [fst snd]. split.
    + intros Hbelow.
      rewrite on_success_half_open_below
        by (cbn [state success_count success_threshold set_total_calls]; assumption).
      cbn [fst snd]. split; [exact Hhalf | reflexivity].
    + intros Hreach.
      apply (on_success_half_open_closes (set_total_calls (total_calls cb + 1) cb) k1);
        [exact Hhalf | exact Hreach].
  - intros n Hanswers Hbelow.
    apply guarded_successes_half_open; assumption.
Qed.

(** X8. [MultiCircuitBreaker.get_breaker] registers a breaker the first
    time a name is asked for (CLOSED, with the default thresholds and
    [success_threshold] 2), leaves the breakers of other names alone, and
    asked again returns the same breaker without changing the registry. *)
Theorem get_breaker_creates_once (name : string) (self : MultiCircuitBreaker) (k : nat) :
  let first := get_breaker env name (self, k) in
  exists breaker,
    fst first = Ok breaker
    /\ breakers (fst (snd first)) !! name = Some breaker
    /\ (forall other, other <> name ->
          breakers (fst (snd first)) !! other = breakers self !! other)
    /\ (breakers self !! name = None ->
          state breaker = CLOSED /\ failure_count breaker = 0
          /\ failure_threshold breaker = default_failure_threshold self
          /\ recovery_timeout breaker = default_recovery_timeout self
          /\ success_threshold breaker = 2)
    /\ (forall existing, breakers self !! name = Some existing ->
          breaker = existing /\ fst (snd first) = self)
    /\ get_breaker env name (snd first) = (Ok breaker, snd first).
Proof.
  cbv zeta. unfold get_breaker, CircuitBreaker_init.
  cbn [bind get fst snd].
  destruct (breakers self !! name) as [existing|] eqn:Hlookup.
  - cbn [ret bind get fst snd]. rewrite Hlookup. cbn [ret fst snd].
    exists existing.
    split; [reflexivity|]. split; [first [assumption | reflexivity]|].
    split; [reflexivity|]. split; [intros [=]|]. split; [|reflexivity].
    intros existing' [= <-]. split; reflexivity.
  - cbn [ret bind get modify utcnow fst snd breakers default_failure_threshold
         default_recovery_timeout].
    rewrite lookup_insert_eq. cbn [ret fst snd].
    eexists.
    split; [reflexivity|]. split; [reflexivity|].
    split; [intros other Hne; apply lookup_insert_ne; congruence|].
    split; [intros _; repeat split|]. split; [intros existing [=]|reflexivity].
Qed.

(** ** Token bucket and sliding window *)

(** X9. [acquire] never changes [capacity] or [refill_rate]; after a
    request for a non-negative number of tokens the bucket holds at most
    [capacity]; a granted request leaves a non-negative count; and a
    request for more than [capacity] tokens is refused however long the
    bucket has been idle. *)
Theorem acquire_respects_capacity (n : Z) (tb : TokenBucket) (k : nat) :
  let run := acquire env n (tb, k) in
  capacity (fst (snd run)) = capacity tb
  /\ refill_rate (fst (snd run)) = refill_rate tb
  /\ (0 <= n -> (tokens (fst (snd run)) <= inject_Z (capacity tb))%Q)
  /\ (0 <= n -> fst run = Ok true -> (0 <= tokens (fst (snd run)))%Q)
  /\ (capacity tb < n -> fst run = Ok false).
Proof.
  cbv zeta. rewrite acquire_run. cbv zeta.
  set (filled := py_min _ _).
  assert (Hcap : (filled <= inject_Z (capacity tb))%Q) by apply py_min_le_l.
  destruct (Qgeb filled (inject_Z n)) eqn:Hgrant; cbn [fst snd capacity refill_rate tokens].
  - apply Qgeb_ge in Hgrant.
    split; [reflexivity|]. split; [reflexivity|].
    split; [|split].
    + intros Hn. rewrite Zle_Qle in Hn. change (inject_Z 0) with 0%Q in Hn. lra.
    + intros _ _. lra.
    + intros Hover. rewrite Zlt_Qlt in Hover. lra.
  - split; [reflexivity|]. split; [reflexivity|].
    split; [intros _; exact Hcap|]. split; [discriminate|reflexivity].
Qed.

(** X10. [get_available_tokens] changes nothing in the bucket, and a
    request made at the same clock reading is granted exactly when it asks
    for no more than the reported count; a refused request leaves that
    count in the bucket. *)
Theorem available_tokens_predicts_acquire (n : Z) (tb : TokenBucket) (k : nat) :
  exists available,
    get_available_tokens env (tb, k) = (Ok available, (tb, S k))
    /\ (fst (acquire env n (tb, k)) = Ok true <-> (inject_Z n <= available)%Q)
    /\ (fst (acquire env n (tb, k)) = Ok false ->
        tokens (fst (snd (acquire env n (tb, k)))) = available).
Proof.
  eexists. split; [reflexivity|].
  rewrite acquire_run. cbv zeta.
  destruct (Qgeb _ _) eqn:Hgrant; cbn [fst snd tokens].
  - apply Qgeb_ge in Hgrant. split; [split; [intros _; exact Hgrant | reflexivity]|].
    discriminate.
  - apply Qgeb_lt in Hgrant. split; [|reflexivity].
    split; [discriminate|]. intros Hle. exfalso. lra.
Qed.

Lemma evict_older_recent (cutoff : Z) (queue : list (string * Z)) :
  oldest_first queue ->
  Forall (fun r => cutoff <= snd r) (evict_older cutoff queue).
Proof.
  induction queue as [|[u t] queue IH]; intros Hsorted.
  - constructor.
  - destruct Hsorted as [Hhead Hrest].
    cbn [evict_older]. case_bool_decide as Hold.
    + apply IH. exact Hrest.
    + constructor; [cbn; lia|].
      eapply Forall_impl; [exact Hhead|]. cbn. intros r Hr. lia.
Qed.

Lemma evict_older_sublist (cutoff : Z) (queue : list (string * Z)) :
  exists dropped, queue = dropped ++ evict_older cutoff queue.
Proof.
  induction queue as [|[u t] queue [dropped IH]].
  - exists []. reflexivity.
  - cbn [evict_older]. case_bool_decide.
    + exists ((u, t) :: dropped). cbn. congruence.
    + exists []. reflexivity.
Qed.

Lemma evict_older_oldest_first (cutoff : Z) (queue : list (string * Z)) :
  oldest_first queue -> oldest_first (evict_older cutoff queue).
Proof.
  induction queue as [|[u t] queue IH]; intros Hsorted.
  - exact Hsorted.
  - cbn [evict_older]. case_bool_decide; [|exact Hsorted].
    apply IH. destruct Hsorted as [_ Hrest]. exact Hrest.
Qed.

Lemma requests_of_evict_older (uid : string) (cutoff : Z) (queue : list (string * Z)) :
  requests_of uid (evict_older cutoff queue) <= requests_of uid queue.
Proof.
  destruct (evict_older_sublist cutoff queue) as [dropped Heq].
  rewrite Heq at 2. unfold requests_of. rewrite filter_app, length_app. lia.
Qed.

Lemma oldest_first_snoc (queue : list (string * Z)) (r : string * Z) :
  oldest_first queue ->
  Forall (fun r0 => snd r0 <= snd r) queue ->
  oldest_first (queue ++ [r]).
Proof.
  induction queue as [|r0 queue IH]; intros Hsorted Hle.
  - cbn. split; constructor.
  - destruct Hsorted as [Hhead Hrest].
    apply Forall_cons in Hle as [Hr0 Hle].
    cbn [app oldest_first]. split; [|apply IH; assumption].
    apply Forall_app. split; [exact Hhead|]. constructor; [exact Hr0 | constructor].
Qed.

(** X11. On a deque that is in time order and holds no entry from the
    future, [check_rate_limit] either admits the request or raises
    [RateLimitExceededError]; afterwards the deque is still in time order
    and every entry lies inside the window.  An admitted request is
    appended last and leaves at most [max_requests] entries of its user; a
    rejected one is not recorded; and no user that was within the limit
    ends up above it. *)
Theorem sliding_window_keeps_recent (uid : string) (self : SlidingWindowRateLimiter)
    (k : nat) :
  0 <= window self ->
  oldest_first (requests self) ->
  Forall (fun r => snd r <= clock env k) (requests self) ->
  let run := check_rate_limit env uid (self, k) in
  let queue' := requests (fst (snd run)) in
  (fst run = Ok true \/ fst run = Raise RateLimitExceededError)
  /\ oldest_first queue'
  /\ Forall (fun r => clock env k - window self <= snd r <= clock env k) queue'
  /\ (fst run = Ok true ->
        last queue' = Some (uid, clock env k)
        /\ requests_of uid queue' <= sw_max_requests self)
  /\ (fst run = Raise RateLimitExceededError ->
        queue' = evict_older (clock env k - window self) (requests self))
  /\ (forall u, requests_of u (requests self) <= sw_max_requests self ->
        requests_of u queue' <= sw_max_requests self).
Proof.
  intros Hwindow Hsorted Hpast. cbv zeta.
  unfold check_rate_limit.
  cbn [bind utcnow get modify ret raise fst snd window requests sw_max_requests].
  set (queue := evict_older (clock env k - window self) (requests self)).
  assert (Hrecent : Forall (fun r => clock env k - window self <= snd r <= clock env k) queue).
  { pose proof (evict_older_recent (clock env k - window self) _ Hsorted) as Hlow.
    fold queue in Hlow.
    destruct (evict_older_sublist (clock env k - window self) (requests self))
      as [dropped Heq].
    fold queue in Heq. rewrite Heq in Hpast. apply Forall_app in Hpast as [_ Hhigh].
    rewrite Forall_forall in Hlow, Hhigh |- *. intros r Hr.
    split; [apply Hlow | apply Hhigh]; exact Hr. }
  assert (Hqsorted : oldest_first queue) by (apply evict_older_oldest_first; exact Hsorted).
  case_bool_decide as Hfull;
    cbn [bind utcnow get modify ret raise fst snd window requests sw_max_requests].
  - split; [right; reflexivity|]. split; [exact Hqsorted|]. split; [exact Hrecent|].
    split; [discriminate|]. split; [reflexivity|].
    intros u Hu. etransitivity; [apply requests_of_evict_older | exact Hu].
  - split; [left; reflexivity|]. split.
    { apply oldest_first_snoc; [exact Hqsorted|].
      eapply Forall_impl; [exact Hrecent|]. cbn. intros r Hr. lia. }
    split.
    { apply Forall_app. split; [exact Hrecent|]. constructor; [cbn; lia | constructor]. }
    assert (Hcount : forall u,
      requests_of u (queue ++ [(uid, clock env k)]) =
        requests_of u queue + (if decide (uid = u) then 1 else 0)).
    { intros u. unfold requests_of. rewrite filter_app, length_app.
      rewrite Nat2Z.inj_add. f_equal.
      rewrite filter_cons, filter_nil. cbn [fst].
      destruct (decide (uid = u)) as [Heq|Hne]; reflexivity. }
    split; [intros _; split; [apply last_snoc|]|split; [discriminate|]].
    + rewrite Hcount. destruct (decide (uid = uid)); lia.
    + intros u Hu. rewrite Hcount.
      pose proof (requests_of_evict_older u (clock env k - window self) (requests self)) as Hle.
      fold queue in Hle.
      destruct (decide (uid = u)) as [<-|Hne]; lia.
Qed.

(** ** Rate limiter: order of the checks, ledgers *)

(** Run [check_limits] and its helpers on a state, splitting on each test
    the state does not decide. *)
Ltac run_limits known :=
  unfold record_cost, check_limits, _check_user_quota, _check_session_budget,
    _reset_user_quota_if_needed, _get_user_limiter, TokenBucket_init;
  repeat first
    [ progress cbn [bind zoom get modify ret raise utcnow view update fst snd negb
                    global_limiter_of user_limiter_of from_option id
                    set_global_limiter set_user_limiters set_user_quotas
                    set_user_quota_reset set_session_costs
                    rl_config global_limiter user_limiters user_quotas
                    user_quota_reset session_costs]
    | progress known
    | rewrite acquire_run; cbv zeta
    | match goal with
      | |- context [match ?x with _ => _ end] =>
          lazymatch type of x with
          | option _ => destruct x eqn:?
          | bool => destruct x eqn:?
          end
      end ].

Lemma check_limits_session_over (context : RequestContext) (self : RateLimiter) (k : nat)
    (sid : string) (budget spent : Q) :
  nonempty (session_id context) = Some sid ->
  session_budget_usd (rl_config self) = Some budget ->
  session_costs self !! sid = Some spent ->
  (budget <= spent)%Q ->
  exists e,
    fst (check_limits env context (self, k)) = Raise e
    /\ (e = RateLimitExceededError \/ e = QuotaExceededError).
Proof.
  intros Hsid Hbudget Hspent Hover. apply Qgeb_ge in Hover.
  run_limits ltac:(rewrite ?Hsid, ?Hbudget, ?Hspent, ?Hover);
    eexists; (split; [reflexivity|]); auto.
Qed.

Lemma record_cost_session (context : RequestContext) (cost : Q) (self : RateLimiter)
    (k : nat) (sid : string) :
  nonempty (session_id context) = Some sid ->
  rl_config (fst (snd (record_cost env context cost (self, k)))) = rl_config self
  /\ session_costs (fst (snd (record_cost env context cost (self, k)))) !! sid =
       Some (default 0 (session_costs self !! sid) + cost)%Q.
Proof.
  intros Hsid.
  run_limits ltac:(rewrite ?Hsid); (split; [reflexivity | apply lookup_insert_eq]).
Qed.

(** X12. [check_limits] asks the global bucket first: a request it refuses
    raises [RateLimitExceededError] with nothing else in the limiter
    touched (no bucket created for the user, no quota reset).  A request
    refused by the user's bucket has by then taken its token from the
    global bucket, and the token is not given back. *)
Theorem rate_limit_checks_in_order (context : RequestContext) (self : RateLimiter)
    (k : nat) :
  let global := acquire env 1 (global_limiter self, k) in
  (fst global = Ok false ->
     check_limits env context (self, k) =
       (Raise RateLimitExceededError,
        (set_global_limiter (fst (snd global)) self, S k)))
  /\ (forall uid bucket,
        fst global = Ok true ->
        nonempty (user_id context) = Some uid ->
        user_limiters self !! uid = Some bucket ->
        fst (acquire env 1 (bucket, S k)) = Ok false ->
        check_limits env context (self, k) =
          (Raise RateLimitExceededError,
           (set_user_limiters
              (<[uid := fst (snd (acquire env 1 (bucket, S k)))]> (user_limiters self))
              (set_global_limiter (fst (snd global)) self),
            S (S k))))
  /\ (fst global = Ok true ->
        (tokens (fst (snd global)) ==
           tokens (fst (snd (_refill env (global_limiter self, k)))) - 1)%Q).
Proof.
  cbv zeta. split; [|split].
  - rewrite acquire_run. cbv zeta. intros Hglobal.
    run_limits ltac:(idtac); try discriminate; reflexivity.
  - intros uid bucket. rewrite !acquire_run. cbv zeta. intros Hglobal Huid Hbucket Huser.
    run_limits ltac:(rewrite ?Huid, ?Hbucket); try discriminate; try congruence;
      reflexivity.
  - rewrite acquire_run. cbv zeta.
    destruct (Qgeb _ _); [|discriminate]. intros _. cbn. reflexivity.
Qed.

(** X13. Once the cost recorded for a session has reached
    [session_budget_usd], every later [check_limits] for that session is
    refused: it raises [QuotaExceededError], unless a rate limit refuses
    the request first. *)
Theorem spent_session_is_rejected (context later : RequestContext) (cost : Q)
    (self : RateLimiter) (k k' : nat) (sid : string) (budget : Q) :
  nonempty (session_id context) = Some sid ->
  nonempty (session_id later) = Some sid ->
  session_budget_usd (rl_config self) = Some budget ->
  (budget <= default 0 (session_costs self !! sid) + cost)%Q ->
  exists e,
    fst (check_limits env later (fst (snd (record_cost env context cost (self, k))), k'))
      = Raise e
    /\ (e = RateLimitExceededError \/ e = QuotaExceededError).
Proof.
  intros Hsid Hlater Hbudget Hover.
  destruct (record_cost_session context cost self k sid Hsid) as [Hcfg Hspent].
  eapply check_limits_session_over; [exact Hlater | | exact Hspent | exact Hover].
  rewrite Hcfg. exact Hbudget.
Qed.

(** X14. A user whose recorded cost has reached [user_daily_quota_usd] is
    refused by [check_limits] for as long as the clock stays on the day of
    the last quota reset. *)
Theorem exhausted_quota_is_rejected_that_day (context : RequestContext)
    (self : RateLimiter) (k : nat) (uid : string) (quota spent : Q) (last_reset : Z) :
  nonempty (user_id context) = Some uid ->
  user_daily_quota_usd (rl_config self) = Some quota ->
  user_quotas self !! uid = Some spent ->
  user_quota_reset self !! uid = Some last_reset ->
  (quota <= spent)%Q ->
  (forall j, date (clock env j) <= date last_reset) ->
  exists e,
    fst (check_limits env context (self, k)) = Raise e
    /\ (e = RateLimitExceededError \/ e = QuotaExceededError).
Proof.
  intros Huid Hquota Hspent Hreset Hover Hday. apply Qgeb_ge in Hover.
  run_limits ltac:(rewrite ?Huid, ?Hquota, ?Hspent, ?Hreset, ?Hover);
    try (eexists; (split; [reflexivity|]); auto; fail).
  all: match goal with
       | H : bool_decide (date _ < date (clock env ?j)) = true |- _ =>
           apply bool_decide_eq_true_1 in H; specialize (Hday j); lia
       end.
Qed.

(** X15. [record_cost] adds the cost to the session's ledger whatever the
    date.  It adds it to the user's daily ledger when the last reset was
    stamped on the current day, and starts the ledger again from the cost
    alone, stamping the reset, when there is no stamp or the stamp is from
    an earlier day.  The token buckets are not touched. *)
Theorem record_cost_ledgers (context : RequestContext) (cost : Q) (self : RateLimiter)
    (k : nat) :
  let run := record_cost env context cost (self, k) in
  let self' := fst (snd run) in
  fst run = Ok tt
  /\ global_limiter self' = global_limiter self
  /\ user_limiters self' = user_limiters self
  /\ (forall sid, nonempty (session_id context) = Some sid ->
        session_costs self' !! sid =
          Some (default 0 (session_costs self !! sid) + cost)%Q)
  /\ (forall uid last_reset,
        nonempty (user_id context) = Some uid ->
        user_quota_reset self !! uid = Some last_reset ->
        date (clock env k) <= date last_reset ->
        user_quotas self' !! uid = Some (default 0 (user_quotas self !! uid) + cost)%Q
        /\ user_quota_reset self' !! uid = Some last_reset)
  /\ (forall uid,
        nonempty (user_id context) = Some uid ->
        (user_quota_reset self !! uid = None
         \/ exists last_reset, user_quota_reset self !! uid = Some last_reset
                               /\ date last_reset < date (clock env k)) ->
        user_quotas self' !! uid = Some (0 + cost)%Q
        /\ user_quota_reset self' !! uid = Some (clock env k)).
Proof.
  cbv zeta.
  split; [run_limits ltac:(idtac); reflexivity|].
  split; [run_limits ltac:(idtac); reflexivity|].
  split; [run_limits ltac:(idtac); reflexivity|].
  split; [intros sid Hsid; apply record_cost_session; exact Hsid|].
  split.
  - intros uid last_reset Huid Hreset Hday.
    split;
      run_limits ltac:(rewrite ?Huid, ?Hreset);
      try (match goal with
           | H : bool_decide _ = true |- _ => apply bool_decide_eq_true_1 in H; lia
           end);
      first [apply lookup_insert_eq | reflexivity | assumption].
  - intros uid Huid [Hnone | (last_reset & Hreset & Hday)].
    + split;
        run_limits ltac:(rewrite ?Huid, ?Hnone);
        rewrite ?lookup_insert_eq; reflexivity.
    + split;
        run_limits ltac:(rewrite ?Huid, ?Hreset);
        try (match goal with
             | H : bool_decide _ = false |- _ => apply bool_decide_eq_false_1 in H; lia
             end);
        rewrite ?lookup_insert_eq; reflexivity.
Qed.

(** ** Retry manager *)

Lemma after_attempts_succ {W A : Type} (func : M W A) (n : nat) (s : W * nat) :
  after_attempts func (S n) s = after_attempts func n (snd (func s)).
Proof. unfold after_attempts. rewrite Nat.iter_succ_r. reflexivity. Qed.

Lemma retry_loop_final {W A : Type} (func : M W A) (j : nat) :
  forall (attempts : nat) (s : W * nat),
  (j < attempts)%nat ->
  (forall i, (i < j)%nat ->
     exists e, fst (func (after_attempts func i s)) = Raise e /\ is_retryable e = true) ->
  (forall e, fst (func (after_attempts func j s)) = Raise e -> is_retryable e = false) ->
  retry_loop func attempts s = func (after_attempts func j s).
Proof.
  induction j as [|j IH]; intros attempts s Hlt Hretry Hfinal;
    (destruct attempts as [|attempts]; [lia|]); cbn [retry_loop]; unfold try_except.
  - change (after_attempts func 0 s) with s in *.
    destruct (func s) as [[a|e] s'] eqn:Hrun; [reflexivity|].
    rewrite (Hfinal e eq_refl). reflexivity.
  - destruct (Hretry 0%nat) as (e & Hraise & Hretryable); [lia|].
    change (after_attempts func 0 s) with s in Hraise.
    rewrite after_attempts_succ.
    destruct (func s) as [r s'] eqn:Hrun. cbn [fst snd] in Hraise |- *. subst r.
    rewrite Hretryable. apply IH.
    + lia.
    + intros i Hi. specialize (Hretry (S i)). rewrite after_attempts_succ, Hrun in Hretry.
      apply Hretry. lia.
    + intros e' He'. apply Hfinal. rewrite after_attempts_succ, Hrun. exact He'.
Qed.

(** X16. When every attempt fails with a retryable error,
    [execute_with_retry] runs the function exactly [max_attempts] times
    and then raises [RetryExhaustedError]; with [max_attempts] zero or
    negative the function is not run at all. *)
Theorem retries_exhausted_after_max_attempts {W A : Type} (strategy : RetryConfig)
    (func : M W A) (s : W * nat) :
  (forall s', exists e, fst (func s') = Raise e /\ is_retryable e = true) ->
  execute_with_retry strategy func s =
    (Raise RetryExhaustedError,
     after_attempts func (Z.to_nat (max_attempts strategy)) s).
Proof.
  intros Hfails. unfold execute_with_retry.
  generalize (Z.to_nat (max_attempts strategy)) as attempts. intros attempts.
  revert s. induction attempts as [|attempts IH]; intros s.
  - reflexivity.
  - cbn [retry_loop]. unfold try_except. rewrite after_attempts_succ.
    destruct (Hfails s) as (e & Hraise & Hretryable).
    destruct (func s) as [r s'] eqn:Hrun. cbn [fst snd] in Hraise |- *. subst r.
    rewrite Hretryable. apply IH.
Qed.

(** X17. [execute_with_retry] stops at the first attempt that succeeds or
    fails with an error that is not retryable, and hands back that
    attempt's result or exception as it is: when the first [j] attempts
    fail with retryable errors and [j] is below [max_attempts], the
    outcome is that of attempt [j + 1], and no further attempt is made. *)
Theorem retry_returns_first_final_outcome {W A : Type} (strategy : RetryConfig)
    (func : M W A) (s : W * nat) (j : nat) :
  Z.of_nat j < max_attempts strategy ->
  (forall i, (i < j)%nat ->
     exists e, fst (func (after_attempts func i s)) = Raise e /\ is_retryable e = true) ->
  (forall e, fst (func (after_attempts func j s)) = Raise e -> is_retryable e = false) ->
  execute_with_retry strategy func s = func (after_attempts func j s).
Proof.
  intros Hlt Hretry Hfinal. unfold execute_with_retry.
  apply retry_loop_final; [lia | exact Hretry | exact Hfinal].
Qed.

(** X18. With non-negative delays and base and a draw of
    [random.random()] in [0, 1], the back-off delay is never negative and
    never above [max_delay]; with jitter it is at least half the delay
    without jitter. *)
Theorem get_delay_bounds (strategy : RetryStrategy) (attempt : nat) (draw : Q) :
  (0 <= initial_delay strategy)%Q ->
  (0 <= exponential_base strategy)%Q ->
  (0 <= max_delay strategy)%Q ->
  (0 <= draw <= 1)%Q ->
  let plain :=
    py_min (initial_delay strategy * exponential_base strategy ^ Z.of_nat attempt)%Q
           (max_delay strategy) in
  (0 <= get_delay strategy attempt draw <= max_delay strategy)%Q
  /\ (plain * (1 # 2) <= get_delay strategy attempt draw <= plain)%Q.
Proof.
  intros Hinit Hbase Hmax [Hdraw0 Hdraw1]. cbv zeta. unfold get_delay.
  set (plain := py_min _ _).
  assert (Hpow : (0 <= exponential_base strategy ^ Z.of_nat attempt)%Q)
    by (apply Qpower_0_le; exact Hbase).
  assert (Hplain0 : (0 <= plain)%Q).
  { apply py_min_glb; [|exact Hmax]. apply Qmult_le_0_compat; assumption. }
  assert (Hplain1 : (plain <= max_delay strategy)%Q) by apply py_min_le_r.
  destruct (jitter strategy).
  - assert (Hlow : (plain * (1 # 2) <= plain * ((5 # 10) + draw * (5 # 10)))%Q) by nra.
    assert (Hhigh : (plain * ((5 # 10) + draw * (5 # 10)) <= plain)%Q) by nra.
    split; split; try assumption; nra.
  - split; split; try assumption; try apply Qle_refl; nra.
Qed.

(** ** Validators *)

(** Split on the six tests of [validate_output]. *)
Ltac split_output_tests response :=
  unfold validate_output;
  generalize (bool_decide (String.length (response_text response) = 0%nat)),
    (bool_decide (String.length (response_text response) < 10)%nat),
    (Qltb (quality_score response) (1 # 2)), (contains_harmful_content response),
    (is_hallucination response), (is_off_task response);
  intros [] [] [] [] [] [].

Lemma validate_output_is_valid (response : LLMResponse) :
  is_valid (validate_output response) =
    negb (contains_harmful_content response)
    && negb (Qltb (quality_score response) (1 # 2))
    && negb (is_hallucination response)
    && negb (bool_decide (String.length (response_text response) = 0%nat)).
Proof. split_output_tests response; reflexivity. Qed.

Lemma validate_output_severity (response : LLMResponse) :
  severity (validate_output response) =
    if Qltb (quality_score response) (1 # 2) || is_hallucination response
       || bool_decide (String.length (response_text response) = 0%nat)
    then "high"%string
    else if contains_harmful_content response then "critical"%string
    else "low"%string.
Proof. split_output_tests response; reflexivity. Qed.

Lemma validate_output_errors (response : LLMResponse) :
  errors (validate_output response) = [] <-> is_valid (validate_output response) = true.
Proof.
  assert (Hnil : match errors (validate_output response) with [] => true | _ => false end
                 = is_valid (validate_output response))
    by (split_output_tests response; reflexivity).
  destruct (errors (validate_output response)), (is_valid (validate_output response));
    split; intros H; first [reflexivity | discriminate H | discriminate Hnil].
Qed.

(** X19. [validate_output] accepts a response exactly when it is not
    flagged harmful, not flagged as hallucination, scores at least 0.5 and
    has a non-empty text; an off-task flag or a short text only warn.  The
    severity is critical only for a harmful response that passes every
    later check, because the low-score, hallucination and empty-text
    checks overwrite it with high; it is low exactly for accepted
    responses, and those are the ones with no error listed. *)
Theorem validate_output_verdict (response : LLMResponse) :
  let result := validate_output response in
  (is_valid result = true <->
     contains_harmful_content response = false
     /\ (1 # 2 <= quality_score response)%Q
     /\ is_hallucination response = false
     /\ String.length (response_text response) <> 0%nat)
  /\ (severity result = "critical"%string <->
       contains_harmful_content response = true
       /\ (1 # 2 <= quality_score response)%Q
       /\ is_hallucination response = false
       /\ String.length (response_text response) <> 0%nat)
  /\ (severity result = "low"%string <-> is_valid result = true)
  /\ (errors result = [] <-> is_valid result = true).
Proof.
  cbv zeta.
  pose proof (validate_output_is_valid response) as Hvalid.
  pose proof (validate_output_severity response) as Hsev.
  pose proof (validate_output_errors response) as Herr.
  generalize dependent (validate_output response). intros result Hvalid Hsev Herr.
  split; [|split; [|split; [|exact Herr]]]; clear Herr;
    rewrite ?Hsev, ?Hvalid; clear Hsev Hvalid;
    destruct (Qltb (quality_score response) (1 # 2)) eqn:Hscore;
    (apply Qltb_lt in Hscore || apply Qltb_ge in Hscore);
    case_bool_decide as Hempty;
    destruct (contains_harmful_content response), (is_hallucination response);
    cbn [negb andb orb];
    (split; [intros H | intros H; try destruct H as (H1 & H2 & H3 & H4)]);
    first [ discriminate | reflexivity | contradiction
          | exfalso; lra
          | repeat split; first [reflexivity | assumption] ].
Qed.



(** ** Quality monitor *)

(** [assess_quality] in full: the result, the alert list and the
    annotated response. *)
Lemma assess_quality_full (context : RequestContext) (qm : QualityMonitor)
    (response : LLMResponse) (k : nat) :
  let h := hallucination_detect env response in
  let safety_results := check_safety env response in
  let off := off_task_detect env response context in
  let score :=
    _calculate_quality_score h (risk_score safety_results) off
      (String.length (response_text response)) in
  let pass := _should_pass_validation score (violations safety_results) (Qgtb h (7 # 10)) in
  let annotated :=
    set_quality_level (_categorize_quality score)
      (set_quality_score score
         (set_is_off_task off
            (set_contains_harmful_content (negb (is_safe safety_results))
               (set_is_hallucination (Qgtb h (7 # 10)) response)))) in
  let assessment :=
    {| qa_request_id := request_id response;
       hallucination_probability := h;
       safety_violations := violations safety_results;
       coherence_score := (1 - h)%Q;
       relevance_score := if off then 0%Q else 1%Q;
       pass_validation := pass;
       recommended_action := _recommend_action score pass (violations safety_results);
       qa_warnings := _generate_warnings h (risk_score safety_results) off score |} in
  let alert :=
    {| alert_id := "alert-quality-" +:+ request_id response;
       alert_severity := if Qltb score (3 # 10) then "high" else "medium";
       category := "quality";
       alert_request_id := Some (request_id response);
       resolved := false |} in
  assess_quality env context ((qm, response), k) =
    (if negb pass && Qltb score (3 # 10) then Raise QualityCheckFailedError
     else Ok assessment,
     (({| qm_config := qm_config qm;
          quality_history := deque_append 1000 score (quality_history qm);
          qm_active_alerts :=
            if Qltb score (quality_alert_threshold (qm_config qm))
            then qm_active_alerts qm ++ [alert] else qm_active_alerts qm |},
       annotated), k)).
Proof.
  intros h safety_results off score pass annotated assessment alert.
  unfold assess_quality, get_response, get_self, _raise_quality_alert.
  cbn [bind get modify ret raise fst snd].
  fold h.
  rewrite (check_safety_text (set_is_hallucination (Qgtb h (7 # 10)) response) response
             eq_refl).
  fold safety_results.
  rewrite (off_task_detect_text
             (set_contains_harmful_content (negb (is_safe safety_results))
                (set_is_hallucination (Qgtb h (7 # 10)) response))
             response context eq_refl).
  fold off.
  cbn [is_off_task set_is_off_task response_text set_contains_harmful_content
       set_is_hallucination qm_config is_hallucination set_quality_score set_quality_level
       request_id quality_score qm_active_alerts quality_history].
  fold score. fold pass.
  destruct (Qltb score (quality_alert_threshold (qm_config qm)));
    cbn [bind get modify ret raise fst snd pass_validation];
    (destruct (negb pass && Qltb score (3 # 10)) eqn:Hcrit;
     cbn [bind get modify ret raise fst snd]; reflexivity).
Qed.

Lemma count_matches_bounds (patterns : list string) (text : string) :
  0 <= count_matches env patterns text <= Z.of_nat (length patterns).
Proof.
  unfold count_matches. split; [lia|].
  apply inj_le. apply length_filter.
Qed.

Lemma py_max_le (x y z : Q) : (x <= z)%Q -> (y <= z)%Q -> (py_max x y <= z)%Q.
Proof. intros Hx Hy. unfold py_max. destruct (Qgtb y x); assumption. Qed.

Lemma py_max_ge_l (x y : Q) : (x <= py_max x y)%Q.
Proof.
  unfold py_max. destruct (Qgtb y x) eqn:H.
  - apply Qgtb_gt in H. apply Qlt_le_weak. exact H.
  - apply Qle_refl.
Qed.

Lemma check_category_bounds (text : string) (patterns : list string) :
  (0 <= _check_category env text patterns <= 1)%Q.
Proof.
  unfold _check_category. split; [|apply py_min_le_r].
  apply py_min_glb; [|lra].
  destruct (count_matches_bounds patterns text) as [Hcount _].
  rewrite Zle_Qle in Hcount. change (inject_Z 0) with 0%Q in Hcount. lra.
Qed.

(** A category is in violation when at least two of its patterns match. *)
Lemma check_category_violation (text : string) (patterns : list string) :
  Qgtb (_check_category env text patterns) (1 # 2) = true
  <-> 2 <= count_matches env patterns text.
Proof.
  rewrite Qgtb_gt. unfold _check_category. split.
  - intros Hhigh.
    destruct (Z_lt_le_dec (count_matches env patterns text) 2) as [Hlow|Hok]; [|exact Hok].
    exfalso.
    assert (Hle : count_matches env patterns text <= 1) by lia.
    rewrite Zle_Qle in Hle. change (inject_Z 1) with 1%Q in Hle.
    pose proof (py_min_le_l (inject_Z (count_matches env patterns text) * (4 # 10)) 1) as Hmin.
    lra.
  - intros Htwo. rewrite Zle_Qle in Htwo. change (inject_Z 2) with 2%Q in Htwo.
    assert (Hmin : (8 # 10 <=
              py_min (inject_Z (count_matches env patterns text) * (4 # 10)) 1)%Q)
      by (apply py_min_glb; lra).
    lra.
Qed.

Lemma hallucination_detect_bounds (response : LLMResponse) :
  (0 <= hallucination_detect env response <= 1)%Q.
Proof.
  unfold hallucination_detect. cbv zeta. split; [|apply py_min_le_r].
  apply py_min_glb; [|lra].
  assert (Hpattern : (0 <= _check_patterns env (response_text response))%Q).
  { unfold _check_patterns. apply py_min_glb; [|lra].
    destruct (count_matches_bounds hallucination_patterns (response_text response))
      as [Hcount _].
    rewrite Zle_Qle in Hcount. change (inject_Z 0) with 0%Q in Hcount. lra. }
  assert (Hlength : (0 <= _check_length env (response_text response))%Q).
  { unfold _check_length. repeat case_bool_decide; lra. }
  lra.
Qed.

(** What the loop of [check_safety] keeps, over any list of categories. *)
Lemma check_safety_loop (text : string) (categories : list (string * list string)) :
  forall init : SafetyResults,
  let results :=
    fold_left
      (fun results '(name, patterns) =>
         let score := _check_category env text patterns in
         let results :=
           {| is_safe := is_safe results; violations := violations results;
              risk_score := risk_score results;
              details := details results ++ [(name, score)] |} in
         if Qgtb score (1 # 2) then
           {| is_safe := false; violations := violations results ++ [name];
              risk_score := py_max (risk_score results) score;
              details := details results |}
         else results)
      categories init in
  violations results =
    violations init
    ++ map fst (filter (fun c => Qgtb (_check_category env text (snd c)) (1 # 2) = true)
                       categories)
  /\ ((is_safe init = true <-> violations init = []) ->
      (is_safe results = true <-> violations results = []))
  /\ ((0 <= risk_score init <= 1)%Q -> (0 <= risk_score results <= 1)%Q)
  /\ ((violations init <> [] -> (8 # 10 <= risk_score init)%Q) ->
      (violations results <> [] -> (8 # 10 <= risk_score results)%Q)).
Proof.
  induction categories as [|[name patterns] categories IH]; intros init; cbv zeta.
  - cbn [fold_left filter map]. rewrite filter_nil. cbn [map]. rewrite app_nil_r.
    repeat split; auto; tauto.
  - cbn [fold_left]. rewrite filter_cons. cbn [snd].
    pose proof (check_category_bounds text patterns) as Hbounds.
    pose proof (check_category_violation text patterns) as Htwo.
    destruct (Qgtb (_check_category env text patterns) (1 # 2)) eqn:Hhigh.
    + destruct (decide (true = true)) as [_|Hno]; [|contradiction].
      match goal with
      | |- context [fold_left _ categories ?next] =>
          destruct (IH next) as (Hv & Hsafe & Hrisk & Hmin)
      end.
      split; [|split; [|split]].
      * etransitivity; [exact Hv|]. cbn [violations map fst].
        rewrite <- app_assoc. reflexivity.
      * intros _. apply Hsafe. cbn [is_safe violations]. split; [discriminate|].
        intros Hnil. destruct (violations init); discriminate Hnil.
      * intros Hinit. apply Hrisk. cbn [risk_score]. split.
        -- eapply Qle_trans; [apply Hinit | apply py_max_ge_l].
        -- apply py_max_le; [apply Hinit | apply Hbounds].
      * intros _. apply Hmin. cbn [risk_score violations]. intros _.
        assert (Hcount : 2 <= count_matches env patterns text)
          by (apply Htwo; reflexivity).
        rewrite Zle_Qle in Hcount. change (inject_Z 2) with 2%Q in Hcount.
        assert (Hscore : (8 # 10 <= _check_category env text patterns)%Q)
          by (unfold _check_category; apply py_min_glb; lra).
        unfold py_max.
        destruct (Qgtb (_check_category env text patterns) (risk_score init)) eqn:Hcmp;
          [exact Hscore|].
        apply Qgtb_le in Hcmp. lra.
    + destruct (decide (false = true)) as [Hyes|_]; [discriminate Hyes|].
      match goal with
      | |- context [fold_left _ categories ?next] =>
          destruct (IH next) as (Hv & Hsafe & Hrisk & Hmin)
      end.
      split; [exact Hv|]. split; [exact Hsafe|]. split; [exact Hrisk | exact Hmin].
Qed.

Lemma check_safety_facts (response : LLMResponse) :
  violations (check_safety env response) =
    map fst (filter (fun c => Qgtb (_check_category env (response_text response) (snd c))
                                  (1 # 2) = true)
                    harmful_categories)
  /\ (is_safe (check_safety env response) = true
      <-> violations (check_safety env response) = [])
  /\ (0 <= risk_score (check_safety env response) <= 1)%Q
  /\ (violations (check_safety env response) <> [] ->
      (8 # 10 <= risk_score (check_safety env response))%Q).
Proof.
  unfold check_safety.
  match goal with
  | |- context [fold_left _ harmful_categories ?init] =>
      destruct (check_safety_loop (response_text response) harmful_categories init)
        as (Hv & Hsafe & Hrisk & Hmin)
  end.
  split; [exact Hv|]. split; [apply Hsafe; split; reflexivity|].
  split; [apply Hrisk; cbn [risk_score]; lra|].
  apply Hmin. cbn [violations]. intros Hne. contradiction.
Qed.

Lemma calculate_quality_score_bounds (h risk : Q) (off : bool) (len : nat) :
  (0 <= h <= 1)%Q -> (0 <= risk <= 1)%Q ->
  (0 <= _calculate_quality_score h risk off len <= 1)%Q.
Proof.
  intros Hh Hrisk. unfold _calculate_quality_score. cbv zeta.
  split; [apply py_max_ge_l|].
  apply py_max_le; [lra|].
  destruct off; case_bool_decide; lra.
Qed.

(** X21. Whatever the response and the outcome, [assess_quality] stores a
    [quality_score] between 0 and 1 on the response; the hallucination
    probability and the safety risk it is computed from lie in the same
    interval. *)
Theorem quality_score_in_unit_interval (context : RequestContext) (qm : QualityMonitor)
    (response : LLMResponse) (k : nat) :
  let response' := snd (fst (snd (assess_quality env context ((qm, response), k)))) in
  (0 <= quality_score response' <= 1)%Q
  /\ (0 <= hallucination_detect env response <= 1)%Q
  /\ (0 <= risk_score (check_safety env response) <= 1)%Q.
Proof.
  cbv zeta. rewrite assess_quality_full. cbv zeta.
  cbn [fst snd quality_score set_quality_level set_quality_score].
  pose proof (hallucination_detect_bounds response) as Hh.
  destruct (check_safety_facts response) as (_ & _ & Hrisk & _).
  split; [|split; assumption].
  apply calculate_quality_score_bounds; assumption.
Qed.

(** X22. [assess_quality] raises nothing but [QualityCheckFailedError],
    and raises it exactly when the score it stored on the response is
    below 0.3.  So an assessment that is returned never belongs to an
    UNSAFE response and never recommends the fallback. *)
Theorem quality_failure_iff_score_critical (context : RequestContext)
    (qm : QualityMonitor) (response : LLMResponse) (k : nat) :
  let run := assess_quality env context ((qm, response), k) in
  let response' := snd (fst (snd run)) in
  (fst run = Raise QualityCheckFailedError <-> (quality_score response' < 3 # 10)%Q)
  /\ (forall e, fst run = Raise e -> e = QualityCheckFailedError)
  /\ (forall assessment, fst run = Ok assessment ->
        quality_level response' <> UNSAFE
        /\ recommended_action assessment <> "fallback"%string).
Proof.
  cbv zeta. rewrite assess_quality_full. cbv zeta.
  cbn [fst snd quality_score quality_level set_quality_level set_quality_score].
  set (h := hallucination_detect env response).
  set (safety_results := check_safety env response).
  set (score := _calculate_quality_score _ _ _ _).
  unfold _should_pass_validation, _recommend_action, _categorize_quality.
  destruct (Qltb score (3 # 10)) eqn:Hcrit;
    [apply Qltb_lt in Hcrit | apply Qltb_ge in Hcrit].
  - assert (Hhalf : Qltb score (5 # 10) = true) by (apply Qltb_lt; lra).
    rewrite Hhalf.
    destruct (violations safety_results), (Qgtb h (7 # 10)); cbn [negb andb];
      (split; [split; [intros _; exact Hcrit | reflexivity]|]);
      (split; [intros e [= <-]; reflexivity | intros assessment [=]]).
  - rewrite andb_false_r.
    split; [split; [discriminate | intros Hlow; exfalso; lra]|].
    split; [discriminate|].
    match goal with |- context [Ok ?a] => set (result := a) end.
    intros assessment [= <-]. subst result. cbn [recommended_action]. split.
    + destruct (Qgeb score (9 # 10)); [discriminate|].
      destruct (Qgeb score (75 # 100)); [discriminate|].
      destruct (Qgeb score (6 # 10)); [discriminate|].
      destruct (Qgeb score (3 # 10)) eqn:Hthree; [discriminate|].
      apply Qgeb_lt in Hthree. exfalso. lra.
    + destruct (violations safety_results), (Qgtb h (7 # 10)), (Qltb score (5 # 10)),
        (Qgeb score (75 # 100)); cbn [negb]; discriminate.
Qed.

(** X23. In a returned assessment, the action is reject exactly when a
    safety category is in violation, which is also when the response is
    flagged harmful; validation passes exactly when the response is not
    flagged harmful, not flagged as hallucination and scores at least
    0.5; and the action is accept exactly when validation passes with a
    score of at least 0.75. *)
Theorem returned_assessment_verdict (context : RequestContext) (qm : QualityMonitor)
    (response : LLMResponse) (k : nat) (assessment : QualityAssessment)
    (s' : (QualityMonitor * LLMResponse) * nat) :
  assess_quality env context ((qm, response), k) = (Ok assessment, s') ->
  let response' := snd (fst s') in
  (recommended_action assessment = "reject"%string <-> safety_violations assessment <> [])
  /\ (contains_harmful_content response' = true <-> safety_violations assessment <> [])
  /\ (pass_validation assessment = true <->
        contains_harmful_content response' = false
        /\ is_hallucination response' = false
        /\ (1 # 2 <= quality_score response')%Q)
  /\ (recommended_action assessment = "accept"%string <->
        pass_validation assessment = true /\ (75 # 100 <= quality_score response')%Q).
Proof.
  rewrite assess_quality_full. cbv zeta.
  destruct (check_safety_facts response) as (_ & Hsafe & _ & _).
  set (h := hallucination_detect env response) in *.
  set (safety_results := check_safety env response) in *.
  set (score := _calculate_quality_score _ _ _ _).
  destruct (negb _ && Qltb score (3 # 10)); [discriminate|].
  intros [= <- <-].
  cbn [fst snd quality_score quality_level contains_harmful_content is_hallucination
       set_quality_level set_quality_score set_is_off_task set_contains_harmful_content
       set_is_hallucination recommended_action safety_violations pass_validation].
  unfold _should_pass_validation, _recommend_action.
  destruct (Qltb score (5 # 10)) eqn:Hhalf;
    [apply Qltb_lt in Hhalf | apply Qltb_ge in Hhalf];
    (destruct (Qgeb score (75 # 100)) eqn:Hgood;
      [apply Qgeb_ge in Hgood | apply Qgeb_lt in Hgood]);
    destruct (Qltb score (3 # 10)), (Qgtb h (7 # 10));
    destruct (violations safety_results) as [|violation rest];
    destruct (is_safe safety_results);
    try (destruct Hsafe as [Hs1 Hs2];
         first [discriminate (Hs1 eq_refl) | discriminate (Hs2 eq_refl)]);
    cbn [negb];
    repeat split; intros;
    repeat match goal with H : _ /\ _ |- _ => destruct H end;
    first [ discriminate | reflexivity | assumption | congruence | lra | exfalso; lra ].
Qed.

(** X24. A safety category is in violation exactly when at least two of
    its patterns match the response text, so [sexual_content], which has
    one pattern, is never reported; the response is safe exactly when no
    category is in violation, and any violation puts the risk score at
    0.8 or more. *)
Theorem safety_violation_needs_two_matches (response : LLMResponse) :
  (forall name,
     name ∈ violations (check_safety env response) <->
     exists patterns,
       (name, patterns) ∈ harmful_categories
       /\ 2 <= count_matches env patterns (response_text response))
  /\ ("sexual_content"%string ∉ violations (check_safety env response))
  /\ (is_safe (check_safety env response) = true
      <-> violations (check_safety env response) = [])
  /\ (violations (check_safety env response) <> [] ->
      (8 # 10 <= risk_score (check_safety env response))%Q).
Proof.
  destruct (check_safety_facts response) as (Hv & Hsafe & _ & Hmin).
  assert (Hin : forall name,
    name ∈ violations (check_safety env response) <->
    exists patterns,
      (name, patterns) ∈ harmful_categories
      /\ 2 <= count_matches env patterns (response_text response)).
  { intros name. rewrite Hv, list_elem_of_In, in_map_iff. split.
    - intros ([name' patterns] & <- & Hc).
      apply list_elem_of_In, list_elem_of_filter in Hc as [Hhigh Hc].
      exists patterns. split; [exact Hc|]. apply check_category_violation. exact Hhigh.
    - intros (patterns & Hc & Htwo). exists (name, patterns). split; [reflexivity|].
      apply list_elem_of_In, list_elem_of_filter. split; [|exact Hc].
      apply check_category_violation. exact Htwo. }
  split; [exact Hin|]. split; [|split; [exact Hsafe | exact Hmin]].
  intros Hsexual. apply Hin in Hsexual as (patterns & Hc & Htwo).
  unfold harmful_categories in Hc.
  repeat (apply elem_of_cons in Hc as [Hc|Hc]; [try discriminate Hc|]).
  - injection Hc as ->.
    pose proof (count_matches_bounds
      ["\b(explicit|pornograph|sexual)\b.*\b(content|material)\b"%string]
      (response_text response)) as [_ Hone].
    cbn [length] in Hone. lia.
  - apply elem_of_nil in Hc. exact Hc.
Qed.

(** X25. [assess_quality] appends the score to [quality_history] whatever
    the outcome, and a history of at most 1000 scores stays at most 1000
    long: below the bound the score is added at the end, at the bound the
    oldest score is dropped to make room. *)
Theorem quality_history_stays_bounded (context : RequestContext) (qm : QualityMonitor)
    (response : LLMResponse) (k : nat) :
  (length (quality_history qm) <= 1000)%nat ->
  let run := assess_quality env context ((qm, response), k) in
  let history' := quality_history (fst (fst (snd run))) in
  let score := quality_score (snd (fst (snd run))) in
  (length history' <= 1000)%nat
  /\ last history' = Some score
  /\ ((length (quality_history qm) < 1000)%nat -> history' = quality_history qm ++ [score])
  /\ (length (quality_history qm) = 1000%nat ->
      history' = drop 1 (quality_history qm) ++ [score]).
Proof.
  intros Hbound. cbv zeta. rewrite assess_quality_full. cbv zeta.
  cbn [fst snd quality_history quality_score set_quality_level set_quality_score].
  set (score := _calculate_quality_score _ _ _ _).
  unfold deque_append. change (1000 <=? 0) with false. cbv iota.
  destruct (Z.ltb_spec (Z.of_nat (length (quality_history qm))) 1000) as [Hlt|Hge].
  - split; [rewrite length_app; cbn [length]; lia|].
    split; [apply last_snoc|]. split; [reflexivity|]. intros Hfull. lia.
  - split; [rewrite length_app, length_drop; cbn [length]; lia|].
    split; [apply last_snoc|]. split; [intros Hless; lia | reflexivity].
Qed.

(** X26. The off-task detector never flags a response when the prompt
    has no keyword, nor when every keyword of the prompt occurs in the
    response; it always flags a response that shares no keyword with a
    prompt that has some. *)
Theorem off_task_detect_edges (response : LLMResponse) (context : RequestContext) :
  let prompt_keywords := _extract_keywords env (prompt context) in
  let response_keywords := _extract_keywords env (response_text response) in
  (prompt_keywords = ∅ -> off_task_detect env response context = false)
  /\ (prompt_keywords ⊆ response_keywords -> off_task_detect env response context = false)
  /\ (prompt_keywords <> ∅ -> prompt_keywords ## response_keywords ->
      off_task_detect env response context = true).
Proof.
  cbv zeta. unfold off_task_detect. cbv zeta.
  set (prompt_keywords := _extract_keywords env (prompt context)).
  set (response_keywords := _extract_keywords env (response_text response)).
  assert (Hpos : size prompt_keywords <> 0%nat ->
            (0 < inject_Z (Z.of_nat (size prompt_keywords)))%Q).
  { intros Hsize. change 0%Q with (inject_Z 0). rewrite <- Zlt_Qlt. lia. }
  split; [|split].
  - intros ->. rewrite size_empty. rewrite bool_decide_eq_true_2 by reflexivity.
    reflexivity.
  - intros Hsub. case_bool_decide as Hsize; [reflexivity|].
    apply Qltb_ge.
    rewrite (subseteq_intersection_1_L prompt_keywords response_keywords Hsub).
    apply Qle_shift_div_l; [apply Hpos; exact Hsize|].
    specialize (Hpos Hsize). lra.
  - intros Hne Hdisjoint.
    rewrite bool_decide_eq_false_2
      by (intros Hsize; apply size_empty_inv in Hsize; apply Hne;
          apply leibniz_equiv; exact Hsize).
    apply Qltb_lt.
    rewrite (disjoint_intersection_L prompt_keywords response_keywords) in Hdisjoint.
    rewrite Hdisjoint, size_empty.
    assert (Hsize : size prompt_keywords <> 0%nat).
    { intros Hsize. apply size_empty_inv in Hsize. apply Hne.
      apply leibniz_equiv. exact Hsize. }
    apply Qlt_shift_div_r; [apply Hpos; exact Hsize|].
    specialize (Hpos Hsize). change (inject_Z (Z.of_nat 0)) with 0%Q. lra.
Qed.

(** X27. [assess_quality] records one alert when the score is below
    [quality_alert_threshold], also when it goes on to raise, and none
    otherwise.  The alert is unresolved, of category quality, carries the
    request id, and its severity is high exactly when the score is below
    0.3. *)
Theorem quality_alert_iff_below_threshold (context : RequestContext)
    (qm : QualityMonitor) (response : LLMResponse) (k : nat) :
  let run := assess_quality env context ((qm, response), k) in
  let alerts' := qm_active_alerts (fst (fst (snd run))) in
  let score := quality_score (snd (fst (snd run))) in
  ((quality_alert_threshold (qm_config qm) <= score)%Q ->
     alerts' = qm_active_alerts qm)
  /\ ((score < quality_alert_threshold (qm_config qm))%Q ->
      exists alert,
        alerts' = qm_active_alerts qm ++ [alert]
        /\ category alert = "quality"%string
        /\ resolved alert = false
        /\ alert_request_id alert = Some (request_id response)
        /\ (alert_severity alert = "high"%string <-> (score < 3 # 10)%Q)).
Proof.
  cbv zeta. rewrite assess_quality_full. cbv zeta.
  cbn [fst snd qm_active_alerts quality_score set_quality_level set_quality_score].
  set (score := _calculate_quality_score _ _ _ _).
  destruct (Qltb score (quality_alert_threshold (qm_config qm))) eqn:Halert;
    [apply Qltb_lt in Halert | apply Qltb_ge in Halert].
  - split; [intros Hge; exfalso; lra|]. intros _.
    eexists. split; [reflexivity|].
    cbn [category resolved alert_request_id alert_severity].
    split; [reflexivity|]. split; [reflexivity|]. split; [reflexivity|].
    destruct (Qltb score (3 # 10)) eqn:Hcrit;
      [apply Qltb_lt in Hcrit | apply Qltb_ge in Hcrit].
    + split; [intros _; exact Hcrit | reflexivity].
    + split; [discriminate | intros Hlow; exfalso; lra].
  - split; [reflexivity|]. intros Hlow. exfalso. lra.
Qed.

(** ** Orchestrator: requests stopped before the provider *)

(** X29. With the safety checks enabled, a request whose prompt matches
    an injection pattern ends in [PromptInjectionError] before anything
    else happens: the audit log gains the request event and the error
    event, and nothing else of the guardian changes, so no provider is
    called, no rate-limit token is taken and the breaker counts nothing. *)
Theorem injected_prompt_is_stopped_first (context : RequestContext)
    (provider0 model0 : string) (g : LLMGuardian) (k : nat) :
  enable_safety_checks (config g) = true ->
  _check_injection env (prompt context) = true ->
  execute_request env context provider0 model0 (g, k) =
    (Raise PromptInjectionError,
     (set_audit_logger
        (audit_logger g
         ++ [request_event context;
             error_event (ctx_request_id context) PromptInjectionError []]) g,
      k)).
Proof.
  intros Hsafety Hinjection.
  unfold execute_request, through_quality, step_input_validation, validate_input,
    except_Exception, log_request, log_error.
  cbn [bind zoom get modify ret raise try_except view update fst snd
       audit_logger_of config set_audit_logger audit_logger].
  rewrite Hsafety, Hinjection.
  cbn [bind zoom get modify ret raise try_except view update fst snd
       audit_logger_of config set_audit_logger audit_logger].
  change (isinstance PromptInjectionError Exception) with true. cbv iota.
  cbn [bind zoom get modify ret raise try_except view update fst snd
       audit_logger_of config set_audit_logger audit_logger].
  unfold set_audit_logger, request_event, error_event.
  cbn [config quality_monitor performance_monitor circuit_breaker rate_limiter
       retry_manager audit_logger state_manager llm_clients provider_calls].
  rewrite <- app_assoc. reflexivity.
Qed.

Lemma on_failure_closed_counts (cb : CircuitBreaker) (k : nat) :
  state cb = CLOSED ->
  let cb' := fst (snd (_on_failure env (cb, k))) in
  fst (_on_failure env (cb, k)) = Ok tt
  /\ total_failures cb' = total_failures cb + 1
  /\ failure_count cb' = failure_count cb + 1
  /\ total_calls cb' = total_calls cb
  /\ (failure_threshold cb <= failure_count cb + 1 -> state cb' = OPEN)
  /\ (failure_count cb + 1 < failure_threshold cb -> state cb' = CLOSED).
Proof.
  intros Hclosed. cbv zeta.
  destruct (Z_lt_le_dec (failure_count cb + 1) (failure_threshold cb)) as [Hbelow|Hreach].
  - rewrite on_failure_closed_below by assumption.
    cbn [fst snd total_failures failure_count total_calls state set_last_failure_time
         set_total_failures set_failure_count].
    repeat split; try reflexivity; intros; first [assumption | lia].
  - unfold _on_failure, _transition_to.
    run_with ltac:(rewrite ?Hclosed).
    repeat split; try reflexivity; intros; lia.
Qed.

(** X30. A request for a provider that has no client fails with
    [UnsupportedProviderError] without anything being sent to a provider,
    and the breaker, which expects any [Exception], records it as a
    failure like a provider outage: enough such requests open it. *)
Theorem unsupported_provider_counts_as_failure (context : RequestContext)
    (provider0 model0 : string) (g : LLMGuardian) (k : nat) :
  provider0 ∉ llm_clients g ->
  state (circuit_breaker g) = CLOSED ->
  expected_exception (circuit_breaker g) = Exception ->
  0 < max_attempts (retry_manager g) ->
  let run := call env circuit_breaker_of
               (_execute_with_retry env context provider0 model0) (g, k) in
  let breaker' := circuit_breaker (fst (snd run)) in
  fst run = Raise UnsupportedProviderError
  /\ provider_calls (fst (snd run)) = provider_calls g
  /\ total_failures breaker' = total_failures (circuit_breaker g) + 1
  /\ failure_count breaker' = failure_count (circuit_breaker g) + 1
  /\ (failure_threshold (circuit_breaker g) <= failure_count (circuit_breaker g) + 1 ->
      state breaker' = OPEN).
Proof.
  intros Hclient Hclosed Hexpected Hattempts. cbv zeta.
  unfold call, call_admit, call_attempt, _execute_with_retry, execute_with_retry,
    _call_llm, _get_llm_client.
  destruct (Z.to_nat (max_attempts (retry_manager g))) as [|attempts] eqn:Hn; [lia|].
  cbn [bind zoom get modify ret raise try_except view update fst snd retry_loop
       circuit_breaker_of circuit_breaker set_circuit_breaker retry_manager llm_clients
       state set_total_calls expected_exception].
  rewrite Hclosed.
  rewrite (bool_decide_eq_false_2 (CLOSED = OPEN)) by discriminate.
  cbn [bind zoom get modify ret raise try_except view update fst snd retry_loop
       circuit_breaker_of circuit_breaker set_circuit_breaker retry_manager llm_clients
       state set_total_calls expected_exception].
  rewrite Hn.
  cbn [bind zoom get modify ret raise try_except view update fst snd retry_loop
       circuit_breaker_of circuit_breaker set_circuit_breaker retry_manager llm_clients
       state set_total_calls expected_exception].
  rewrite (bool_decide_eq_false_2 (provider0 ∈ llm_clients g)) by exact Hclient.
  cbn [bind zoom get modify ret raise try_except view update fst snd retry_loop
       circuit_breaker_of circuit_breaker set_circuit_breaker retry_manager llm_clients
       state set_total_calls expected_exception].
  change (is_retryable UnsupportedProviderError) with false. cbv iota.
  cbn [bind zoom get modify ret raise try_except view update fst snd retry_loop
       circuit_breaker_of circuit_breaker set_circuit_breaker retry_manager llm_clients
       state set_total_calls expected_exception].
  rewrite Hexpected.
  change (isinstance UnsupportedProviderError Exception) with true. cbv iota.
  cbn [bind zoom get modify ret raise try_except view update fst snd
       circuit_breaker_of circuit_breaker set_circuit_breaker].
  destruct (on_failure_closed_counts
              (set_total_calls (total_calls (circuit_breaker g) + 1) (circuit_breaker g)) k)
    as (Hok & Hfailures & Hcount & _ & Hopen & _); [exact Hclosed|].
  cbn [set_total_calls] in Hok, Hfailures, Hcount, Hopen.
  destruct (_on_failure env _) as [r [breaker' k']].
  cbn [fst snd] in Hok, Hfailures, Hcount, Hopen. subst r.
  cbn [fst snd circuit_breaker set_circuit_breaker provider_calls].
  cbn [total_failures failure_count failure_threshold] in Hfailures, Hcount, Hopen.
  repeat split; assumption || reflexivity.
Qed.

(** ** Performance monitor *)

Lemma check_performance_anomalies_run (metrics : PerformanceMetrics)
    (self : PerformanceMonitor) (k : nat) :
  exists alerts,
    _check_performance_anomalies env metrics (self, k) =
      (Ok tt, (set_pf_active_alerts alerts self, k)).
Proof.
  destruct self as [cfg history sessions users resets p50 p95 alerts].
  unfold _check_performance_anomalies, _raise_performance_alert.
  cbn [bind get modify ret fst snd]. cbv zeta.
  case_bool_decide; [eexists; reflexivity|].
  destruct (Qgtb _ _), (Qgtb _ _); cbn [bind get modify ret fst snd];
    eexists; reflexivity.
Qed.

Lemma update_baselines_run (self : PerformanceMonitor) (k : nat) :
  exists p50 p95,
    _update_baselines env (self, k) = (Ok tt, (set_baselines p50 p95 self, k)).
Proof.
  destruct self as [cfg history sessions users resets p50 p95 alerts].
  unfold _update_baselines. cbn [bind get modify ret fst snd]. cbv zeta.
  case_bool_decide; do 2 eexists; reflexivity.
Qed.

(** Run [record_metrics] on a state, splitting on each test the state
    does not decide. *)
Ltac run_metrics :=
  unfold record_metrics, _check_budget_limits, _reset_daily_costs_if_needed;
  cbv zeta;
  repeat first
    [ progress cbn [bind get modify ret raise utcnow fst snd
                    set_metrics_history set_pf_session_costs set_user_costs
                    set_daily_cost_reset set_baselines set_pf_active_alerts
                    pf_config metrics_history pf_session_costs user_costs
                    daily_cost_reset latency_baseline_p50 latency_baseline_p95
                    pf_active_alerts
                    pm_request_id pm_latency_ms tokens_prompt tokens_completion
                    tokens_total pm_cost_usd pm_provider pm_model pm_timestamp]
    | match goal with
      | |- context [_check_performance_anomalies env ?m (?s, ?j)] =>
          destruct (check_performance_anomalies_run m s j) as [? ->]
      | |- context [_update_baselines env (?s, ?j)] =>
          destruct (update_baselines_run s j) as (? & ? & ->)
      end
    | match goal with
      | |- context [match ?x with _ => _ end] =>
          lazymatch type of x with
          | option _ => destruct x eqn:?
          | bool => destruct x eqn:?
          end
      end ].

Lemma record_metrics_run (response : LLMResponse) (context : RequestContext)
    (self : PerformanceMonitor) (k : nat) :
  let usage := default ∅ (raw_response response !! "usage"%string) in
  let metrics :=
    {| pm_request_id := request_id response;
       pm_latency_ms := latency_ms response;
       tokens_prompt := default 0 (usage !! "prompt_tokens"%string);
       tokens_completion := default 0 (usage !! "completion_tokens"%string);
       tokens_total := tokens_used response;
       pm_cost_usd := cost_usd response;
       pm_provider := provider response;
       pm_model := model response;
       pm_timestamp := timestamp response |} in
  let run := record_metrics env response context (self, k) in
  if Qgeb (latency_ms response) 0
     && bool_decide (0 <= default 0 (usage !! "prompt_tokens"%string))
     && bool_decide (0 <= default 0 (usage !! "completion_tokens"%string))
     && bool_decide (0 <= tokens_used response) && Qgeb (cost_usd response) 0
  then
    fst run =
      match max_cost_usd context with
      | Some limit =>
          if negb (Qeq_bool limit 0) && Qgtb (cost_usd response) limit
          then Raise BudgetExceededError else Ok metrics
      | None => Ok metrics
      end
    /\ metrics_history (fst (snd run)) =
         deque_append 10000 metrics (metrics_history self)
    /\ pf_session_costs (fst (snd run)) =
         match nonempty (session_id context) with
         | Some sid =>
             <[sid := (default 0%Q (pf_session_costs self !! sid) + cost_usd response)%Q]>
               (pf_session_costs self)
         | None => pf_session_costs self
         end
  else run = (Raise ValueError, (self, k)).
Proof.
  cbv zeta. run_metrics; first [reflexivity | repeat split; reflexivity].
Qed.

(** X28. [record_metrics] raises [ValueError] for a response with a
    negative latency, token count or cost, and then changes nothing.  In
    every other case the metrics are appended to the history and the cost
    is added to the session total before the budget is checked, so a
    request that ends in [BudgetExceededError] is on record all the same;
    that error is raised only for a cost above a non-zero [max_cost_usd],
    a limit of zero or none switching the check off. *)
Theorem record_metrics_outcomes (response : LLMResponse) (context : RequestContext)
    (self : PerformanceMonitor) (k : nat) :
  let run := record_metrics env response context (self, k) in
  let self' := fst (snd run) in
  (forall e, fst run = Raise e -> e = ValueError \/ e = BudgetExceededError)
  /\ (fst run = Raise ValueError -> snd run = (self, k))
  /\ (fst run <> Raise ValueError ->
      (exists metrics,
         last (metrics_history self') = Some metrics
         /\ pm_request_id metrics = request_id response
         /\ pm_cost_usd metrics = cost_usd response)
      /\ (forall sid, nonempty (session_id context) = Some sid ->
            pf_session_costs self' !! sid =
              Some (default 0 (pf_session_costs self !! sid) + cost_usd response)%Q))
  /\ (fst run = Raise BudgetExceededError ->
      exists limit,
        max_cost_usd context = Some limit
        /\ ~ (limit == 0)%Q /\ (limit < cost_usd response)%Q)
  /\ (max_cost_usd context = None \/ max_cost_usd context = Some 0%Q ->
      fst run <> Raise BudgetExceededError).
Proof.
  cbv zeta. pose proof (record_metrics_run response context self k) as Hrun.
  cbv zeta in Hrun.
  destruct (Qgeb (latency_ms response) 0 && _ && _ && _ && _).
  2: { rewrite Hrun. cbn [fst snd].
       split; [intros e [= <-]; left; reflexivity|].
       split; [reflexivity|]. split; [intros Hne; contradiction|].
       split; [discriminate|]. intros _. discriminate. }
  destruct Hrun as (Hresult & Hhistory & Hsessions).
  rewrite Hresult, Hhistory, Hsessions.
  split; [|split; [|split; [|split]]].
  - destruct (max_cost_usd context) as [limit|]; [|discriminate].
    destruct (negb (Qeq_bool limit 0) && Qgtb (cost_usd response) limit); [|discriminate].
    intros e [= <-]. right. reflexivity.
  - destruct (max_cost_usd context) as [limit|]; [|discriminate].
    destruct (negb (Qeq_bool limit 0) && Qgtb (cost_usd response) limit); discriminate.
  - intros _. split.
    + match goal with |- context [deque_append _ ?m _] => exists m end.
      split; [|split; reflexivity].
      unfold deque_append. change (10000 <=? 0) with false. cbv iota.
      destruct (_ <? _); apply last_snoc.
    + intros sid ->. apply lookup_insert_eq.
  - destruct (max_cost_usd context) as [limit|]; [|discriminate].
    destruct (Qeq_bool limit 0) eqn:Hzero; [discriminate|].
    destruct (Qgtb (cost_usd response) limit) eqn:Hover; [|discriminate].
    intros _. exists limit. split; [reflexivity|]. split.
    + apply Qeq_bool_neq. exact Hzero.
    + apply Qgtb_gt. exact Hover.
  - intros [-> | ->]; discriminate.
Qed.

End Properties.

(** * The properties at sample inputs *)

(** [sample_guardian] is what the constructor builds. *)
Example sample_guardian_is_initial :
  LLMGuardian_init clean_env (sample_config (Some "openai"%string)) (tt, 0%nat) =
    (Ok (sample_guardian (Some "openai"%string) (sample_breaker CLOSED None)), (tt, 2%nat)).
Proof. vm_compute. reflexivity. Qed.

(** C5 at a breaker that opened at time 0 with a 60 s recovery timeout,
    called at 0 ms: the call is rejected whatever the wrapped function. *)
Lemma open_breaker_blocks_calls_witness :
  state (sample_breaker OPEN (Some 0)) = OPEN
  /\ clock clean_env 0 - 0 < recovery_timeout (sample_breaker OPEN (Some 0))
  /\ call clean_env id_lens (ret "answer"%string) (sample_breaker OPEN (Some 0), 0%nat) =
       (Raise CircuitBreakerOpenError,
        (set_total_calls 1 (sample_breaker OPEN (Some 0)), 3%nat)).
Proof.
  split; [reflexivity|]. split; [reflexivity|].
  apply (proj1 (open_breaker_blocks_calls clean_env id_lens (ret "answer"%string)
                  (sample_breaker OPEN (Some 0)) 0%nat
                  (fun cb w0 => eq_refl) eq_refl) 0).
  - reflexivity.
  - reflexivity.
Defined.

(** C9 at the same rejected call. *)
Lemma rejected_call_only_counted_witness :
  let before := sample_breaker OPEN (Some 0) in
  let after :=
    fst (snd (call clean_env id_lens (ret "answer"%string) (before, 0%nat))) in
  total_calls after = 1 /\ state after = OPEN /\ failure_count after = 0
  /\ success_count after = 0 /\ last_failure_time after = Some 0.
Proof.
  cbv zeta.
  pose proof (rejected_call_only_counted clean_env id_lens (ret "answer"%string)
                (sample_breaker OPEN (Some 0)) 0%nat 0
                (fun cb w0 => eq_refl) eq_refl eq_refl eq_refl) as H.
  cbv zeta in H.
  destruct H as (_ & Hcalls & Hstate & Hfail & Hsucc & Hlast & _).
  repeat split; assumption.
Defined.

(** C7 at a bucket of capacity 2 refilled at one token per second, asked
    for 1, 1, 1 and 1 tokens one millisecond apart: three requests cannot
    all be granted out of two tokens. *)
Lemma token_bucket_conservation_witness :
  (0 <= refill_rate sample_bucket)%Q
  /\ (tokens sample_bucket <= inject_Z (capacity sample_bucket))%Q
  /\ last_refill sample_bucket <= clock clean_env 0
  /\ exists total tb',
       acquire_all clean_env [1; 1; 1; 1] (sample_bucket, 0%nat) = (Ok total, (tb', 4%nat))
       /\ (inject_Z total <=
             inject_Z (capacity sample_bucket)
             + refill_rate sample_bucket
               * total_seconds (last_refill tb' - last_refill sample_bucket))%Q.
Proof.
  assert (Hrate : (0 <= refill_rate sample_bucket)%Q) by (vm_compute; discriminate).
  assert (Htok : (0 <= tokens sample_bucket)%Q) by (vm_compute; discriminate).
  assert (Hcap : (tokens sample_bucket <= inject_Z (capacity sample_bucket))%Q)
    by (vm_compute; discriminate).
  assert (Hlast : last_refill sample_bucket <= clock clean_env 0) by (vm_compute; discriminate).
  assert (Hmono : forall i j : nat, (0 <= i <= j)%nat -> clock clean_env i <= clock clean_env j).
  { intros i j Hij. cbn. unfold sample_clock. lia. }
  repeat (split; [assumption|]).
  exact (proj1 (token_bucket_conservation clean_env [1; 1; 1; 1] sample_bucket 0%nat
                  Hrate Htok Hcap Hlast Hmono)).
Defined.

(** The run behind it: two tokens are handed out, the last two requests
    are refused. *)
Example sample_bucket_hands_out_two :
  fst (acquire_all clean_env [1; 1; 1; 1] (sample_bucket, 0%nat)) = Ok 2.
Proof. vm_compute. reflexivity. Qed.

(** C8 at a three-word answer matching four hallucination patterns: the
    assessment returns, the response is flagged as hallucination and its
    level is the category of its score. *)
Lemma quality_level_matches_score_witness :
  exists assessment qm' response' k',
    assess_quality doubtful_env sample_context
      ((quality_monitor (sample_guardian None (sample_breaker CLOSED None)),
        sample_response "openai" "gpt-3.5-turbo"), 0%nat)
      = (Ok assessment, ((qm', response'), k'))
    /\ is_hallucination response' = true
    /\ quality_level response' = _categorize_quality (quality_score response')
    /\ (7 # 10 < hallucination_probability assessment)%Q.
Proof.
  do 4 eexists.
  split; [vm_compute; reflexivity|].
  split; [reflexivity|].
  match goal with
  | |- quality_level ?r = _ /\ (_ < hallucination_probability ?a)%Q =>
      destruct (quality_level_matches_score doubtful_env sample_context
                  (quality_monitor (sample_guardian None (sample_breaker CLOSED None)))
                  _ (sample_response "openai" "gpt-3.5-turbo") r 0%nat _ a
                  ltac:(vm_compute; reflexivity))
        as (Hlevel & _ & _ & _ & _ & _ & Hhall)
  end.
  split; [exact Hlevel | apply Hhall; reflexivity].
Defined.

(** C10 at a three-word answer on which every pattern matches: the
    assessment raises, and the response it leaves behind is annotated. *)
Lemma annotations_kept_on_quality_failure_witness :
  let run :=
    assess_quality alarming_env sample_context
      ((quality_monitor (sample_guardian None (sample_breaker CLOSED None)),
        sample_response "openai" "gpt-3.5-turbo"), 0%nat) in
  fst run = Raise QualityCheckFailedError
  /\ is_hallucination (snd (fst (snd run))) = true
  /\ contains_harmful_content (snd (fst (snd run))) = true
  /\ quality_level (snd (fst (snd run))) = UNSAFE
  /\ quality_history (fst (fst (snd run))) = [quality_score (snd (fst (snd run)))].
Proof.
  cbv zeta.
  destruct (annotations_kept_on_quality_failure alarming_env sample_context
              (quality_monitor (sample_guardian None (sample_breaker CLOSED None)))
              (sample_response "openai" "gpt-3.5-turbo") 0%nat)
    as (Hhall & Hharm & _ & Hscore & Hlevel & Hhist & _).
  split; [vm_compute; reflexivity|].
  split; [rewrite Hhall; vm_compute; reflexivity|].
  split; [rewrite Hharm; vm_compute; reflexivity|].
  split; [rewrite Hlevel; vm_compute; reflexivity|].
  rewrite Hhist, Hscore. reflexivity.
Defined.



(** C3, as stated, fails: with the breaker OPEN and its recovery timeout
    not elapsed, the primary call is rejected, yet the fallback provider
    is called and answers; the breaker stays OPEN and records neither a
    success nor a failure for the fallback call. *)
Lemma fallback_ignores_open_breaker :
  let g := plain_guardian (Some "openai"%string) (sample_breaker OPEN (Some 0)) in
  let run :=
    execute_request (story_env kind_story) sample_context "anthropic" "claude-3-5-sonnet"
      (g, 2%nat) in
  state (circuit_breaker g) = OPEN
  /\ (snd (snd run) <= 20)%nat
  /\ clock (story_env kind_story) 20 - 0 < recovery_timeout (circuit_breaker g)
  /\ (exists response, fst run = Ok response /\ provider response = "openai"%string)
  /\ provider_calls (fst (snd run)) = [("openai", "gpt-3.5-turbo")]%string
  /\ state (circuit_breaker (fst (snd run))) = OPEN
  /\ total_successes (circuit_breaker (fst (snd run))) = 0
  /\ total_failures (circuit_breaker (fst (snd run))) = 0.
Proof.
  cbv zeta. split; [reflexivity|].
  split; [vm_compute; repeat constructor|]. split; [reflexivity|].
  split; [eexists; split; [vm_compute; reflexivity | reflexivity]|].
  repeat split; vm_compute; reflexivity.
Qed.

(** The fallback handler on its own, at the same OPEN breaker. *)
Example fallback_handler_ignores_open_breaker :
  let g := plain_guardian (Some "openai"%string) (sample_breaker OPEN (Some 0)) in
  let run :=
    _handle_failure_with_fallback (story_env kind_story) sample_context
      CircuitBreakerOpenError (g, 2%nat) in
  fst run = Ok (story_response kind_story "gpt-3.5-turbo")
  /\ provider_calls (fst (snd run)) = [("openai", "gpt-3.5-turbo")]%string
  /\ circuit_breaker (fst (snd run)) = sample_breaker OPEN (Some 0).
Proof. cbv zeta. repeat split; vm_compute; reflexivity. Qed.

(** C2, as stated, fails: with [max_attempts] 1, the primary call fails,
    the fallback answers [cruel_story], which scores 0.6 and is flagged
    harmful, and the critical output verdict starts the fallback again:
    three provider calls, two of them to the fallback provider. *)
Lemma fallback_can_run_twice :
  let g := plain_guardian (Some "openai"%string) (sample_breaker CLOSED None) in
  let run :=
    execute_request (story_env cruel_story) sample_context "anthropic" "claude-3-5-sonnet"
      (g, 2%nat) in
  attempts_allowed (retry_manager g) = 1%nat
  /\ provider_calls (fst (snd run)) =
       [("anthropic", "claude-3-5-sonnet"); ("openai", "gpt-3.5-turbo");
        ("openai", "gpt-3.5-turbo")]%string
  /\ ~ (length (provider_calls (fst (snd run)))
         <= length (provider_calls g) + 2 * attempts_allowed (retry_manager g))%nat.
Proof.
  cbv zeta.
  assert (Hcalls :
    provider_calls
      (fst (snd (execute_request (story_env cruel_story) sample_context
                   "anthropic" "claude-3-5-sonnet"
                   (plain_guardian (Some "openai"%string) (sample_breaker CLOSED None),
                    2%nat)))) =
      [("anthropic", "claude-3-5-sonnet"); ("openai", "gpt-3.5-turbo");
       ("openai", "gpt-3.5-turbo")]%string) by (vm_compute; reflexivity).
  split; [reflexivity|]. split; [exact Hcalls|].
  rewrite Hcalls. intros Hle. vm_compute in Hle. lia.
Qed.

(** What quality assessment makes of [cruel_story] in that run. *)
Example cruel_story_is_critical :
  let g := plain_guardian (Some "openai"%string) (sample_breaker CLOSED None) in
  let assessed :=
    snd (fst (snd (assess_quality (story_env cruel_story) sample_context
                     ((quality_monitor g, story_response cruel_story "gpt-3.5-turbo"),
                      0%nat)))) in
  (quality_score assessed == 6 # 10)%Q
  /\ contains_harmful_content assessed = true
  /\ is_hallucination assessed = false
  /\ is_off_task assessed = false
  /\ severity (validate_output assessed) = "critical"%string.
Proof. cbv zeta. repeat split; vm_compute; reflexivity. Qed.


(** The same request with a fallback that answers: the audit log holds an
    [error] event and a [response] event. *)
Example fallback_success_is_audited_as_both :
  let g := plain_guardian (Some "openai"%string) (sample_breaker CLOSED None) in
  let run :=
    execute_request (story_env kind_story) sample_context "anthropic" "claude-3-5-sonnet"
      (g, 2%nat) in
  map event_type (audit_logger (fst (snd run))) = ["request"; "error"; "response"]%string.
Proof. vm_compute. reflexivity. Qed.

(** With [enable_recovery] on, every request that passes validation and
    rate limiting ends at step 4: the checkpoint cannot be written, no
    provider is called, and the empty checkpoint file is left behind. *)
Example checkpoint_stops_request :
  let g := sample_guardian None (sample_breaker CLOSED None) in
  let run :=
    execute_request (story_env kind_story) sample_context "openai" "gpt-3.5-turbo"
      (g, 2%nat) in
  fst run = Raise CheckpointSaveError
  /\ provider_calls (fst (snd run)) = []
  /\ state_manager (fst (snd run)) !! "req-1"%string = Some EmptyString
  /\ map (fun ev => (event_type ev, error_type ev)) (audit_logger (fst (snd run))) =
       [("request"%string, None); ("error"%string, Some CheckpointSaveError)].
Proof. cbv zeta. repeat split; vm_compute; reflexivity. Qed.

(** [story_env] on the three sentences: the values of
    [re.findall(r"\b[a-z]+\b", text.lower())] and [len(text.split())]. *)
Example story_env_words :
  find_words (story_env kind_story) (prompt sample_context) = ["tell"; "a"; "story"]%string
  /\ find_words (story_env kind_story) kind_story =
       ["i"; "will"; "tell"; "a"; "story"; "about"; "a"; "quiet"; "village"; "by"; "the";
        "sea"; "and"; "the"; "people"; "who"; "live"; "there"]%string
  /\ find_words (story_env kind_story) cruel_story =
       ["i"; "will"; "tell"; "a"; "story"; "where"; "they"; "attack"; "with"; "a";
        "weapon"; "and"; "hurt"; "people"; "badly"]%string
  /\ word_count (story_env kind_story) (prompt sample_context) = 3
  /\ word_count (story_env kind_story) kind_story = 18
  /\ word_count (story_env kind_story) cruel_story = 15
  /\ String.length kind_story = 83%nat
  /\ String.length cruel_story = 74%nat.
Proof. repeat split; vm_compute; reflexivity. Qed.

(** [plain_guardian] is what the constructor builds from [plain_config]. *)
Example plain_guardian_is_initial :
  LLMGuardian_init clean_env (plain_config (Some "openai"%string)) (tt, 0%nat) =
    (Ok (plain_guardian (Some "openai"%string) (sample_breaker CLOSED None)), (tt, 2%nat)).
Proof. vm_compute. reflexivity. Qed.

(** C6 at the sample breaker in HALF_OPEN, whose [success_threshold] is
    2: a call failing with [ConnectionError] opens it, a first successful
    call leaves it HALF_OPEN, a second one closes it. *)
Lemma half_open_call_outcomes_witness :
  let cb := sample_breaker HALF_OPEN (Some 0) in
  let down := raise ConnectionError : M unit string in
  let up := ret "answer"%string : M unit string in
  state (fst (fst (snd (guarded clean_env down ((cb, tt), 0%nat))))) = OPEN
  /\ state (fst (fst (snd (guarded clean_env up ((cb, tt), 0%nat))))) = HALF_OPEN
  /\ state (fst (fst (snd (guarded clean_env up ((set_success_count 1 cb, tt), 0%nat)))))
       = CLOSED.
Proof.
  cbv zeta.
  destruct (half_open_call_outcomes clean_env (raise ConnectionError : M unit string)
              (sample_breaker HALF_OPEN (Some 0)) tt 0%nat eq_refl)
    as (_ & Hfailure & _).
  destruct (half_open_call_outcomes clean_env (ret "answer"%string : M unit string)
              (sample_breaker HALF_OPEN (Some 0)) tt 0%nat eq_refl)
    as (_ & _ & _ & Hfirst & _).
  destruct (half_open_call_outcomes clean_env (ret "answer"%string : M unit string)
              (set_success_count 1 (sample_breaker HALF_OPEN (Some 0))) tt 0%nat eq_refl)
    as (_ & _ & _ & Hsecond & _).
  split; [exact (proj1 (Hfailure ConnectionError eq_refl eq_refl))|].
  split.
  - apply (Hfirst "answer"%string eq_refl). reflexivity.
  - apply (Hsecond "answer"%string eq_refl). vm_compute. discriminate.
Defined.

(** C6, as stated, fails.  A wrapped call cancelled in HALF_OPEN raises
    [CancelledError], which the default [expected_exception] does not
    cover: the breaker stays HALF_OPEN.  A breaker built with
    [expected_exception=LLMProviderError] stays HALF_OPEN when the wrapped
    call fails with [ValueError]; and of three calls, the first and the
    third answering and the second failing in this way, the third closes
    the breaker: the two successes are not consecutive. *)
Lemma half_open_survives_uncounted_failure :
  let cb := sample_breaker HALF_OPEN (Some 0) in
  let cancelled := guarded clean_env (raise CancelledError : M unit string) ((cb, tt), 0%nat) in
  let failed :=
    guarded clean_env (raise ValueError : M unit string) ((narrow_breaker, tt), 0%nat) in
  let calls (n : nat) :=
    guarded_attempts clean_env (interrupted_call ValueError) n
      ((narrow_breaker, 0%nat), 0%nat) in
  fst cancelled = Raise CancelledError
  /\ state (fst (fst (snd cancelled))) = HALF_OPEN
  /\ fst failed = Raise ValueError
  /\ state (fst (fst (snd failed))) = HALF_OPEN
  /\ fst (interrupted_call ValueError (0%nat, 0%nat)) = Ok "answer"%string
  /\ fst (interrupted_call ValueError (1%nat, 0%nat)) = Raise ValueError
  /\ fst (interrupted_call ValueError (2%nat, 0%nat)) = Ok "answer"%string
  /\ state (fst (fst (snd (calls 2%nat)))) = HALF_OPEN
  /\ state (fst (fst (snd (calls 3%nat)))) = CLOSED
  /\ success_threshold narrow_breaker = 2.
Proof. cbv zeta. repeat split; vm_compute; reflexivity. Qed.

(** X1 at the sample breaker, whose threshold is 5: four failures leave
    it CLOSED, the fifth opens it. *)
Lemma closed_breaker_opens_at_threshold_witness :
  let cb := sample_breaker CLOSED None in
  state (fst (snd (failures clean_env 4 (cb, 0%nat)))) = CLOSED
  /\ state (fst (snd (failures clean_env 5 (cb, 0%nat)))) = OPEN.
Proof.
  cbv zeta.
  destruct (closed_breaker_opens_at_threshold clean_env (sample_breaker CLOSED None)
              0%nat 4%nat eq_refl eq_refl) as [[Hclosed _] Hopen].
  split; [exact Hclosed|]. apply Hopen. vm_compute. discriminate.
Defined.

(** X2 at the sample breaker: after a success, four failures leave it
    CLOSED. *)
Lemma success_restarts_failure_count_witness :
  let cb := sample_breaker CLOSED None in
  failure_count (fst (snd (_on_success clean_env (cb, 0%nat)))) = 0
  /\ state (fst (snd (bind (_on_success clean_env) (fun _ => failures clean_env 4)
                          (cb, 0%nat)))) = CLOSED.
Proof.
  cbv zeta.
  destruct (success_restarts_failure_count clean_env (sample_breaker CLOSED None)
              0%nat 4%nat eq_refl eq_refl) as (Hcount & Hclosed & _).
  split; [exact Hcount | exact Hclosed].
Defined.

(** X3 at the sample breaker. *)
Lemma breaker_stays_consistent_witness :
  let cb := sample_breaker CLOSED None in
  breaker_consistent cb
  /\ breaker_consistent (fst (snd (_on_failure clean_env (cb, 0%nat))))
  /\ breaker_consistent (fst (snd (reset clean_env (cb, 0%nat)))).
Proof.
  cbv zeta.
  assert (Hconsistent : breaker_consistent (sample_breaker CLOSED None))
    by (split; [discriminate | reflexivity]).
  destruct (breaker_stays_consistent clean_env (sample_breaker CLOSED None) 0%nat
              Hconsistent) as (_ & _ & Hfailure & Hreset).
  split; [exact Hconsistent|]. split; [exact Hfailure | exact Hreset].
Defined.

(** X6 at a cancelled call through the sample breaker, which expects
    [Exception]: only [total_calls] moves. *)
Lemma unexpected_exception_not_counted_witness :
  guarded clean_env (raise CancelledError : M unit string)
    ((sample_breaker CLOSED None, tt), 0%nat) =
    (Raise CancelledError,
     ((set_total_calls 1 (sample_breaker CLOSED None), tt), 0%nat)).
Proof.
  apply (unexpected_exception_not_counted clean_env (raise CancelledError : M unit string)
           (sample_breaker CLOSED None) tt tt 0%nat 0%nat CancelledError).
  - discriminate.
  - reflexivity.
  - reflexivity.
Defined.

(** X7 at the sample breaker and a provider that is down: CLOSED after
    four calls, OPEN after the fifth. *)
Lemma repeated_failures_open_breaker_witness :
  let start := ((sample_breaker CLOSED None, tt), 0%nat) in
  let down := raise ConnectionError : M unit string in
  state (fst (fst (snd (guarded_attempts clean_env down 4 start)))) = CLOSED
  /\ state (fst (fst (snd (guarded_attempts clean_env down 5 start)))) = OPEN.
Proof.
  cbv zeta.
  destruct (repeated_failures_open_breaker clean_env
              (raise ConnectionError : M unit string) ConnectionError 4
              (sample_breaker CLOSED None) tt 0%nat eq_refl eq_refl eq_refl
              (fun s => eq_refl)) as (Hclosed & Hopen & _).
  split; [exact Hclosed | exact Hopen].
Defined.

(** X11 at a full window: the third request of user-1 within the minute
    is refused and the deque stays in order. *)
Lemma sliding_window_keeps_recent_witness :
  let run := check_rate_limit clean_env "user-1" (sample_window, 2%nat) in
  fst run = Raise RateLimitExceededError
  /\ oldest_first (requests (fst (snd run)))
  /\ requests_of "user-1" (requests (fst (snd run))) <= sw_max_requests sample_window.
Proof.
  cbv zeta.
  assert (Hwindow : 0 <= window sample_window) by (vm_compute; discriminate).
  assert (Hordered : oldest_first (requests sample_window)).
  { cbn. repeat split; repeat constructor. cbn. lia. }
  assert (Hpast : Forall (fun r => snd r <= clock clean_env 2) (requests sample_window)).
  { repeat constructor; vm_compute; discriminate. }
  destruct (sliding_window_keeps_recent clean_env "user-1" sample_window 2%nat
              Hwindow Hordered Hpast) as (_ & Hsorted & _ & _ & _ & Hlimit).
  split; [vm_compute; reflexivity|]. split; [exact Hsorted|].
  apply Hlimit. vm_compute. discriminate.
Defined.

(** X13 at session-1, which has spent 1.20 of its 10 USD: once 9 USD more
    are recorded, the next request of the session is refused. *)
Lemma spent_session_is_rejected_witness :
  exists e,
    fst (check_limits clean_env sample_context
           (fst (snd (record_cost clean_env sample_context 9 (spent_limiter, 0%nat))),
            1%nat)) = Raise e
    /\ (e = RateLimitExceededError \/ e = QuotaExceededError).
Proof.
  apply (spent_session_is_rejected clean_env sample_context sample_context 9
           spent_limiter 0%nat 1%nat "session-1" 10).
  - reflexivity.
  - reflexivity.
  - reflexivity.
  - vm_compute. discriminate.
Defined.

(** X14 at user-1 with the daily quota of 100 USD used up, on the day of
    the last reset. *)
Lemma exhausted_quota_is_rejected_that_day_witness :
  exists e,
    fst (check_limits frozen_env sample_context (exhausted_limiter, 0%nat)) = Raise e
    /\ (e = RateLimitExceededError \/ e = QuotaExceededError).
Proof.
  apply (exhausted_quota_is_rejected_that_day frozen_env sample_context
           exhausted_limiter 0%nat "user-1" 100 100 0).
  - reflexivity.
  - reflexivity.
  - vm_compute. reflexivity.
  - vm_compute. reflexivity.
  - vm_compute. discriminate.
  - intros j. vm_compute. discriminate.
Defined.

(** X16 at three attempts against a provider that is down. *)
Lemma retries_exhausted_after_max_attempts_witness :
  execute_with_retry {| max_attempts := 3 |} (raise ConnectionError : M unit string)
    (tt, 0%nat) = (Raise RetryExhaustedError, (tt, 0%nat)).
Proof.
  apply (retries_exhausted_after_max_attempts {| max_attempts := 3 |}
           (raise ConnectionError : M unit string) (tt, 0%nat)).
  intros s'. exists ConnectionError. split; reflexivity.
Defined.

(** X17 at a call that fails twice and then answers, with three attempts
    allowed: the answer of the third call is returned. *)
Lemma retry_returns_first_final_outcome_witness :
  execute_with_retry {| max_attempts := 3 |} flaky_call (0%nat, 0%nat) =
    (Ok "answer"%string, (3%nat, 0%nat)).
Proof.
  apply (retry_returns_first_final_outcome {| max_attempts := 3 |} flaky_call
           (0%nat, 0%nat) 2).
  - reflexivity.
  - intros i Hi. exists ConnectionError.
    destruct i as [|[|i]]; [split; reflexivity | split; reflexivity | lia].
  - intros e Hraise. vm_compute in Hraise. discriminate Hraise.
Defined.

(** X18 at the third attempt of the default strategy with a draw of
    one half. *)
Lemma get_delay_bounds_witness :
  (0 <= get_delay sample_strategy 2 (1 # 2) <= max_delay sample_strategy)%Q.
Proof.
  apply (get_delay_bounds sample_strategy 2 (1 # 2)).
  - vm_compute. discriminate.
  - vm_compute. discriminate.
  - vm_compute. discriminate.
  - split; vm_compute; discriminate.
Defined.

(** X23 at the three-word answer matching four hallucination patterns:
    the assessment is returned, and it does not recommend rejection
    because no safety category is in violation. *)
Lemma returned_assessment_verdict_witness :
  exists assessment s',
    assess_quality doubtful_env sample_context
      ((quality_monitor (sample_guardian None (sample_breaker CLOSED None)),
        sample_response "openai" "gpt-3.5-turbo"), 0%nat)
      = (Ok assessment, s')
    /\ (recommended_action assessment = "reject"%string
        <-> safety_violations assessment <> []).
Proof.
  do 2 eexists.
  split; [vm_compute; reflexivity|].
  match goal with
  | |- recommended_action ?a = _ <-> _ =>
      exact (proj1 (returned_assessment_verdict doubtful_env sample_context
                      (quality_monitor (sample_guardian None (sample_breaker CLOSED None)))
                      (sample_response "openai" "gpt-3.5-turbo") 0%nat a _
                      ltac:(vm_compute; reflexivity)))
  end.
Defined.

(** X25 at the first assessment of a new monitor. *)
Lemma quality_history_stays_bounded_witness :
  let run :=
    assess_quality clean_env sample_context
      ((quality_monitor (sample_guardian None (sample_breaker CLOSED None)),
        sample_response "openai" "gpt-3.5-turbo"), 0%nat) in
  (length (quality_history (fst (fst (snd run)))) <= 1000)%nat.
Proof.
  cbv zeta.
  refine (proj1 (quality_history_stays_bounded clean_env sample_context
                   (quality_monitor (sample_guardian None (sample_breaker CLOSED None)))
                   (sample_response "openai" "gpt-3.5-turbo") 0%nat _)).
  cbn. lia.
Defined.

(** X29 at a prompt on which every pattern matches. *)
Lemma injected_prompt_is_stopped_first_witness :
  let g := sample_guardian None (sample_breaker CLOSED None) in
  execute_request alarming_env sample_context "openai" "gpt-4" (g, 0%nat) =
    (Raise PromptInjectionError,
     (set_audit_logger
        [request_event sample_context;
         error_event "req-1" PromptInjectionError []] g, 0%nat)).
Proof.
  cbv zeta.
  apply (injected_prompt_is_stopped_first alarming_env sample_context "openai" "gpt-4"
           (sample_guardian None (sample_breaker CLOSED None)) 0%nat).
  - reflexivity.
  - vm_compute. reflexivity.
Defined.

(** X30 at a provider the sample guardian has no client for. *)
Lemma unsupported_provider_counts_as_failure_witness :
  let g := sample_guardian None (sample_breaker CLOSED None) in
  let run := call clean_env circuit_breaker_of
               (_execute_with_retry clean_env sample_context "mistral" "mistral-large")
               (g, 0%nat) in
  fst run = Raise UnsupportedProviderError
  /\ provider_calls (fst (snd run)) = provider_calls g
  /\ failure_count (circuit_breaker (fst (snd run))) = 1.
Proof.
  cbv zeta.
  destruct (unsupported_provider_counts_as_failure clean_env sample_context
              "mistral" "mistral-large"
              (sample_guardian None (sample_breaker CLOSED None)) 0%nat)
    as (Hraise & Hcalls & _ & Hcount & _).
  - apply (bool_decide_unpack _). vm_compute. exact I.
  - reflexivity.
  - reflexivity.
  - reflexivity.
  - split; [exact Hraise|]. split; [exact Hcalls | exact Hcount].
Defined.

(** X20 at a request whose forbidden pattern is an open bracket:
    [re.search] raises [re.error], and the request ends there, audited
    once. *)
Example invalid_forbidden_pattern_raises :
  let g := plain_guardian None (sample_breaker CLOSED None) in
  let run := execute_request bracket_env bracket_context "openai" "gpt-3.5-turbo" (g, 2%nat) in
  fst (validate_input bracket_env (safety (config g)) bracket_context (tt, 0%nat))
    = Raise ReError
  /\ fst run = Raise ReError
  /\ provider_calls (fst (snd run)) = []
  /\ map (fun ev => (event_type ev, error_type ev)) (audit_logger (fst (snd run))) =
       [("request"%string, None); ("error"%string, Some ReError)].
Proof. cbv zeta. repeat split; vm_compute; reflexivity. Qed.
